(** * A crypto-price pipeline: collector, backfill and forecaster

    Shallow embedding of the three batch jobs of the repository

      - [crypto_etl.py]               (the collector),
      - [crypto_historical_etl.py]    (the backfill job),
      - [bitcoin_prophet_forecast.py] (the forecaster),

    over an explicit model of what they talk to: the JSON answers of the
    market-data API, the process environment, the two PostgreSQL tables
    [crypto_prices] and [crypto_predictions], and the log.

    Python code is written in a small state-and-exception monad [M]; a
    job is a computation in [M] and a run is its evaluation on a world. *)

From Stdlib Require Import List String Ascii ZArith QArith Bool Lia.
From Stdlib Require Import Sorted Permutation.
Import ListNotations.

Local Open Scope string_scope.
Local Open Scope Z_scope.

(* ================================================================== *)
(** ** Python values *)
(* ================================================================== *)

(** A decoded JSON document, as [response.json()] returns it. *)
#[warnings="-register-all"]
Inductive json : Type :=
| JNull
| JBool (b : bool)
| JNum (x : Q)
| JStr (s : string)
| JArr (items : list json)
| JObj (fields : list (string * json)).

(** The values that end up in the cells of a DataFrame and in the
    parameters of a SQL statement.  [PyNone], [PyNaN] and [PyNaT] are the
    three ways pandas writes a missing value; [PyObj] is a list or a dict
    taken over from a JSON answer.  Times are microseconds on one time
    line. *)
Inductive pyval : Type :=
| PyNone
| PyNaN
| PyNaT
| PyBool (b : bool)
| PyInt (n : Z)
| PyFloat (x : Q)
| PyStr (s : string)
| PyTime (t : Z)
| PyObj (j : json).

(** A Python dict with string keys: insertion-ordered pairs. *)
Definition dict (A : Type) : Type := list (string * A).

Fixpoint lookup {A : Type} (k : string) (d : dict A) : option A :=
  match d with
  | [] => None
  | (k', v) :: d' => if (k' =? k)%string then Some v else lookup k d'
  end.

Definition keys {A : Type} (d : dict A) : list string := map fst d.
Definition values {A : Type} (d : dict A) : list A := map snd d.

(** [x in l] for a list of strings. *)
Definition mem (x : string) (l : list string) : bool :=
  existsb (fun y => (y =? x)%string) l.

(** Truthiness of a decoded JSON value ([if v:], [a and b]). *)
Definition truthy (j : json) : bool :=
  match j with
  | JNull => false
  | JBool b => b
  | JNum x => negb (Qeq_bool x 0)
  | JStr s => negb (s =? "")%string
  | JArr l => match l with [] => false | _ => true end
  | JObj l => match l with [] => false | _ => true end
  end.

(** The cell a JSON value becomes when it is stored in a row dict. *)
Definition cell_of_json (j : json) : pyval :=
  match j with
  | JNull => PyNone
  | JBool b => PyBool b
  | JNum x => PyFloat x
  | JStr s => PyStr s
  | JArr _ | JObj _ => PyObj j
  end.

(** [pd.isna(val)] on a scalar cell. *)
Definition isna (v : pyval) : bool :=
  match v with
  | PyNone | PyNaN | PyNaT => true
  | _ => false
  end.

(* ================================================================== *)
(** ** Exceptions, log records, requests *)
(* ================================================================== *)

(** Errors the database or its driver answers a statement with. *)
Inductive pg_error : Type :=
| UndefinedTable (name : string)
| DuplicateTable (name : string)
| UndefinedColumn (name : string)
| NotNullViolation (column : string)
| UniqueViolation (constraint : string)
| CannotAdapt
| OperationalError.

Inductive exn : Type :=
| KeyError (k : string)
| TypeError
| AttributeError
| ValueError
| IndexError
| RequestException
| OSError
| ProphetError
| DatabaseError (e : pg_error).

Inductive level : Type := INFO | WARNING | ERROR.

(** What an f-string interpolates into a log line. *)
Inductive arg : Type :=
| AStr (s : string)
| AInt (n : Z)
| ANames (l : list string)
| AOpt (o : option string)
| AVal (v : pyval)
| AExn (e : exn).

Record log_record : Type := Log
  { lvl : level; msg : string; args : list arg }.

Inductive request : Type :=
| GetCoin (coin : string)
| GetMarketChart (coin : string) (days : Z).

(* ================================================================== *)
(** ** The relational store *)
(* ================================================================== *)

(** A stored row: one value per column of its table. *)
Definition row : Type := dict pyval.

Record table : Type := Table
  { columns : list string; rows : list row }.

(** A row of [crypto_predictions], by the six columns the forecaster
    writes and reads. *)
Record prediction : Type := Prediction
  { ds : pyval;
    yhat : pyval;
    yhat_lower : pyval;
    yhat_upper : pyval;
    symbol : pyval;
    created_at : pyval }.

Record database : Type := Database
  { crypto_prices : option table;
    crypto_predictions : option (list prediction) }.

(** The world a job runs in.  [committed] is what the database holds
    durably; [session] is what the job's connection sees inside its open
    transaction; [commit] copies the second onto the first and [rollback]
    the first onto the second.  [serial] is the sequence behind
    [crypto_prices.id]: sequences are not transactional.  [log] and
    [requests] are newest first. *)
Record world : Type := World
  { committed : database;
    session : database;
    serial : Z;
    log : list log_record;
    requests : list request;
    files : list string;
    ticks : nat }.

(** What lies outside the program and is fixed for one run. *)
Record environ : Type := Environ
  { getenv : string -> option string;
    (* the decoded answer to a GET; [None]: the request raises
       (time-out, connection error, non-2xx status, undecodable body) *)
    http_get : request -> option json;
    (* the n-th reading of [datetime.now()] *)
    datetime_now : nat -> Z;
    (* [datetime.fromtimestamp] on a number of seconds; [None]: it
       raises (the number is out of range) *)
    fromtimestamp : Q -> option Z;
    (* [pd.to_datetime]; [None]: it raises *)
    to_datetime : json -> option pyval;
    (* whether [psycopg2.connect] / the engine reaches the server with
       the given host, port, dbname, user, password *)
    pg_connect : list (option string) -> bool;
    (* the server's [CURRENT_TIMESTAMP] / [NOW()] *)
    pg_now : Z;
    (* whether files can be written under the data directory *)
    fs_writable : bool;
    (* Prophet, a library outside the repository: the fit on the
       (ds, y) rows ([None]: it raises) and the prediction of the fitted
       model at a date, as (yhat, yhat_lower, yhat_upper) *)
    prophet_fit :
      list (pyval * pyval) -> option (Z -> pyval * pyval * pyval) }.

(* ================================================================== *)
(** ** The monad of jobs *)
(* ================================================================== *)

(** How a computation ends: with a value, with a raised exception, or
    with [exit(code)] (a [SystemExit], which [except Exception] does not
    catch). *)
Inductive outcome (A : Type) : Type :=
| Ok (a : A)
| Raise (e : exn)
| SysExit (code : Z).

Arguments Ok {A} a.
Arguments Raise {A} e.
Arguments SysExit {A} code.

Definition M (A : Type) : Type := world -> outcome A * world.

Definition ret {A : Type} (a : A) : M A := fun w => (Ok a, w).

Definition bind {A B : Type} (c : M A) (k : A -> M B) : M B :=
  fun w =>
    match c w with
    | (Ok a, w') => k a w'
    | (Raise e, w') => (Raise e, w')
    | (SysExit n, w') => (SysExit n, w')
    end.

Definition raise {A : Type} (e : exn) : M A := fun w => (Raise e, w).
Definition exit {A : Type} (code : Z) : M A := fun w => (SysExit code, w).

(** [try: c  except Exception as e: h e] *)
Definition try_except {A : Type} (c : M A) (h : exn -> M A) : M A :=
  fun w =>
    match c w with
    | (Raise e, w') => h e w'
    | r => r
    end.

(** [try: c  finally: f] *)
Definition try_finally {A : Type} (c : M A) (f : M unit) : M A :=
  fun w =>
    match c w with
    | (r, w') =>
        match f w' with
        | (Ok _, w'') => (r, w'')
        | (Raise e, w'') => (Raise e, w'')
        | (SysExit n, w'') => (SysExit n, w'')
        end
    end.

Declare Scope job_scope.
Delimit Scope job_scope with job.
Notation "x <- c ;; k" := (bind c (fun x => k))
  (at level 61, c at next level, right associativity) : job_scope.
Notation "c ;; k" := (bind c (fun _ => k))
  (at level 61, right associativity) : job_scope.
Local Open Scope job_scope.

Definition get : M world := fun w => (Ok w, w).

(** The exit status the operating system sees. *)
Definition exit_status {A : Type} (r : outcome A) : Z :=
  match r with
  | Ok _ => 0
  | Raise _ => 1
  | SysExit n => n
  end.

Definition logger (l : level) (m : string) (a : list arg) : M unit :=
  fun w =>
    (Ok tt,
     World (committed w) (session w) (serial w)
           (Log l m a :: log w) (requests w) (files w) (ticks w)).

Definition set_session (d : database) : M unit :=
  fun w =>
    (Ok tt,
     World (committed w) d (serial w) (log w) (requests w) (files w)
           (ticks w)).

Definition set_serial (n : Z) : M unit :=
  fun w =>
    (Ok tt,
     World (committed w) (session w) n (log w) (requests w) (files w)
           (ticks w)).

(** [conn.commit()] *)
Definition commit : M unit :=
  fun w =>
    (Ok tt,
     World (session w) (session w) (serial w) (log w) (requests w)
           (files w) (ticks w)).

(** [conn.rollback()]; [conn.close()] discards an open transaction the
    same way. *)
Definition rollback : M unit :=
  fun w =>
    (Ok tt,
     World (committed w) (committed w) (serial w) (log w) (requests w)
           (files w) (ticks w)).

Definition close : M unit := rollback.

(* ================================================================== *)
(** ** SQL statements *)
(* ================================================================== *)

Definition day : Z := 86400 * 1000000.

(** SQL [=] on two values: never true when one side is NULL; PostgreSQL
    takes NaN as equal to NaN. *)
Definition sql_eqb (a b : pyval) : bool :=
  match a, b with
  | PyNaN, PyNaN => true
  | PyBool x, PyBool y => Bool.eqb x y
  | PyInt x, PyInt y => (x =? y)%Z
  | PyFloat x, PyFloat y => Qeq_bool x y
  | PyStr x, PyStr y => (x =? y)%string
  | PyTime x, PyTime y => (x =? y)%Z
  | _, _ => false
  end.

(** The constraints of [crypto_prices], from the [CREATE TABLE] of the
    collector, the only DDL the repository has for it:
    [id SERIAL PRIMARY KEY], four more [NOT NULL] columns,
    [created_at ... DEFAULT CURRENT_TIMESTAMP] and
    [UNIQUE (coin_id, timestamp)].  Column types are not modelled. *)
Definition NOT_NULL : list string :=
  ["id"; "timestamp"; "coin_id"; "symbol"; "name"].

Definition UNIQUE_KEY : list string := ["coin_id"; "timestamp"].

Definition column_default (now serial_value : Z) (c : string) : pyval :=
  if (c =? "id")%string then PyInt serial_value
  else if (c =? "created_at")%string then PyTime now
  else PyNone.

(** The row an [INSERT] proposes: the supplied value for a named column,
    the column's default for the others. *)
Definition proposed_row (now serial_value : Z) (table_columns : list string)
    (supplied : dict pyval) : row :=
  map (fun c =>
         (c, match lookup c supplied with
             | Some v => v
             | None => column_default now serial_value c
             end))
      table_columns.

(** Whether the driver can write the value into a statement. *)
Definition adaptable (v : pyval) : bool :=
  match v with
  | PyObj _ | PyNaT => false
  | _ => true
  end.

Definition is_null (v : pyval) : bool :=
  match v with PyNone => true | _ => false end.

(** The first [NOT NULL] column of the table, in column order, that the
    row leaves null. *)
Definition null_violation (r : row) : option string :=
  match find (fun cv => mem (fst cv) NOT_NULL && is_null (snd cv)) r with
  | Some cv => Some (fst cv)
  | None => None
  end.

(** Two rows agree on every column of the unique key (SQL equality, so a
    NULL agrees with nothing). *)
Definition same_key (r s : row) : bool :=
  forallb (fun c =>
             match lookup c r, lookup c s with
             | Some a, Some b => sql_eqb a b
             | _, _ => false
             end)
          UNIQUE_KEY.

Definition same_id (r s : row) : bool :=
  match lookup "id" r, lookup "id" s with
  | Some a, Some b => sql_eqb a b
  | _, _ => false
  end.

Inductive insert_outcome : Type :=
| Inserted (t : table)
| Conflict
| Rejected (e : pg_error).

(** One execution of
    [INSERT INTO crypto_prices (cols) VALUES (vals)
       ON CONFLICT (coin_id, timestamp) DO NOTHING]
    on a table that exists.  The statement is refused when it names a
    column the table does not have (also in the conflict target); the
    proposed row is then checked against the [NOT NULL] constraints, and
    only after that against the rows already stored: a row with the same
    key makes the statement a no-op, the same [id] alone is an error. *)
Definition pg_insert (now serial_value : Z) (t : table)
    (cols : list string) (vals : list pyval) : insert_outcome :=
  if negb (forallb adaptable vals) then Rejected CannotAdapt
  else
    match find (fun c => negb (mem c (columns t))) (cols ++ UNIQUE_KEY) with
    | Some c => Rejected (UndefinedColumn c)
    | None =>
        let r := proposed_row now serial_value (columns t) (combine cols vals) in
        match null_violation r with
        | Some c => Rejected (NotNullViolation c)
        | None =>
            if existsb (same_key r) (rows t) then Conflict
            else if existsb (same_id r) (rows t)
                 then Rejected (UniqueViolation "crypto_prices_pkey")
                 else Inserted (Table (columns t) (rows t ++ [r]))
        end
    end.

(** Whether the statement draws a value from the [id] sequence. *)
Definition draws_serial (t : table) (cols : list string) : bool :=
  mem "id" (columns t) && negb (mem "id" cols).

(** The rows a [WHERE coin_id = '<coin>'] keeps. *)
Definition is_coin (coin : string) (r : row) : bool :=
  match lookup "coin_id" r with
  | Some v => sql_eqb v (PyStr coin)
  | None => false
  end.

Definition time_key (r : row) : option Z :=
  match lookup "timestamp" r with
  | Some (PyTime t) => Some t
  | _ => None
  end.

Definition timestamps (l : list row) : list Z :=
  flat_map (fun r => match time_key r with Some t => [t] | None => [] end) l.

(** [MIN] / [MAX] of a column: NULL on no rows. *)
Definition extremum (f : Z -> Z -> Z) (l : list Z) : pyval :=
  match l with
  | [] => PyNone
  | t :: l' => PyTime (fold_left f l' t)
  end.

(** [ORDER BY timestamp]: ascending, NULLs last, by insertion. *)
Definition key_leb (a b : row) : bool :=
  match time_key a, time_key b with
  | Some x, Some y => (x <=? y)%Z
  | Some _, None => true
  | None, Some _ => false
  | None, None => true
  end.

Fixpoint insert_sorted (r : row) (l : list row) : list row :=
  match l with
  | [] => [r]
  | s :: l' => if key_leb r s then r :: l else s :: insert_sorted r l'
  end.

Definition order_by_timestamp (l : list row) : list row :=
  fold_right insert_sorted [] l.

Definition set_prices (t : option table) (d : database) : database :=
  Database t (crypto_predictions d).

Definition set_predictions (p : option (list prediction)) (d : database)
  : database :=
  Database (crypto_prices d) p.

Section Statements.

Variable E : environ.

(** [cur.execute(insert_sql, vals)]; the result is the statement's
    [rowcount]. *)
Definition execute_insert (cols : list string) (vals : list pyval)
  : M Z :=
  w <- get ;;
  match crypto_prices (session w) with
  | None => raise (DatabaseError (UndefinedTable "crypto_prices"))
  | Some t =>
      (if forallb adaptable vals && forallb (fun c => mem c (columns t))
                                           (cols ++ UNIQUE_KEY)
          && draws_serial t cols
       then set_serial (serial w + 1)
       else ret tt) ;;
      match pg_insert (pg_now E) (serial w) t cols vals with
      | Inserted t' => set_session (set_prices (Some t') (session w)) ;; ret 1
      | Conflict => ret 0
      | Rejected e => raise (DatabaseError e)
      end
  end.

(** [cur.executemany(insert_sql, values)]: one execution per tuple, in
    order, stopping at the first that raises; the result is the summed
    [rowcount]. *)
Fixpoint executemany (cols : list string) (values : list (list pyval))
  : M Z :=
  match values with
  | [] => ret 0
  | vals :: rest =>
      n <- execute_insert cols vals ;;
      m <- executemany cols rest ;;
      ret (n + m)
  end.

End Statements.

(* ================================================================== *)
(** ** Python and pandas primitives *)
(* ================================================================== *)

(** [j[k]] with a string key: a [KeyError] on a dict without the key, a
    [TypeError] on anything that is not a dict. *)
Definition subscript (j : json) (k : string) : M json :=
  match j with
  | JObj d => match lookup k d with
              | Some v => ret v
              | None => raise (KeyError k)
              end
  | _ => raise TypeError
  end.

(** [j.get(k)]: [None] on a dict without the key, an [AttributeError] on
    anything that is not a dict. *)
Definition get_method (j : json) (k : string) : M json :=
  match j with
  | JObj d => match lookup k d with
              | Some v => ret v
              | None => ret JNull
              end
  | _ => raise AttributeError
  end.

Record DataFrame : Type := mkDataFrame
  { df_columns : list string; df_rows : list (list pyval) }.

(** [pd.DataFrame(data)] on a list of row dicts that all have the same
    keys in the same order, which is how both fetchers build [data]. *)
Definition pd_DataFrame (data : list (dict pyval)) : DataFrame :=
  mkDataFrame (match data with [] => [] | d :: _ => keys d end)
              (map values data).

(** [df.empty] *)
Definition empty (df : DataFrame) : bool :=
  match df_columns df, df_rows df with
  | [], _ | _, [] => true
  | _, _ => false
  end.

Definition POSTGRES_VARS : list string :=
  ["POSTGRES_HOST"; "POSTGRES_PORT"; "POSTGRES_DB"; "POSTGRES_USER";
   "POSTGRES_PASSWORD"].

Section Primitives.

Variable E : environ.

(** [datetime.now()] *)
Definition now : M Z :=
  fun w =>
    (Ok (datetime_now E (ticks w)),
     World (committed w) (session w) (serial w) (log w) (requests w)
           (files w) (S (ticks w))).

(** [requests.get(url, ...)], [raise_for_status()], [.json()] *)
Definition http (r : request) : M json :=
  fun w =>
    let w' := World (committed w) (session w) (serial w) (log w)
                    (r :: requests w) (files w) (ticks w) in
    match http_get E r with
    | Some j => (Ok j, w')
    | None => (Raise RequestException, w')
    end.

(** [df.to_csv(path)] / [df.to_parquet(path)] *)
Definition write_file (path : string) : M unit :=
  fun w =>
    if fs_writable E
    then (Ok tt,
          World (committed w) (session w) (serial w) (log w) (requests w)
                (path :: files w) (ticks w))
    else (Raise OSError, w).

(** The module-level credential dictionary both ETL scripts build from
    [os.getenv]. *)
Definition DB_CONFIG : dict (option string) :=
  [("host", getenv E "POSTGRES_HOST");
   ("port", getenv E "POSTGRES_PORT");
   ("dbname", getenv E "POSTGRES_DB");
   ("user", getenv E "POSTGRES_USER");
   ("password", getenv E "POSTGRES_PASSWORD")].

(** [connect_postgres()], the same function in both ETL scripts: the
    connection, or [None] after logging the failure.  A new connection
    sees the committed state. *)
Definition connect_postgres : M bool :=
  if pg_connect E (values DB_CONFIG)
  then rollback ;; logger INFO "Connected to PostgreSQL" [] ;; ret true
  else logger ERROR "Database connection failed: {e}"
              [AExn (DatabaseError OperationalError)] ;;
       ret false.

(** The value tuples both loaders hand to [executemany]: a missing cell
    becomes [None], every other cell is passed on as it is. *)
Definition prepare_value (val : pyval) : pyval :=
  if isna val then PyNone else val.

Definition prepare_values (df : DataFrame) : list (list pyval) :=
  map (map prepare_value) (df_rows df).

End Primitives.

(* ================================================================== *)
(** ** crypto_etl.py: the collector *)
(* ================================================================== *)

Module crypto_etl.

Definition TABLE_NAME : string := "crypto_prices".
Definition DATA_DIR : string := "crypto_data".
Definition COINS : list string :=
  ["bitcoin"; "ethereum"; "binancecoin"; "cardano"].

Definition expected_columns : list string :=
  ["id"; "timestamp"; "coin_id"; "symbol"; "name"; "current_price_usd";
   "market_cap_usd"; "total_volume_usd"; "price_change_24h";
   "price_change_percentage_24h"; "circulating_supply"; "total_supply";
   "ath"; "ath_date"; "atl"; "atl_date"; "created_at"].

(** The columns of the [CREATE TABLE] statement, in its order. *)
Definition create_sql_columns : list string :=
  ["id"; "timestamp"; "coin_id"; "symbol"; "name"; "current_price_usd";
   "market_cap_usd"; "total_volume_usd"; "price_change_24h";
   "price_change_percentage_24h"; "circulating_supply"; "total_supply";
   "ath"; "ath_date"; "atl"; "atl_date"; "created_at"].

Section Collector.

Variable E : environ.

(** The two inner [try] blocks of [fetch_crypto_data]: the date under
    [mkt[field]["usd"]], or [None] when it is absent, falsy, or anything
    on the way raises. *)
Definition parse_date (coin field : string) (mkt : json) : M pyval :=
  try_except
    (a <- get_method mkt field ;;
     if truthy a then
       m <- subscript mkt field ;;
       b <- get_method m "usd" ;;
       if truthy b then
         m' <- subscript mkt field ;;
         u <- subscript m' "usd" ;;
         match to_datetime E u with
         | Some v => ret v
         | None => raise ValueError
         end
       else ret PyNone
     else ret PyNone)
    (fun _ =>
       logger WARNING ("Could not parse " ++ field ++ " for {coin}")
              [AStr coin] ;;
       ret PyNone).

(** [mkt[k]["usd"]] *)
Definition usd (mkt : json) (k : string) : M pyval :=
  m <- subscript mkt k ;;
  v <- subscript m "usd" ;;
  ret (cell_of_json v).

(** [mkt[k]] *)
Definition field (mkt : json) (k : string) : M pyval :=
  v <- subscript mkt k ;;
  ret (cell_of_json v).

(** The body of the [try] in the loop of [fetch_crypto_data]: the row
    dict of one coin. *)
Definition fetch_coin (coin : string) : M (dict pyval) :=
  j <- http E (GetCoin coin) ;;
  mkt <- subscript j "market_data" ;;
  ath_date <- parse_date coin "ath_date" mkt ;;
  atl_date <- parse_date coin "atl_date" mkt ;;
  timestamp <- now E ;;
  coin_id <- field j "id" ;;
  symbol <- field j "symbol" ;;
  name <- field j "name" ;;
  current_price_usd <- usd mkt "current_price" ;;
  market_cap_usd <- usd mkt "market_cap" ;;
  total_volume_usd <- usd mkt "total_volume" ;;
  price_change_24h <- field mkt "price_change_24h" ;;
  price_change_percentage_24h <- field mkt "price_change_percentage_24h" ;;
  circulating_supply <- field mkt "circulating_supply" ;;
  total_supply <- field mkt "total_supply" ;;
  ath <- usd mkt "ath" ;;
  atl <- usd mkt "atl" ;;
  ret [("timestamp", PyTime timestamp);
       ("coin_id", coin_id);
       ("symbol", symbol);
       ("name", name);
       ("current_price_usd", current_price_usd);
       ("market_cap_usd", market_cap_usd);
       ("total_volume_usd", total_volume_usd);
       ("price_change_24h", price_change_24h);
       ("price_change_percentage_24h", price_change_percentage_24h);
       ("circulating_supply", circulating_supply);
       ("total_supply", total_supply);
       ("ath", ath);
       ("ath_date", ath_date);
       ("atl", atl);
       ("atl_date", atl_date)].

(** The loop of [fetch_crypto_data] over the coins: a coin whose fetch
    raises is logged and left out. *)
Fixpoint fetch_coins (coins : list string) : M (list (dict pyval)) :=
  match coins with
  | [] => ret []
  | coin :: rest =>
      got <- try_except
               (r <- fetch_coin coin ;;
                logger INFO "Successfully fetched data for {coin}"
                       [AStr coin] ;;
                ret [r])
               (fun e =>
                  logger ERROR "Error fetching {coin}: {e}"
                         [AStr coin; AExn e] ;;
                  ret []) ;;
      more <- fetch_coins rest ;;
      ret (got ++ more)%list
  end.

Definition fetch_crypto_data : M DataFrame :=
  logger INFO "Fetching data from CoinGecko API..." [] ;;
  data <- fetch_coins COINS ;;
  let df := pd_DataFrame data in
  logger INFO "Fetched data for {len(df)} coins"
         [AInt (Z.of_nat (List.length (df_rows df)))] ;;
  ret df.

Definition save_files (df : DataFrame) : M unit :=
  _ <- now E ;;
  try_except
    (write_file E "crypto_data/crypto_{timestamp}.csv" ;;
     write_file E "crypto_data/crypto_{timestamp}.parquet" ;;
     logger INFO "Saved data to {csv_path} and {pq_path}" [])
    (fun e => logger ERROR "Error saving files: {e}" [AExn e]).

(** The answer to the query on [information_schema.columns]: the column
    names of the live table, none when there is no such table. *)
Definition existing_columns_of (d : database) : list string :=
  match crypto_prices d with
  | Some t => columns t
  | None => []
  end.

(** [DROP TABLE IF EXISTS crypto_prices] *)
Definition drop_table : M unit :=
  w <- get ;; set_session (set_prices None (session w)).

(** [CREATE TABLE crypto_prices (...)]: an empty table with the columns
    of the statement and a fresh [id] sequence. *)
Definition create_table : M unit :=
  w <- get ;;
  match crypto_prices (session w) with
  | Some _ => raise (DatabaseError (DuplicateTable "crypto_prices"))
  | None =>
      set_session (set_prices (Some (Table create_sql_columns []))
                              (session w)) ;;
      set_serial 1
  end.

Definition schema_mismatch (existing_columns : list string) : bool :=
  match existing_columns with [] => true | _ => false end
  || negb (forallb (fun col => mem col existing_columns) expected_columns).

Definition create_table_if_not_exists : M unit :=
  try_except
    (w <- get ;;
     let existing_columns := existing_columns_of (session w) in
     (if schema_mismatch existing_columns
      then
        logger INFO "Table schema mismatch. Recreating {TABLE_NAME} table..."
               [AStr TABLE_NAME] ;;
        drop_table ;;
        logger INFO "Dropped existing {TABLE_NAME} table" [AStr TABLE_NAME] ;;
        create_table ;;
        logger INFO "Created new {TABLE_NAME} table with correct schema"
               [AStr TABLE_NAME]
      else
        logger INFO "Table '{TABLE_NAME}' already exists with correct schema"
               [AStr TABLE_NAME]) ;;
     commit)
    (fun e =>
       logger ERROR "Error managing table: {e}" [AExn e] ;;
       rollback ;;
       raise e).

Definition insert_data (df : DataFrame) : M unit :=
  if empty df then logger WARNING "No data to insert" []
  else
    try_except
      (let cols := df_columns df in
       let values := prepare_values df in
       rows_affected <- executemany E cols values ;;
       commit ;;
       logger INFO "Inserted {rows_affected} new rows into '{TABLE_NAME}'"
              [AInt rows_affected; AStr TABLE_NAME])
      (fun e =>
         logger ERROR "Error inserting data: {e}" [AExn e] ;;
         rollback ;;
         raise e).

(** [summarize_db]: the count is logged; what it prints to the console
    is not part of the world.  Its own [except] swallows every error, so
    it changes neither the store nor the way the job ends. *)
Definition summarize_db : M unit :=
  w <- get ;;
  match crypto_prices (session w) with
  | Some t =>
      logger INFO "Total records in {TABLE_NAME}: {total_count}"
             [AStr TABLE_NAME; AInt (Z.of_nat (List.length (rows t)))]
  | None =>
      logger ERROR "Error querying database: {e}"
             [AExn (DatabaseError (UndefinedTable TABLE_NAME))]
  end.

Definition main : M unit :=
  logger INFO "Starting crypto ETL process..." [] ;;
  try_except
    (df <- fetch_crypto_data ;;
     if empty df then logger WARNING "No data fetched. Exiting." []
     else
       save_files df ;;
       conn <- connect_postgres E ;;
       if negb conn
       then logger ERROR "Could not connect to database. Exiting." []
       else
         try_finally
           (create_table_if_not_exists ;;
            insert_data df ;;
            summarize_db ;;
            logger INFO "ETL process completed successfully!" [])
           (close ;; logger INFO "Database connection closed" []))
    (fun e =>
       logger ERROR "ETL process failed: {e}" [AExn e] ;;
       raise e).

End Collector.

End crypto_etl.

(* ================================================================== *)
(** ** crypto_historical_etl.py: the backfill job *)
(* ================================================================== *)

Module crypto_historical_etl.

Definition TABLE_NAME : string := "crypto_prices".
Definition COIN_ID : string := "bitcoin".
Definition DATA_DIR : string := "crypto_data".

(** Python on decoded JSON: iteration, [len], integer subscript, the
    unpacking of a pair and the use of a value as a number. *)
Definition chars (s : string) : list json :=
  map (fun c => JStr (String c EmptyString)) (list_ascii_of_string s).

Definition iter (j : json) : M (list json) :=
  match j with
  | JArr l => ret l
  | JStr s => ret (chars s)
  | JObj d => ret (map JStr (keys d))
  | _ => raise TypeError
  end.

Definition len (j : json) : M nat :=
  match j with
  | JArr l => ret (List.length l)
  | JStr s => ret (String.length s)
  | JObj d => ret (List.length d)
  | _ => raise TypeError
  end.

Definition item (j : json) (i : nat) : M json :=
  match j with
  | JArr l => match nth_error l i with
              | Some v => ret v
              | None => raise IndexError
              end
  | JStr s => match nth_error (chars s) i with
              | Some v => ret v
              | None => raise IndexError
              end
  | JObj _ => raise (KeyError "{i}")
  | _ => raise TypeError
  end.

Definition unpack2 (j : json) : M (json * json) :=
  l <- iter j ;;
  match l with
  | [a; b] => ret (a, b)
  | _ => raise ValueError
  end.

Definition number (j : json) : M Q :=
  match j with
  | JNum x => ret x
  | JBool b => ret (if b then 1%Q else 0%Q)
  | _ => raise TypeError
  end.

Section Backfill.

Variable E : environ.

(** [series[i][1] if i < len(series) else None] *)
Definition second_at (series : json) (i : nat) : M pyval :=
  n <- len series ;;
  if (i <? n)%nat then
    p <- item series i ;;
    v <- item p 1 ;;
    ret (cell_of_json v)
  else ret PyNone.

(** One turn of the loop of [fetch_historical_data]. *)
Definition historical_row (market_caps volumes : json) (i : nat)
    (entry : json) : M (dict pyval) :=
  tp <- unpack2 entry ;;
  let (timestamp_ms, price) := tp in
  ms <- number timestamp_ms ;;
  timestamp <- match fromtimestamp E (ms / 1000)%Q with
               | Some t => ret t
               | None => raise ValueError
               end ;;
  market_cap <- second_at market_caps i ;;
  volume <- second_at volumes i ;;
  ret [("timestamp", PyTime timestamp);
       ("coin_id", PyStr COIN_ID);
       ("symbol", PyStr "btc");
       ("name", PyStr "Bitcoin");
       ("current_price_usd", cell_of_json price);
       ("market_cap_usd", market_cap);
       ("total_volume_usd", volume);
       ("price_change_24h", PyNone);
       ("price_change_percentage_24h", PyNone);
       ("circulating_supply", PyNone);
       ("total_supply", PyNone);
       ("ath", PyNone);
       ("ath_date", PyNone);
       ("atl", PyNone);
       ("atl_date", PyNone)].

Fixpoint historical_rows (market_caps volumes : json) (i : nat)
    (prices : list json) : M (list (dict pyval)) :=
  match prices with
  | [] => ret []
  | entry :: rest =>
      r <- historical_row market_caps volumes i entry ;;
      more <- historical_rows market_caps volumes (S i) rest ;;
      ret (r :: more)
  end.

Definition save_historical_files (df : DataFrame) (days : Z) : M unit :=
  if empty df then ret tt
  else
    try_except
      (_ <- now E ;;
       write_file E
         "crypto_data/bitcoin_historical_{days}days_{timestamp}.csv" ;;
       write_file E
         "crypto_data/bitcoin_historical_{days}days_{timestamp}.parquet" ;;
       logger INFO "Saved historical data to {csv_path} and {pq_path}" [])
      (fun e => logger ERROR "Error saving historical files: {e}" [AExn e]).

Definition fetch_historical_data (days : Z) : M DataFrame :=
  logger INFO "Fetching {days} days of historical data for {COIN_ID}..."
         [AInt days; AStr COIN_ID] ;;
  try_except
    (data <- http E (GetMarketChart COIN_ID days) ;;
     prices <- subscript data "prices" ;;
     market_caps <- subscript data "market_caps" ;;
     volumes <- subscript data "total_volumes" ;;
     entries <- iter prices ;;
     historical_data <- historical_rows market_caps volumes 0 entries ;;
     let df := pd_DataFrame historical_data in
     logger INFO "Successfully fetched {len(df)} historical records"
            [AInt (Z.of_nat (List.length (df_rows df)))] ;;
     save_historical_files df days ;;
     ret df)
    (fun e =>
       logger ERROR "Error fetching historical data: {e}" [AExn e] ;;
       ret (pd_DataFrame [])).

Definition insert_historical_data (df : DataFrame) : M unit :=
  if empty df then logger WARNING "No data to insert" []
  else
    try_except
      (let cols := df_columns df in
       let values := prepare_values df in
       rows_affected <- executemany E cols values ;;
       commit ;;
       logger INFO
         "Inserted {rows_affected} new historical records into '{TABLE_NAME}'"
         [AInt rows_affected; AStr TABLE_NAME])
      (fun e =>
         logger ERROR "Error inserting historical data: {e}" [AExn e] ;;
         rollback ;;
         raise e).

(** [SELECT COUNT( * ), MIN(timestamp), MAX(timestamp) FROM crypto_prices
    WHERE coin_id = 'bitcoin'] *)
Definition count_query : M (Z * pyval * pyval) :=
  w <- get ;;
  match crypto_prices (session w) with
  | None => raise (DatabaseError (UndefinedTable TABLE_NAME))
  | Some t =>
      match find (fun c => negb (mem c (columns t))) ["timestamp"; "coin_id"] with
      | Some c => raise (DatabaseError (UndefinedColumn c))
      | None =>
          let hits := filter (is_coin COIN_ID) (rows t) in
          ret (Z.of_nat (List.length hits),
               extremum Z.min (timestamps hits),
               extremum Z.max (timestamps hits))
      end
  end.

Definition check_current_data : M Z :=
  try_except
    (res <- count_query ;;
     let '(count, min_date, max_date) := res in
     logger INFO "Current Bitcoin records: {count}" [AInt count] ;;
     (if count >? 0
      then logger INFO "Date range: {min_date} to {max_date}"
                  [AVal min_date; AVal max_date]
      else ret tt) ;;
     ret count)
    (fun e =>
       logger ERROR "Error checking current data: {e}" [AExn e] ;;
       ret 0).

(** [main]; the closing listing of the data directory, which only logs a
    number of files, is left out. *)
Definition main : M unit :=
  logger INFO "Starting historical data backfill..." [] ;;
  logger INFO "Data files will be saved to: {DATA_DIR}" [AStr DATA_DIR] ;;
  conn <- connect_postgres E ;;
  if negb conn
  then logger ERROR "Could not connect to database. Exiting." []
  else
    try_finally
      (try_except
         (current_count <- check_current_data ;;
          let days_to_fetch := if current_count <? 30 then 30 else 7 in
          logger INFO "Will fetch {days_to_fetch} days of historical data"
                 [AInt days_to_fetch] ;;
          df <- fetch_historical_data days_to_fetch ;;
          if empty df
          then logger ERROR "No historical data fetched. Exiting." []
          else
            insert_historical_data df ;;
            final_count <- check_current_data ;;
            logger INFO
              "Historical data backfill complete! Total Bitcoin records: {final_count}"
              [AInt final_count] ;;
            if final_count >=? 10
            then logger INFO
                   "You now have enough data to run Prophet forecasting!" []
            else logger WARNING
                   "You have {final_count} records. Prophet works better with 10+ data points."
                   [AInt final_count])
         (fun e =>
            logger ERROR "Historical data backfill failed: {e}" [AExn e]))
      (close ;; logger INFO "Database connection closed" []).

End Backfill.

End crypto_historical_etl.

(* ================================================================== *)
(** ** bitcoin_prophet_forecast.py: the forecaster *)
(* ================================================================== *)

Module bitcoin_prophet_forecast.

Definition DATA_DIR : string := "crypto_data".

(** A row of [forecast], by the four columns the script keeps, and a
    row of [future_forecast] after the columns are renamed. *)
Record forecast_point : Type := ForecastPoint
  { f_ds : Z; f_yhat : pyval; f_yhat_lower : pyval; f_yhat_upper : pyval }.

Record forecast_row : Type := ForecastRow
  { date : pyval;
    predicted_price : pyval;
    lower_bound : pyval;
    upper_bound : pyval }.

(** [not v] on what [os.getenv] returns: unset or empty. *)
Definition falsy (v : option string) : bool :=
  match v with
  | None => true
  | Some s => (s =? "")%string
  end.

Definition stars (s : string) : string :=
  string_of_list_ascii (map (fun _ => "*"%char) (list_ascii_of_string s)).

(** [df.tail(n)] *)
Definition tail {A : Type} (n : nat) (l : list A) : list A :=
  skipn (List.length l - n) l.

(** [df.dropna()] on the two columns (ds, y). *)
Definition dropna (df : list (pyval * pyval)) : list (pyval * pyval) :=
  filter (fun r => negb (isna (fst r)) && negb (isna (snd r))) df.

(** Prophet's [history_dates]: the distinct dates of the fitted rows,
    ascending. *)
Fixpoint insert_date (t : Z) (l : list Z) : list Z :=
  match l with
  | [] => [t]
  | u :: l' =>
      if (t <? u)%Z then t :: l
      else if (t =? u)%Z then l
      else u :: insert_date t l'
  end.

Definition history_dates (df : list (pyval * pyval)) : list Z :=
  fold_right insert_date []
    (flat_map (fun r => match fst r with PyTime t => [t] | _ => [] end) df).

(** Prophet's [make_future_dataframe(periods)] with its defaults (daily
    frequency, history included): the history dates, then the [periods]
    days after the last of them. *)
Definition make_future_dataframe (history : list Z) (periods : nat)
  : M (list Z) :=
  match history with
  | [] => raise ProphetError
  | t :: l =>
      let last_date := fold_left Z.max l t in
      ret (history ++
           map (fun k => last_date + Z.of_nat k * day) (seq 1 periods))%list
  end.

(** Prophet's [predict]: one row per date of the frame it is given. *)
Definition predict (model : Z -> pyval * pyval * pyval) (future : list Z)
  : list forecast_point :=
  map (fun d => let '(y, lo, hi) := model d in ForecastPoint d y lo hi)
      future.

(** [DELETE ... WHERE symbol = 'BTC' AND created_at < NOW() - INTERVAL
    '<days> days']: the rows the condition selects. *)
Definition stale (now_ days : Z) (p : prediction) : bool :=
  sql_eqb (symbol p) (PyStr "BTC")
  && match created_at p with
     | PyTime c => (c <? now_ - days * day)%Z
     | _ => false
     end.

Section Forecaster.

Variable E : environ.

(** Lines 21-48: the variables are read and logged; when one of them is
    unset or empty the names are logged and the process exits with 1. *)
Definition check_environment : M (dict (option string)) :=
  logger INFO "Checking environment variables..." [] ;;
  let host := getenv E "POSTGRES_HOST" in
  let port := getenv E "POSTGRES_PORT" in
  let dbname := getenv E "POSTGRES_DB" in
  let user := getenv E "POSTGRES_USER" in
  let password := getenv E "POSTGRES_PASSWORD" in
  logger INFO "Host: {host}" [AOpt host] ;;
  logger INFO "Port: {port}" [AOpt port] ;;
  logger INFO "Database: {dbname}" [AOpt dbname] ;;
  logger INFO "User: {user}" [AOpt user] ;;
  logger INFO "Password: {...}"
         [AStr (match password with
                | Some s => if falsy password then "None" else stars s
                | None => "None"
                end)] ;;
  let items := [("host", host); ("port", port); ("dbname", dbname);
                ("user", user); ("password", password)] in
  if negb (forallb (fun v => negb (falsy v)) [host; port; dbname; user; password])
  then
    logger ERROR "Missing environment variables!" [] ;;
    logger ERROR "Missing: {...}"
           [ANames (keys (filter (fun kv => falsy (snd kv)) items))] ;;
    exit 1
  else ret items.

(** [engine.connect()] after the connection test: a connection from the
    pool, which sees the committed state. *)
Definition engine_connect : M unit := rollback.

Definition ensure_table_exists : M unit :=
  try_except
    (engine_connect ;;
     w <- get ;;
     match crypto_predictions (session w) with
     | Some _ => logger INFO "Using existing crypto_predictions table" []
     | None => raise (DatabaseError (UndefinedTable "crypto_predictions"))
     end)
    (fun e =>
       logger ERROR "crypto_predictions table not found: {e}" [AExn e] ;;
       raise e).

(** The loop of [save_forecast_to_db] that builds [db_records]. *)
Fixpoint db_records (forecast_df : list forecast_row)
  : M (list prediction) :=
  match forecast_df with
  | [] => ret []
  | row :: rest =>
      t <- now E ;;
      more <- db_records rest ;;
      ret (Prediction (date row) (predicted_price row) (lower_bound row)
                      (upper_bound row) (PyStr "BTC") (PyTime t) :: more)
  end.

(** [db_df.to_sql('crypto_predictions', engine, if_exists='append', ...)]:
    the rows are appended (to a new table when there is none) and the
    engine commits. *)
Definition to_sql (db_df : list prediction) : M unit :=
  engine_connect ;;
  w <- get ;;
  let old := match crypto_predictions (session w) with
             | Some l => l
             | None => []
             end in
  set_session (set_predictions (Some (old ++ db_df)%list) (session w)) ;;
  commit.

Definition save_forecast_to_db (forecast_df : list forecast_row) : M unit :=
  try_except
    (records <- db_records forecast_df ;;
     to_sql records ;;
     logger INFO
       "Saved {len(db_records)} forecast records to crypto_predictions table"
       [AInt (Z.of_nat (List.length records))])
    (fun e =>
       logger ERROR "Error saving forecast to database: {e}" [AExn e] ;;
       raise e).

Definition delete_stale (days : Z) : M Z :=
  w <- get ;;
  match crypto_predictions (session w) with
  | None => raise (DatabaseError (UndefinedTable "crypto_predictions"))
  | Some l =>
      set_session
        (set_predictions
           (Some (filter (fun p => negb (stale (pg_now E) days p)) l))
           (session w)) ;;
      ret (Z.of_nat (List.length (filter (stale (pg_now E) days) l)))
  end.


Definition cleanup_old_forecasts (days_to_keep : Z) : M unit :=
  try_except
    (engine_connect ;;
     deleted_count <- delete_stale days_to_keep ;;
     commit ;;
     if deleted_count >? 0
     then logger INFO "Cleaned up {deleted_count} old Bitcoin forecast records"
                 [AInt deleted_count]
     else ret tt)
    (fun e => logger ERROR "Error cleaning up old forecasts: {e}" [AExn e]).

(** [SELECT timestamp as ds, current_price_usd as y FROM crypto_prices
    WHERE coin_id = 'bitcoin' ORDER BY timestamp] *)
Definition read_prices : M (list (pyval * pyval)) :=
  engine_connect ;;
  w <- get ;;
  match crypto_prices (session w) with
  | None => raise (DatabaseError (UndefinedTable "crypto_prices"))
  | Some t =>
      match find (fun c => negb (mem c (columns t)))
                 ["timestamp"; "current_price_usd"; "coin_id"] with
      | Some c => raise (DatabaseError (UndefinedColumn c))
      | None =>
          ret (map (fun r =>
                      (match lookup "timestamp" r with
                       | Some v => v | None => PyNone end,
                       match lookup "current_price_usd" r with
                       | Some v => v | None => PyNone end))
                   (order_by_timestamp (filter (is_coin "bitcoin") (rows t))))
      end
  end.

(** The [try] body of the script, lines 136-266.  The console prints and
    the two read-only queries behind them are left out. *)
Definition pipeline (db_params : dict (option string)) : M unit :=
  logger INFO "Creating database engine..." [] ;;
  logger INFO "Testing database connection..." [] ;;
  (if pg_connect E (values db_params)
   then engine_connect ;; logger INFO "Database connection successful!" []
   else raise (DatabaseError OperationalError)) ;;
  ensure_table_exists ;;
  logger INFO "Fetching Bitcoin data from database..." [] ;;
  df <- read_prices ;;
  logger INFO "Fetched {len(df)} Bitcoin price records"
         [AInt (Z.of_nat (List.length df))] ;;
  match df with
  | [] =>
      logger ERROR "No Bitcoin data found in database!" [] ;;
      logger INFO
        "Make sure you've run the crypto_etl.py script first to populate the database"
        [] ;;
      exit 1
  | _ :: _ =>
      logger INFO "Date range: {...} to {...}" [] ;;
      logger INFO "Price range: ${...} to ${...}" [] ;;
      let df_prophet := dropna df in
      logger INFO "Using {len(df_prophet)} clean records for forecasting"
             [AInt (Z.of_nat (List.length df_prophet))] ;;
      logger INFO "Training Prophet model..." [] ;;
      model <- match prophet_fit E df_prophet with
               | Some m => ret m
               | None => raise ProphetError
               end ;;
      logger INFO "Model training complete!" [] ;;
      logger INFO "Generating 30-day forecast..." [] ;;
      future <- make_future_dataframe (history_dates df_prophet) 30 ;;
      let forecast := predict model future in
      let future_forecast :=
        map (fun p => ForecastRow (PyTime (f_ds p)) (f_yhat p)
                                  (f_yhat_lower p) (f_yhat_upper p))
            (tail 30 forecast) in
      write_file E "crypto_data/bitcoin_forecast_full.csv" ;;
      write_file E "crypto_data/bitcoin_forecast_30days.csv" ;;
      logger INFO "Saving forecast to database..." [] ;;
      save_forecast_to_db future_forecast ;;
      cleanup_old_forecasts 30 ;;
      logger INFO "BITCOIN PRICE FORECAST SUMMARY" [] ;;
      logger INFO "Training period: {...} to {...}" [] ;;
      logger INFO "Current price: ${...}" [] ;;
      logger INFO "30-day forecast range: ${...} - ${...}" [] ;;
      logger INFO "Average predicted price: ${...}" []
  end.

(** The script as a whole. *)
Definition script : M unit :=
  db_params <- check_environment ;;
  try_except
    (pipeline db_params)
    (fun e =>
       logger ERROR "Error occurred: {e}" [AExn e] ;;
       logger ERROR "Make sure:" [] ;;
       logger ERROR "1. Your 'env' file has the correct database credentials" [] ;;
       logger ERROR "2. Your database is running" [] ;;
       logger ERROR
         "3. You've run crypto_etl.py to populate the database with Bitcoin data"
         [] ;;
       logger ERROR
         "4. You have the required packages: pip install prophet sqlalchemy psycopg2-binary pandas"
         [] ;;
       exit 1).








End Forecaster.

End bitcoin_prophet_forecast.

(** ** Notions the statements use *)

(** A row of parameters the table accepts: every value is one the driver
    can write, every column named by the statement (and by its conflict
    target) is a column of the table, and no NOT NULL column is left
    null. *)
Definition well_formed (table_columns cols : list string) (vals : list pyval) : bool :=
  forallb adaptable vals
  && forallb (fun c => mem c table_columns) (cols ++ UNIQUE_KEY)
  && match null_violation (proposed_row 0 0 table_columns (combine cols vals)) with
     | None => true
     | Some _ => false
     end.

(** Some row of [l] has the (coin_id, timestamp) pair of the parameters. *)
Definition key_stored (table_columns cols : list string) (vals : list pyval)
    (l : list row) : bool :=
  existsb (same_key (proposed_row 0 0 table_columns (combine cols vals))) l.

(** No (coin_id, timestamp) pair is stored twice. *)
Definition unique_keys (l : list row) : Prop :=
  forall p, (List.length (filter (same_key p) l) <= 1)%nat.

Section Loaders.

Variable E : environ.

(** The body both loaders share; they differ in the text of two log
    lines. *)
Definition load_batch (ok_msg err_msg : string) (df : DataFrame) : M unit :=
  if empty df then logger WARNING "No data to insert" []
  else
    try_except
      (bind (executemany E (df_columns df) (prepare_values df))
            (fun rows_affected =>
               bind commit
                    (fun _ => logger INFO ok_msg
                                     [AInt rows_affected; AStr "crypto_prices"])))
      (fun e =>
         bind (logger ERROR err_msg [AExn e])
              (fun _ => bind rollback (fun _ => raise e))).


End Loaders.

(** How a computation may end and what it leaves alone. *)
(** [c] never ends the process through [exit]. *)
Definition no_exit {A : Type} (c : M A) : Prop :=
  forall w code, fst (c w) <> SysExit code.

(** [c] always returns a value: it neither raises nor exits. *)
Definition returns {A : Type} (c : M A) : Prop :=
  forall w, exists a, fst (c w) = Ok a.

(** [c] leaves the part [p] of the world as it was. *)
Definition keeps {A B : Type} (p : world -> B) (c : M A) : Prop :=
  forall w, p (snd (c w)) = p w.

(** The part of the world that belongs to the database. *)
Definition store (w : world) : database * database * Z :=
  (committed w, session w, serial w).

(** What [check_current_data] answers on a database: the number of
    bitcoin rows when the count can be read, 0 when the query fails (no
    table, or a table without one of the two columns it names). *)
Definition current_count (d : database) : Z :=
  match crypto_prices d with
  | None => 0
  | Some t =>
      if mem "timestamp" (columns t) && mem "coin_id" (columns t)
      then Z.of_nat (List.length (filter (is_coin "bitcoin") (rows t)))
      else 0
  end.

(** The committed price table has only gained rows, at its end. *)
Definition grown (before after : database) : Prop :=
  crypto_predictions after = crypto_predictions before /\
  (crypto_prices after = crypto_prices before \/
   exists t added,
     crypto_prices before = Some t /\
     crypto_prices after = Some (Table (columns t) (rows t ++ added))).

(* ================================================================== *)
(** ** Sample runs *)
(* ================================================================== *)

(** A row as both fetchers build it, at time [t] with the given symbol
    and price. *)
Definition observation (t : Z) (sym price : pyval) : dict pyval :=
  [("timestamp", PyTime t);
   ("coin_id", PyStr "bitcoin");
   ("symbol", sym);
   ("name", PyStr "Bitcoin");
   ("current_price_usd", price);
   ("market_cap_usd", PyNone);
   ("total_volume_usd", PyNone);
   ("price_change_24h", PyNone);
   ("price_change_percentage_24h", PyNone);
   ("circulating_supply", PyNone);
   ("total_supply", PyNone);
   ("ath", PyNone);
   ("ath_date", PyNone);
   ("atl", PyNone);
   ("atl_date", PyNone)].

(** The same observation as a stored row. *)
Definition stored (id t : Z) : row :=
  ("id", PyInt id) :: observation t (PyStr "btc") (PyFloat 100)
  ++ [("created_at", PyTime 0)].

(** One price a day for [n] days, from day 0. *)
Definition daily_rows (n : nat) : list row :=
  map (fun k => stored (Z.of_nat k + 1) (Z.of_nat k * day)) (seq 0 n).

Definition world_of (d : database) : world := World d d 1000 [] [] [] 0.

Definition coin_answer (sym : json) : json :=
  JObj [("id", JStr "bitcoin"); ("symbol", sym); ("name", JStr "Bitcoin");
        ("market_data",
         JObj [("current_price", JObj [("usd", JNum 100)]);
               ("market_cap", JObj [("usd", JNum 5)]);
               ("total_volume", JObj [("usd", JNum 6)]);
               ("price_change_24h", JNum 1);
               ("price_change_percentage_24h", JNull);
               ("circulating_supply", JNum 7);
               ("total_supply", JNull);
               ("ath", JObj [("usd", JNum 200)]);
               ("ath_date", JObj [("usd", JStr "2021-11-10")]);
               ("atl", JObj [("usd", JNum 1)]);
               ("atl_date", JObj [("usd", JStr "not a date")])])].

Definition chart_answer : json :=
  JObj [("prices", JArr [JArr [JNum 1000; JNum 50]; JArr [JNum 2000; JNum 51]]);
        ("market_caps", JArr [JArr [JNum 1000; JNum 7]]);
        ("total_volumes", JArr [])].

(** An environment in which the API answers for bitcoin only, the clock
    starts 100 days in, and Prophet fits whatever has two rows. *)
Definition sample_environ (vars : string -> option string) (sym : json)
    (connected : bool) : environ :=
  Environ vars
          (fun r => match r with
                    | GetCoin c => if (c =? "bitcoin")%string
                                   then Some (coin_answer sym) else None
                    | GetMarketChart _ _ => Some chart_answer
                    end)
          (fun n => 100 * day + Z.of_nat n)
          (fun q => Some (Qnum q * 1000000 / Zpos (Qden q)))
          (fun j => match j with
                    | JStr s => if (s =? "2021-11-10")%string
                                then Some (PyTime 1636502400000000) else None
                    | _ => None
                    end)
          (fun _ => connected)
          (100 * day)
          true
          (fun rows => if (2 <=? List.length rows)%nat
                       then Some (fun _ => (PyFloat 100, PyFloat 90, PyFloat 110))
                       else None).

Definition no_variables : string -> option string := fun _ => None.
Definition all_variables : string -> option string := fun _ => Some "x".

(** A table with every expected column and one more. *)
Definition legacy_table : table :=
  Table (crypto_etl.expected_columns ++ ["legacy_note"]) [stored 1 0].

(** A table that lacks [atl_date]. *)
Definition old_table : table :=
  Table (removelast (removelast crypto_etl.expected_columns) ++ ["created_at"])
        [stored 1 0].

(** A table that lacks [timestamp] and has 30 bitcoin rows. *)
Definition untimed_table : table :=
  Table (filter (fun c => negb (c =? "timestamp")%string) crypto_etl.expected_columns)
        (daily_rows 30).

Definition fresh_table (n : nat) : table :=
  Table crypto_etl.expected_columns (daily_rows n).

(** Forecast rows made [age] days before the sample clock's start. *)
Definition forecast_made (sym : string) (age : Z) : prediction :=
  Prediction (PyTime (101 * day)) (PyFloat 100) (PyFloat 90) (PyFloat 110)
             (PyStr sym) (PyTime (100 * day - age * day)).

Definition sample_predictions : list prediction :=
  [forecast_made "BTC" 45; forecast_made "BTC" 3; forecast_made "ETH" 45].


(** The (ds, y) rows the forecaster reads from a price table. *)
Definition bitcoin_history (t : table) : list (pyval * pyval) :=
  map (fun r =>
         (match lookup "timestamp" r with Some v => v | None => PyNone end,
          match lookup "current_price_usd" r with Some v => v | None => PyNone end))
      (order_by_timestamp (filter (is_coin "bitcoin") (rows t))).

(** The records [save_forecast_to_db] builds when the clock has been
    read [k] times before. *)
Fixpoint stamped (E : environ) (k : nat)
    (forecast_df : list bitcoin_prophet_forecast.forecast_row)
  : list prediction :=
  match forecast_df with
  | [] => []
  | row :: rest =>
      Prediction (bitcoin_prophet_forecast.date row)
                 (bitcoin_prophet_forecast.predicted_price row)
                 (bitcoin_prophet_forecast.lower_bound row)
                 (bitcoin_prophet_forecast.upper_bound row)
                 (PyStr "BTC") (PyTime (datetime_now E k))
      :: stamped E (S k) rest
  end.

(** The rows of [future_forecast] for a fitted model: one a day for the
    30 days after [last]. *)
Definition future_rows (model : Z -> pyval * pyval * pyval) (last : Z)
  : list bitcoin_prophet_forecast.forecast_row :=
  map (fun k =>
         let d := last + Z.of_nat k * day in
         let '(y, lo, hi) := model d in
         bitcoin_prophet_forecast.ForecastRow (PyTime d) y lo hi)
      (seq 1 30).

(** The scenario of the claim: 10 bitcoin rows on days 0 to 9, an existing
    predictions table, every variable set. *)
Definition ten_days : world :=
  world_of (Database (Some (fresh_table 10)) (Some sample_predictions)).

Definition ten_days_environ : environ :=
  sample_environ all_variables (JStr "btc") true.

(** An environment in which no request is answered; the database can be
    reached. *)
Definition offline_environ : environ :=
  Environ no_variables
          (fun _ => None)
          (fun n => 100 * day + Z.of_nat n)
          (fun _ => None)
          (fun _ => None)
          (fun _ => true)
          (100 * day)
          true
          (fun _ => None).

(** ** Lemmas *)

(** *** Columns, keys and the insert statement *)

Lemma mem_In (x : string) (l : list string) : mem x l = true <-> In x l.
Proof.
  unfold mem. rewrite existsb_exists. split.
  - intros [y [Hy Heq]]. apply String.eqb_eq in Heq. now subst.
  - intros H. exists x. split; [assumption | apply String.eqb_refl].
Qed.

Lemma schema_mismatch_false (l : list string) :
  crypto_etl.schema_mismatch l = false <->
  (forall c, In c crypto_etl.expected_columns -> In c l).
Proof.
  unfold crypto_etl.schema_mismatch. split.
  - intros H c Hc. apply orb_false_elim in H. destruct H as [_ H].
    apply negb_false_iff in H. rewrite forallb_forall in H.
    apply mem_In. now apply H.
  - intros H. apply orb_false_intro.
    + destruct l; [|reflexivity]. exfalso. apply (H "id"). simpl. now left.
    + apply negb_false_iff. apply forallb_forall. intros c Hc.
      apply mem_In. now apply H.
Qed.

Lemma lookup_tabulate {A : Type} (f : string -> A) (l : list string) (c : string) :
  lookup c (map (fun c' => (c', f c')) l) = if mem c l then Some (f c) else None.
Proof.
  induction l as [|a l IH]; [reflexivity|].
  cbn. destruct (a =? c)%string eqn:Hac.
  - apply String.eqb_eq in Hac. now subst.
  - cbn. exact IH.
Qed.

(** SQL equality is a partial equivalence. *)
Lemma sql_eqb_sym (a b : pyval) : sql_eqb a b = sql_eqb b a.
Proof.
  destruct a, b; cbn; try reflexivity.
  - now destruct b, b0.
  - apply Z.eqb_sym.
  - unfold Qeq_bool. apply Z.eqb_sym.
  - apply String.eqb_sym.
  - apply Z.eqb_sym.
Qed.

Lemma sql_eqb_trans (a b c : pyval) :
  sql_eqb a b = true -> sql_eqb b c = true -> sql_eqb a c = true.
Proof.
  destruct a, b; cbn; try discriminate; destruct c; cbn; try discriminate; try reflexivity.
  - intros H1 H2. apply Bool.eqb_prop in H1, H2. subst. now destruct b1.
  - intros H1 H2. apply Z.eqb_eq in H1, H2. subst. apply Z.eqb_refl.
  - intros H1 H2. apply Qeq_bool_iff in H1, H2. apply Qeq_bool_iff.
    now rewrite H1.
  - intros H1 H2. apply String.eqb_eq in H1, H2. subst. apply String.eqb_refl.
  - intros H1 H2. apply Z.eqb_eq in H1, H2. subst. apply Z.eqb_refl.
Qed.

Lemma sql_eqb_refl (v : pyval) :
  adaptable v = true -> is_null v = false -> sql_eqb v v = true.
Proof.
  destruct v; cbn; try discriminate; intros _ _; try reflexivity.
  - now destruct b.
  - apply Z.eqb_refl.
  - apply Qeq_bool_iff. reflexivity.
  - apply String.eqb_refl.
  - apply Z.eqb_refl.
Qed.

Lemma same_key_sym (r s : row) : same_key r s = same_key s r.
Proof.
  unfold same_key, UNIQUE_KEY. cbn.
  destruct (lookup "coin_id" r) as [a|], (lookup "coin_id" s) as [b|];
    destruct (lookup "timestamp" r) as [a'|], (lookup "timestamp" s) as [b'|];
    cbn; rewrite ?andb_false_r; try reflexivity;
    rewrite ?(sql_eqb_sym b a), ?(sql_eqb_sym b' a'); reflexivity.
Qed.

Lemma same_key_trans (r s u : row) :
  same_key r s = true -> same_key s u = true -> same_key r u = true.
Proof.
  unfold same_key. cbn. rewrite !andb_true_r.
  destruct (lookup "coin_id" r), (lookup "coin_id" s), (lookup "coin_id" u);
    cbn; try discriminate;
  destruct (lookup "timestamp" r), (lookup "timestamp" s), (lookup "timestamp" u);
    cbn; rewrite ?andb_false_r; try discriminate.
  intros H1 H2. apply andb_true_iff in H1, H2. destruct H1, H2.
  apply andb_true_iff. split; eapply sql_eqb_trans; eassumption.
Qed.

Lemma find_none_forallb {A : Type} (f : A -> bool) (l : list A) :
  find (fun x => negb (f x)) l = None <-> forallb f l = true.
Proof.
  induction l as [|a l IH]; cbn; [tauto|].
  destruct (f a); cbn; [exact IH|]. split; discriminate.
Qed.

Lemma lookup_key_proposed (n s : Z) (ct : list string) (d : dict pyval) (c : string) :
  In c UNIQUE_KEY ->
  lookup c (proposed_row n s ct d) =
  if mem c ct then Some (match lookup c d with Some v => v | None => PyNone end)
  else None.
Proof.
  intros Hc. unfold proposed_row. rewrite lookup_tabulate.
  destruct (mem c ct); [|reflexivity].
  destruct (lookup c d); [reflexivity|].
  destruct Hc as [<-|[<-|[]]]; reflexivity.
Qed.

Lemma same_key_proposed (n1 s1 n2 s2 : Z) (ct : list string) (d : dict pyval) (x : row) :
  same_key (proposed_row n1 s1 ct d) x = same_key (proposed_row n2 s2 ct d) x.
Proof.
  unfold same_key, UNIQUE_KEY. cbn [forallb].
  rewrite !(lookup_key_proposed n1 s1), !(lookup_key_proposed n2 s2);
    cbn; auto.
Qed.

Lemma null_violation_proposed (n1 s1 n2 s2 : Z) (ct : list string) (d : dict pyval) :
  null_violation (proposed_row n1 s1 ct d) = null_violation (proposed_row n2 s2 ct d).
Proof.
  unfold null_violation, proposed_row.
  induction ct as [|c ct IH]; [reflexivity|].
  cbn [map find fst snd].
  assert (Hn : is_null (match lookup c d with Some v => v | None => column_default n1 s1 c end)
             = is_null (match lookup c d with Some v => v | None => column_default n2 s2 c end)).
  { destruct (lookup c d); [reflexivity|]. unfold column_default.
    destruct (c =? "id")%string; [reflexivity|].
    destruct (c =? "created_at")%string; reflexivity. }
  rewrite Hn.
  destruct (mem c NOT_NULL && _); [reflexivity | exact IH].
Qed.

Lemma existsb_pointwise {A : Type} (f g : A -> bool) (l : list A) :
  (forall x, f x = g x) -> existsb f l = existsb g l.
Proof.
  intros H. induction l as [|a l IH]; [reflexivity|]. cbn. now rewrite H, IH.
Qed.

Lemma pg_insert_cases (now sv : Z) (t : table) (cols : list string) (vals : list pyval) :
  match pg_insert now sv t cols vals with
  | Inserted t' =>
      well_formed (columns t) cols vals = true /\
      key_stored (columns t) cols vals (rows t) = false /\
      t' = Table (columns t)
                 (rows t ++ [proposed_row now sv (columns t) (combine cols vals)])
  | Conflict =>
      well_formed (columns t) cols vals = true /\
      key_stored (columns t) cols vals (rows t) = true
  | Rejected (UniqueViolation _) =>
      well_formed (columns t) cols vals = true /\
      key_stored (columns t) cols vals (rows t) = false
  | Rejected _ => well_formed (columns t) cols vals = false
  end.
Proof.
  unfold pg_insert, well_formed, key_stored.
  destruct (forallb adaptable vals); cbn [negb andb]; [|reflexivity].
  destruct (find _ (cols ++ UNIQUE_KEY)) eqn:Hf.
  - destruct (forallb (fun c => mem c (columns t)) (cols ++ UNIQUE_KEY)) eqn:Hall;
      [|reflexivity].
    apply find_none_forallb in Hall. congruence.
  - apply find_none_forallb in Hf. rewrite Hf. cbn [andb].
    rewrite (null_violation_proposed 0 0 now sv).
    destruct (null_violation _); [reflexivity|].
    rewrite (existsb_pointwise _ _ (rows t) (same_key_proposed 0 0 now sv (columns t) (combine cols vals))).
    destruct (existsb (same_key _) (rows t)); [auto|].
    destruct (existsb (same_id _) (rows t)); auto.
Qed.

Section Loader.

Variable E : environ.
Variable cols : list string.

Lemma execute_insert_run (vals : list pyval) (w : world) (t : table) :
  crypto_prices (session w) = Some t ->
  exists sv',
    match pg_insert (pg_now E) (serial w) t cols vals with
    | Inserted t' =>
        execute_insert E cols vals w =
        (Ok 1, World (committed w) (set_prices (Some t') (session w)) sv'
                     (log w) (requests w) (files w) (ticks w))
    | Conflict =>
        execute_insert E cols vals w =
        (Ok 0, World (committed w) (session w) sv'
                     (log w) (requests w) (files w) (ticks w))
    | Rejected e =>
        execute_insert E cols vals w =
        (Raise (DatabaseError e),
         World (committed w) (session w) sv'
               (log w) (requests w) (files w) (ticks w))
    end.
Proof.
  intros Ht. destruct w as [c s sv l rq f tk]. cbn in Ht |- *.
  unfold execute_insert, bind, get. cbn. rewrite Ht.
  destruct (forallb adaptable vals && _ && _);
    cbn; destruct (pg_insert (pg_now E) sv t cols vals);
    cbn; eexists; reflexivity.
Qed.

Lemma execute_insert_no_table (vals : list pyval) (w : world) :
  crypto_prices (session w) = None ->
  execute_insert E cols vals w =
  (Raise (DatabaseError (UndefinedTable "crypto_prices")), w).
Proof.
  intros Ht. unfold execute_insert, bind, get. now rewrite Ht.
Qed.

Lemma key_stored_app (ct : list string) (vals : list pyval) (l l' : list row) :
  key_stored ct cols vals l = true -> key_stored ct cols vals (l ++ l') = true.
Proof.
  unfold key_stored. rewrite existsb_app. intros ->. reflexivity.
Qed.

(** A row that passed the checks has a key equal to itself. *)
Lemma same_key_self (now sv : Z) (ct : list string) (vals : list pyval) :
  well_formed ct cols vals = true ->
  let r := proposed_row now sv ct (combine cols vals) in
  same_key r r = true.
Proof.
  unfold well_formed. intros H.
  apply andb_true_iff in H. destruct H as [H Hnull].
  apply andb_true_iff in H. destruct H as [Had Hcols].
  rewrite (null_violation_proposed 0 0 now sv) in Hnull.
  rewrite forallb_forall in Hcols, Had.
  assert (Hkey : forall c, In c UNIQUE_KEY ->
            exists v, lookup c (proposed_row now sv ct (combine cols vals)) = Some v
                      /\ sql_eqb v v = true).
  { intros c Hc.
    assert (Hm : mem c ct = true) by (apply Hcols, in_or_app; now right).
    rewrite lookup_key_proposed, Hm by assumption.
    eexists. split; [reflexivity|].
    assert (Hnn : is_null (match lookup c (combine cols vals) with
                           | Some v => v | None => PyNone end) = false).
    { destruct (is_null _) eqn:Hn; [|reflexivity]. exfalso.
      unfold null_violation in Hnull.
      destruct (find _ _) eqn:Hfind; [discriminate|].
      assert (Hin : In (c, match lookup c (combine cols vals) with
                           | Some v => v | None => PyNone end)
                       (proposed_row now sv ct (combine cols vals))).
      { unfold proposed_row. apply in_map_iff. exists c. split.
        - f_equal. destruct (lookup c (combine cols vals)); [reflexivity|].
          destruct Hc as [<-|[<-|[]]]; reflexivity.
        - now apply mem_In. }
      pose proof (find_none _ _ Hfind _ Hin) as Hno. cbn in Hno.
      rewrite Hn, andb_true_r in Hno.
      destruct Hc as [<-|[<-|[]]]; discriminate. }
    apply sql_eqb_refl; [|exact Hnn].
    destruct (lookup c (combine cols vals)) as [v|] eqn:Hl; [|discriminate].
    apply Had.
    clear - Hl. revert vals Hl. induction cols as [|a cs IH]; intros vals Hl;
      [discriminate|]. destruct vals as [|x vals]; [discriminate|].
    cbn in Hl. destruct (a =? c)%string.
    - inversion Hl. now left.
    - right. now apply IH. }
  cbn zeta. unfold same_key, UNIQUE_KEY. cbn [forallb].
  destruct (Hkey "coin_id") as [v1 [-> ->]]; [cbn; auto|].
  destruct (Hkey "timestamp") as [v2 [-> ->]]; [cbn; auto|].
  reflexivity.
Qed.

Lemma unique_keys_snoc (l : list row) (r : row) :
  unique_keys l -> existsb (same_key r) l = false -> unique_keys (l ++ [r]).
Proof.
  intros Hu Hr p. rewrite filter_app, length_app. cbn [filter].
  destruct (same_key p r) eqn:Hpr; cbn [List.length]; [|specialize (Hu p); lia].
  assert (Hnone : filter (same_key p) l = []).
  { destruct (filter (same_key p) l) as [|s rest] eqn:Hf; [reflexivity|]. exfalso.
    assert (Hs : In s (filter (same_key p) l)) by (rewrite Hf; now left).
    apply filter_In in Hs. destruct Hs as [Hin Hps].
    assert (Hrs : same_key r s = true).
    { eapply same_key_trans; [|exact Hps]. now rewrite same_key_sym. }
    assert (Hex : existsb (same_key r) l = true)
      by (apply existsb_exists; eauto).
    congruence. }
  rewrite Hnone. cbn. lia.
Qed.

Lemma executemany_run (values : list (list pyval)) :
  forall (w : world) (t : table),
    crypto_prices (session w) = Some t ->
    exists added r w',
      executemany E cols values w = (r, w') /\
      committed w' = committed w /\
      log w' = log w /\
      session w' =
        set_prices (Some (Table (columns t) (rows t ++ added))) (session w) /\
      (forall a, In a added ->
         exists vals sv,
           In vals values /\
           well_formed (columns t) cols vals = true /\
           a = proposed_row (pg_now E) sv (columns t) (combine cols vals)) /\
      (forall code, r <> SysExit code) /\
      (forall n, r = Ok n ->
         forall vals, In vals values ->
           well_formed (columns t) cols vals = true /\
           key_stored (columns t) cols vals (rows t ++ added) = true) /\
      (unique_keys (rows t) -> unique_keys (rows t ++ added)).
Proof.
  induction values as [|vals rest IH]; intros w t Ht.
  - exists [], (Ok 0), w. cbn. rewrite app_nil_r.
    repeat split; try easy.
    destruct w as [c s sv l rq f tk]; destruct s as [p q]; cbn in *.
    subst. destruct t; reflexivity.
  - cbn [executemany]. unfold bind at 1.
    destruct (execute_insert_run vals w t Ht) as [sv' Hrun].
    pose proof (pg_insert_cases (pg_now E) (serial w) t cols vals) as Hcase.
    destruct (pg_insert (pg_now E) (serial w) t cols vals) as [t1| |e].
    + destruct Hcase as [Hwf [Hks ->]]. rewrite Hrun.
      set (r1 := proposed_row (pg_now E) (serial w) (columns t) (combine cols vals)) in *.
      set (w1 := World _ _ _ _ _ _ _).
      destruct (IH w1 (Table (columns t) (rows t ++ [r1])) eq_refl)
        as (added & r & w' & Hex & Hc & Hl & Hs & Hadd & Hne & Hok & Hu).
      cbn [columns rows] in *.
      exists (r1 :: added), (match r with Ok m => Ok (1 + m) | Raise e => Raise e | SysExit n => SysExit n end), w'.
      unfold bind. rewrite Hex.
      split; [destruct r; reflexivity|].
      split; [exact Hc|]. split; [exact Hl|].
      split; [rewrite Hs; cbn; now rewrite <- app_assoc|].
      split; [|split; [|split]].
      * intros a [<-|Ha].
        -- exists vals, (serial w). split; [now left|]. split; [exact Hwf|reflexivity].
        -- destruct (Hadd a Ha) as (v & s0 & Hin & Hw & Heq).
           exists v, s0. split; [now right|]. split; assumption.
      * intros code. destruct r; try discriminate. intros Heq. inversion Heq.
        now apply (Hne code).
      * intros n Hn. destruct r as [m| |]; try discriminate.
        intros v [<-|Hin].
        -- split; [exact Hwf|].
           change (rows t ++ r1 :: added)%list with (rows t ++ [r1] ++ added)%list.
           rewrite app_assoc. apply key_stored_app.
           unfold key_stored. rewrite existsb_app. apply orb_true_iff. right.
           cbn [existsb]. rewrite orb_false_r.
           rewrite (same_key_proposed 0 0 (pg_now E) (serial w)).
           now apply same_key_self.
        -- destruct (Hok m eq_refl v Hin) as [Hw Hk]. split; [exact Hw|].
           now rewrite <- app_assoc in Hk.
      * intros Hu0.
        change (rows t ++ r1 :: added)%list with (rows t ++ [r1] ++ added)%list.
        rewrite app_assoc. apply Hu. apply unique_keys_snoc; [exact Hu0|].
        unfold key_stored in Hks.
        now rewrite (existsb_pointwise _ _ (rows t)
                 (same_key_proposed 0 0 (pg_now E) (serial w) (columns t) (combine cols vals))) in Hks.
    + destruct Hcase as [Hwf Hks]. rewrite Hrun.
      set (w1 := World _ _ _ _ _ _ _).
      destruct (IH w1 t Ht)
        as (added & r & w' & Hex & Hc & Hl & Hs & Hadd & Hne & Hok & Hu).
      exists added, (match r with Ok m => Ok (0 + m) | Raise e => Raise e | SysExit n => SysExit n end), w'.
      unfold bind. rewrite Hex.
      split; [destruct r; reflexivity|].
      split; [exact Hc|]. split; [exact Hl|]. split; [exact Hs|].
      split; [|split; [|split]].
      * intros a Ha. destruct (Hadd a Ha) as (v & s0 & Hin & Hw & Heq).
        exists v, s0. split; [now right|]. split; assumption.
      * intros code. destruct r; try discriminate. intros Heq. inversion Heq.
        now apply (Hne code).
      * intros n Hn. destruct r as [m| |]; try discriminate.
        intros v [<-|Hin].
        -- split; [exact Hwf|]. now apply key_stored_app.
        -- now apply (Hok m eq_refl).
      * exact Hu.
    + rewrite Hrun. exists [], (Raise (DatabaseError e)). eexists.
      split; [reflexivity|]. cbn. rewrite app_nil_r.
      split; [reflexivity|]. split; [reflexivity|].
      split.
      { destruct w as [c s sv l rq f tk]; destruct s as [p q]; cbn in *.
        subst. destruct t; reflexivity. }
      split; [intros a []|]. split; [discriminate|].
      split; [discriminate|]. auto.
Qed.

End Loader.

Section Batch.

Variable E : environ.

Lemma insert_data_load_batch (df : DataFrame) :
  crypto_etl.insert_data E df =
  load_batch E "Inserted {rows_affected} new rows into '{TABLE_NAME}'"
             "Error inserting data: {e}" df.
Proof. reflexivity. Qed.

Lemma insert_historical_data_load_batch (df : DataFrame) :
  crypto_historical_etl.insert_historical_data E df =
  load_batch E "Inserted {rows_affected} new historical records into '{TABLE_NAME}'"
             "Error inserting historical data: {e}" df.
Proof. reflexivity. Qed.

Lemma executemany_no_table (cols : list string) (vals : list pyval)
    (rest : list (list pyval)) (w : world) :
  crypto_prices (session w) = None ->
  executemany E cols (vals :: rest) w =
  (Raise (DatabaseError (UndefinedTable "crypto_prices")), w).
Proof.
  intros Ht. cbn [executemany]. unfold bind.
  now rewrite (execute_insert_no_table E cols vals w Ht).
Qed.

Lemma prepare_values_nonempty (df : DataFrame) :
  empty df = false -> exists vals rest, prepare_values df = vals :: rest.
Proof.
  unfold empty, prepare_values. destruct (df_columns df); [discriminate|].
  destruct (df_rows df); [discriminate|]. intros _. cbn. eauto.
Qed.

Lemma load_batch_empty (ok_msg err_msg : string) (df : DataFrame) (w : world) :
  empty df = true ->
  load_batch E ok_msg err_msg df w = logger WARNING "No data to insert" [] w.
Proof. unfold load_batch. now intros ->. Qed.

Lemma load_batch_cases (ok_msg err_msg : string) (df : DataFrame) (w : world) :
  empty df = false ->
  exists r w',
    load_batch E ok_msg err_msg df w = (r, w') /\
    ((exists e, r = Raise e /\
                committed w' = committed w /\ session w' = committed w /\
                In (Log ERROR err_msg [AExn e]) (log w'))
     \/
     (r = Ok tt /\ committed w' = session w' /\
      exists t added,
        crypto_prices (session w) = Some t /\
        session w' =
          set_prices (Some (Table (columns t) (rows t ++ added))) (session w) /\
        (forall a, In a added ->
           exists vals sv,
             In vals (prepare_values df) /\
             well_formed (columns t) (df_columns df) vals = true /\
             a = proposed_row (pg_now E) sv (columns t)
                              (combine (df_columns df) vals)) /\
        (forall vals, In vals (prepare_values df) ->
           well_formed (columns t) (df_columns df) vals = true /\
           key_stored (columns t) (df_columns df) vals (rows t ++ added) = true) /\
        (unique_keys (rows t) -> unique_keys (rows t ++ added)))).
Proof.
  intros Hne. unfold load_batch. rewrite Hne. unfold try_except, bind at 1.
  destruct (crypto_prices (session w)) as [t|] eqn:Ht.
  - destruct (executemany_run E (df_columns df) (prepare_values df) w t Ht)
      as (added & r & w1 & Hex & Hc & Hl & Hs & Hadd & Hnx & Hok & Hu).
    rewrite Hex. destruct r as [n|e|code].
    + do 2 eexists. split; [reflexivity|]. right. cbn.
      split; [reflexivity|]. split; [reflexivity|].
      exists t, added. split; [reflexivity|]. split; [exact Hs|].
      split; [exact Hadd|]. split; [now apply (Hok n)|exact Hu].
    + do 2 eexists. split; [reflexivity|]. left. exists e. cbn.
      split; [reflexivity|]. split; [exact Hc|]. split; [exact Hc|]. now left.
    + now destruct (Hnx code).
  - destruct (prepare_values_nonempty df Hne) as (vals & rest & Hv).
    rewrite Hv, (executemany_no_table _ _ _ _ Ht).
    do 2 eexists. split; [reflexivity|]. left. eexists. cbn.
    split; [reflexivity|]. split; [reflexivity|]. split; [reflexivity|]. now left.
Qed.

End Batch.

Section Again.

Variable E : environ.






End Again.

(* ------------------------------------------------------------------ *)
(** *** Outcomes and frames of the combinators *)

Lemma run_eta {A : Type} (c : M A) (w : world) : c w = (fst (c w), snd (c w)).
Proof. now destruct (c w). Qed.

Lemma no_exit_ret {A : Type} (a : A) : no_exit (ret a).
Proof. intros w code. discriminate. Qed.

Lemma no_exit_raise {A : Type} (e : exn) : no_exit (@raise A e).
Proof. intros w code. discriminate. Qed.

Lemma no_exit_bind {A B : Type} (c : M A) (k : A -> M B) :
  no_exit c -> (forall a, no_exit (k a)) -> no_exit (bind c k).
Proof.
  intros Hc Hk w code. unfold bind. specialize (Hc w).
  destruct (c w) as [[a|e|n] w1]; cbn in *.
  - apply Hk.
  - discriminate.
  - now destruct (Hc n).
Qed.

Lemma no_exit_try_except {A : Type} (c : M A) (h : exn -> M A) :
  no_exit c -> (forall e, no_exit (h e)) -> no_exit (try_except c h).
Proof.
  intros Hc Hh w code. unfold try_except. specialize (Hc w).
  destruct (c w) as [[a|e|n] w1]; cbn in *.
  - discriminate.
  - apply Hh.
  - now destruct (Hc n).
Qed.

Lemma no_exit_try_finally {A : Type} (c : M A) (f : M unit) :
  no_exit c -> no_exit f -> no_exit (try_finally c f).
Proof.
  intros Hc Hf w code. unfold try_finally. specialize (Hc w).
  destruct (c w) as [r w1]. specialize (Hf w1).
  destruct (f w1) as [[a|e|n] w2]; cbn in *.
  - apply Hc.
  - discriminate.
  - now destruct (Hf n).
Qed.

Lemma returns_no_exit {A : Type} (c : M A) : returns c -> no_exit c.
Proof. intros H w code. destruct (H w) as [a ->]. discriminate. Qed.

Lemma returns_ret {A : Type} (a : A) : returns (ret a).
Proof. intros w. now exists a. Qed.

Lemma returns_bind {A B : Type} (c : M A) (k : A -> M B) :
  returns c -> (forall a, returns (k a)) -> returns (bind c k).
Proof.
  intros Hc Hk w. unfold bind. destruct (Hc w) as [a Ha].
  destruct (c w) as [r w1]. cbn in Ha. subst r. apply Hk.
Qed.

Lemma returns_try_except {A : Type} (c : M A) (h : exn -> M A) :
  no_exit c -> (forall e, returns (h e)) -> returns (try_except c h).
Proof.
  intros Hc Hh w. unfold try_except. specialize (Hc w).
  destruct (c w) as [[a|e|n] w1]; cbn in *.
  - now exists a.
  - apply Hh.
  - now destruct (Hc n).
Qed.

Lemma returns_logger (l : level) (m : string) (a : list arg) :
  returns (logger l m a).
Proof. intros w. now exists tt. Qed.

Lemma keeps_ret {A B : Type} (p : world -> B) (a : A) : keeps p (ret a).
Proof. intros w. reflexivity. Qed.

Lemma keeps_raise {A B : Type} (p : world -> B) (e : exn) : keeps p (@raise A e).
Proof. intros w. reflexivity. Qed.

Lemma keeps_exit {A B : Type} (p : world -> B) (n : Z) : keeps p (@exit A n).
Proof. intros w. reflexivity. Qed.

Lemma keeps_bind {A B C : Type} (p : world -> C) (c : M A) (k : A -> M B) :
  keeps p c -> (forall a, keeps p (k a)) -> keeps p (bind c k).
Proof.
  intros Hc Hk w. unfold bind. specialize (Hc w).
  destruct (c w) as [[a|e|n] w1]; cbn in *; try assumption.
  now rewrite Hk.
Qed.

Lemma keeps_try_except {A C : Type} (p : world -> C) (c : M A) (h : exn -> M A) :
  keeps p c -> (forall e, keeps p (h e)) -> keeps p (try_except c h).
Proof.
  intros Hc Hh w. unfold try_except. specialize (Hc w).
  destruct (c w) as [[a|e|n] w1]; cbn in *; try assumption.
  now rewrite Hh.
Qed.

Lemma keeps_try_finally {A C : Type} (p : world -> C) (c : M A) (f : M unit) :
  keeps p c -> keeps p f -> keeps p (try_finally c f).
Proof.
  intros Hc Hf w. unfold try_finally. specialize (Hc w).
  destruct (c w) as [r w1]. specialize (Hf w1).
  destruct (f w1) as [[a|e|n] w2]; cbn in *; congruence.
Qed.

Lemma keeps_store_logger (l : level) (m : string) (a : list arg) :
  keeps store (logger l m a).
Proof. intros w. reflexivity. Qed.

Lemma keeps_requests_logger (l : level) (m : string) (a : list arg) :
  keeps requests (logger l m a).
Proof. intros w. reflexivity. Qed.

Lemma keeps_store_now (E : environ) : keeps store (now E).
Proof. intros w. reflexivity. Qed.

Lemma keeps_requests_now (E : environ) : keeps requests (now E).
Proof. intros w. reflexivity. Qed.

Lemma keeps_store_http (E : environ) (r : request) : keeps store (http E r).
Proof. intros w. unfold http. now destruct (http_get E r). Qed.

Lemma keeps_store_write_file (E : environ) (path : string) :
  keeps store (write_file E path).
Proof. intros w. unfold write_file. now destruct (fs_writable E). Qed.

Lemma keeps_requests_write_file (E : environ) (path : string) :
  keeps requests (write_file E path).
Proof. intros w. unfold write_file. now destruct (fs_writable E). Qed.

Lemma no_exit_now (E : environ) : no_exit (now E).
Proof. intros w code. discriminate. Qed.

Lemma no_exit_logger (l : level) (m : string) (a : list arg) :
  no_exit (logger l m a).
Proof. intros w code. discriminate. Qed.

Lemma no_exit_http (E : environ) (r : request) : no_exit (http E r).
Proof. intros w code. unfold http. destruct (http_get E r); discriminate. Qed.

Lemma no_exit_write_file (E : environ) (path : string) :
  no_exit (write_file E path).
Proof. intros w code. unfold write_file. destruct (fs_writable E); discriminate. Qed.

Lemma no_exit_subscript (j : json) (k : string) : no_exit (subscript j k).
Proof.
  intros w code. destruct j; cbn; try discriminate.
  destruct (lookup k fields); discriminate.
Qed.

Lemma keeps_subscript {B : Type} (p : world -> B) (j : json) (k : string) :
  keeps p (subscript j k).
Proof.
  intros w. destruct j; cbn; try reflexivity.
  destruct (lookup k fields); reflexivity.
Qed.

Lemma no_exit_get_method (j : json) (k : string) : no_exit (get_method j k).
Proof.
  intros w code. destruct j; cbn; try discriminate.
  destruct (lookup k fields); discriminate.
Qed.

Lemma keeps_get_method {B : Type} (p : world -> B) (j : json) (k : string) :
  keeps p (get_method j k).
Proof.
  intros w. destruct j; cbn; try reflexivity.
  destruct (lookup k fields); reflexivity.
Qed.

Create HintDb job discriminated.

#[local] Hint Resolve no_exit_ret no_exit_raise no_exit_bind no_exit_try_except
  no_exit_try_finally no_exit_now no_exit_logger no_exit_http
  no_exit_write_file no_exit_subscript no_exit_get_method
  returns_ret returns_bind returns_try_except returns_logger
  keeps_ret keeps_raise keeps_exit keeps_bind keeps_try_except
  keeps_try_finally keeps_store_logger keeps_requests_logger keeps_store_now
  keeps_requests_now keeps_store_http keeps_store_write_file
  keeps_requests_write_file keeps_subscript keeps_get_method : job.

(** Splits a job along its structure; what is left are its leaves. *)
Ltac job :=
  repeat first
    [ progress intros
    | solve [auto 2 with job]
    | apply no_exit_bind | apply no_exit_try_except | apply no_exit_try_finally
    | apply returns_bind | apply returns_try_except
    | apply keeps_bind | apply keeps_try_except | apply keeps_try_finally
    | match goal with
      | |- context [if ?b then _ else _] => destruct b
      | |- context [match ?x with _ => _ end] => destruct x
      end ].

(* ------------------------------------------------------------------ *)
(** *** The collector's steps *)

Section CollectorSteps.

Variable E : environ.

Lemma parse_date_returns (coin field : string) (mkt : json) :
  returns (crypto_etl.parse_date E coin field mkt).
Proof. unfold crypto_etl.parse_date. job. Qed.

Lemma parse_date_keeps_store (coin field : string) (mkt : json) :
  keeps store (crypto_etl.parse_date E coin field mkt).
Proof. unfold crypto_etl.parse_date. job. Qed.

Lemma fetch_coin_no_exit (coin : string) : no_exit (crypto_etl.fetch_coin E coin).
Proof.
  unfold crypto_etl.fetch_coin, crypto_etl.usd, crypto_etl.field.
  pose proof parse_date_returns. job; apply returns_no_exit; auto.
Qed.

Lemma fetch_coin_keeps_store (coin : string) :
  keeps store (crypto_etl.fetch_coin E coin).
Proof.
  unfold crypto_etl.fetch_coin, crypto_etl.usd, crypto_etl.field.
  pose proof parse_date_keeps_store. job.
Qed.

Lemma fetch_coins_returns (coins : list string) :
  returns (crypto_etl.fetch_coins E coins).
Proof.
  induction coins as [|coin rest IH]; cbn [crypto_etl.fetch_coins].
  - job.
  - pose proof fetch_coin_no_exit. job.
Qed.

Lemma fetch_coins_keeps_store (coins : list string) :
  keeps store (crypto_etl.fetch_coins E coins).
Proof.
  induction coins as [|coin rest IH]; cbn [crypto_etl.fetch_coins].
  - job.
  - pose proof fetch_coin_keeps_store. job.
Qed.

Lemma fetch_crypto_data_returns : returns (crypto_etl.fetch_crypto_data E).
Proof. unfold crypto_etl.fetch_crypto_data. pose proof fetch_coins_returns. job. Qed.

Lemma fetch_crypto_data_keeps_store : keeps store (crypto_etl.fetch_crypto_data E).
Proof.
  unfold crypto_etl.fetch_crypto_data. pose proof fetch_coins_keeps_store. job.
Qed.

Lemma save_files_returns (df : DataFrame) : returns (crypto_etl.save_files E df).
Proof.
  unfold crypto_etl.save_files.
  apply returns_bind; [intros w; now eexists|]. job.
Qed.

Lemma save_files_keeps_store (df : DataFrame) :
  keeps store (crypto_etl.save_files E df).
Proof. unfold crypto_etl.save_files. job. Qed.

Lemma summarize_db_returns : returns crypto_etl.summarize_db.
Proof.
  intros w. unfold crypto_etl.summarize_db, bind, get.
  destruct (crypto_prices (session w)); now eexists.
Qed.

Lemma summarize_db_keeps_store : keeps store crypto_etl.summarize_db.
Proof.
  intros w. unfold crypto_etl.summarize_db, bind, get.
  destruct (crypto_prices (session w)); reflexivity.
Qed.

End CollectorSteps.

(* ------------------------------------------------------------------ *)
(** *** The backfill job's steps *)

Section BackfillSteps.

Variable E : environ.

Ltac leaf := intros w; (try intros code); cbn;
  repeat match goal with
         | |- context [match ?x with _ => _ end] => destruct x; cbn
         end; (reflexivity || discriminate).

Lemma iter_no_exit (j : json) : no_exit (crypto_historical_etl.iter j).
Proof. destruct j; leaf. Qed.

Lemma iter_keeps {B : Type} (p : world -> B) (j : json) :
  keeps p (crypto_historical_etl.iter j).
Proof. destruct j; leaf. Qed.

Lemma len_no_exit (j : json) : no_exit (crypto_historical_etl.len j).
Proof. destruct j; leaf. Qed.

Lemma len_keeps {B : Type} (p : world -> B) (j : json) :
  keeps p (crypto_historical_etl.len j).
Proof. destruct j; leaf. Qed.

Lemma item_no_exit (j : json) (i : nat) : no_exit (crypto_historical_etl.item j i).
Proof. destruct j; leaf. Qed.

Lemma item_keeps {B : Type} (p : world -> B) (j : json) (i : nat) :
  keeps p (crypto_historical_etl.item j i).
Proof. destruct j; leaf. Qed.

Lemma number_no_exit (j : json) : no_exit (crypto_historical_etl.number j).
Proof. destruct j; leaf. Qed.

Lemma number_keeps {B : Type} (p : world -> B) (j : json) :
  keeps p (crypto_historical_etl.number j).
Proof. destruct j; leaf. Qed.

#[local] Hint Resolve iter_no_exit iter_keeps len_no_exit len_keeps item_no_exit
  item_keeps number_no_exit number_keeps : job.

Lemma unpack2_no_exit (j : json) : no_exit (crypto_historical_etl.unpack2 j).
Proof. unfold crypto_historical_etl.unpack2. job. Qed.

Lemma unpack2_keeps {B : Type} (p : world -> B) (j : json) :
  keeps p (crypto_historical_etl.unpack2 j).
Proof. unfold crypto_historical_etl.unpack2. job. Qed.

#[local] Hint Resolve unpack2_no_exit unpack2_keeps : job.

Lemma historical_row_no_exit (mc vol : json) (i : nat) (entry : json) :
  no_exit (crypto_historical_etl.historical_row E mc vol i entry).
Proof.
  unfold crypto_historical_etl.historical_row, crypto_historical_etl.second_at. job.
Qed.

Lemma historical_row_keeps_store (mc vol : json) (i : nat) (entry : json) :
  keeps store (crypto_historical_etl.historical_row E mc vol i entry).
Proof.
  unfold crypto_historical_etl.historical_row, crypto_historical_etl.second_at. job.
Qed.

Lemma historical_row_keeps_requests (mc vol : json) (i : nat) (entry : json) :
  keeps requests (crypto_historical_etl.historical_row E mc vol i entry).
Proof.
  unfold crypto_historical_etl.historical_row, crypto_historical_etl.second_at. job.
Qed.

#[local] Hint Resolve historical_row_no_exit historical_row_keeps_store
  historical_row_keeps_requests : job.

Lemma historical_rows_no_exit (mc vol : json) (prices : list json) :
  forall i, no_exit (crypto_historical_etl.historical_rows E mc vol i prices).
Proof.
  induction prices as [|entry rest IH]; intros i;
    cbn [crypto_historical_etl.historical_rows]; job.
Qed.

Lemma historical_rows_keeps_store (mc vol : json) (prices : list json) :
  forall i, keeps store (crypto_historical_etl.historical_rows E mc vol i prices).
Proof.
  induction prices as [|entry rest IH]; intros i;
    cbn [crypto_historical_etl.historical_rows]; job.
Qed.

Lemma historical_rows_keeps_requests (mc vol : json) (prices : list json) :
  forall i, keeps requests (crypto_historical_etl.historical_rows E mc vol i prices).
Proof.
  induction prices as [|entry rest IH]; intros i;
    cbn [crypto_historical_etl.historical_rows]; job.
Qed.

#[local] Hint Resolve historical_rows_no_exit historical_rows_keeps_store
  historical_rows_keeps_requests : job.

Lemma save_historical_files_no_exit (df : DataFrame) (days : Z) :
  no_exit (crypto_historical_etl.save_historical_files E df days).
Proof. unfold crypto_historical_etl.save_historical_files. job. Qed.

Lemma save_historical_files_keeps_store (df : DataFrame) (days : Z) :
  keeps store (crypto_historical_etl.save_historical_files E df days).
Proof. unfold crypto_historical_etl.save_historical_files. job. Qed.

Lemma save_historical_files_keeps_requests (df : DataFrame) (days : Z) :
  keeps requests (crypto_historical_etl.save_historical_files E df days).
Proof. unfold crypto_historical_etl.save_historical_files. job. Qed.

#[local] Hint Resolve save_historical_files_no_exit
  save_historical_files_keeps_store save_historical_files_keeps_requests : job.

Lemma fetch_historical_data_returns (days : Z) :
  returns (crypto_historical_etl.fetch_historical_data E days).
Proof. unfold crypto_historical_etl.fetch_historical_data. job. Qed.

Lemma fetch_historical_data_keeps_store (days : Z) :
  keeps store (crypto_historical_etl.fetch_historical_data E days).
Proof. unfold crypto_historical_etl.fetch_historical_data. job. Qed.

(** The fetch makes one request, for the number of days it is given. *)
Lemma fetch_historical_data_requests (days : Z) (w : world) :
  requests (snd (crypto_historical_etl.fetch_historical_data E days w)) =
  GetMarketChart crypto_historical_etl.COIN_ID days :: requests w.
Proof.
  unfold crypto_historical_etl.fetch_historical_data.
  unfold bind at 1. cbn [logger]. unfold try_except, bind at 1.
  match goal with
  | |- context [match http E ?r ?w0 with _ => _ end] =>
      assert (Hreq : requests (snd (http E r w0)) = r :: requests w)
        by (unfold http; destruct (http_get E r); reflexivity);
      destruct (http E r w0) as [[data| |] w1]; cbn in Hreq
  end.
  - match goal with
    | |- context [?k w1] =>
        match k with
        | bind _ _ =>
            assert (Hk : keeps requests k) by job;
            specialize (Hk w1); destruct (k w1) as [[df|e|n] w2]; cbn in Hk |- *;
            congruence
        end
    end.
  - cbn. exact Hreq.
  - cbn. exact Hreq.
Qed.

Lemma count_query_no_exit : no_exit crypto_historical_etl.count_query.
Proof.
  intros w code. unfold crypto_historical_etl.count_query, bind, get.
  destruct (crypto_prices (session w)); [|discriminate].
  destruct (find _ _); discriminate.
Qed.

Lemma count_query_keeps {B : Type} (p : world -> B) :
  keeps p crypto_historical_etl.count_query.
Proof.
  intros w. unfold crypto_historical_etl.count_query, bind, get.
  destruct (crypto_prices (session w)); [|reflexivity].
  destruct (find _ _); reflexivity.
Qed.

#[local] Hint Resolve count_query_no_exit count_query_keeps : job.

Lemma check_current_data_returns : returns crypto_historical_etl.check_current_data.
Proof. unfold crypto_historical_etl.check_current_data. job. Qed.

Lemma check_current_data_keeps_store :
  keeps store crypto_historical_etl.check_current_data.
Proof. unfold crypto_historical_etl.check_current_data. job. Qed.

Lemma check_current_data_keeps_requests :
  keeps requests crypto_historical_etl.check_current_data.
Proof. unfold crypto_historical_etl.check_current_data. job. Qed.

End BackfillSteps.

(* ------------------------------------------------------------------ *)
(** *** Stepping through a job *)

Lemma step_returns {A B : Type} (c : M A) (k : A -> M B) (w : world) :
  returns c ->
  exists a, c w = (Ok a, snd (c w)) /\ bind c k w = k a (snd (c w)).
Proof.
  intros H. destruct (H w) as [a Ha]. exists a. unfold bind.
  destruct (c w) as [r w1]. cbn in *. subst r. split; reflexivity.
Qed.

Lemma bind_logger {B : Type} (l : level) (m : string) (a : list arg)
    (k : unit -> M B) (w : world) :
  bind (logger l m a) k w = k tt (snd (logger l m a w)).
Proof. reflexivity. Qed.

Lemma try_finally_returns {A : Type} (c : M A) (f : M unit) (w : world) :
  returns f ->
  try_finally c f w = (fst (c w), snd (f (snd (c w)))).
Proof.
  intros H. unfold try_finally. destruct (c w) as [r w1]. cbn.
  destruct (H w1) as [a Ha]. destruct (f w1) as [r2 w2]. cbn in *. now subst.
Qed.

Lemma returns_try_finally {A : Type} (c : M A) (f : M unit) :
  returns c -> returns f -> returns (try_finally c f).
Proof.
  intros Hc Hf w. rewrite try_finally_returns by assumption. cbn. apply Hc.
Qed.

Lemma connect_postgres_run (E : environ) (w : world) :
  (pg_connect E (values (DB_CONFIG E)) = true ->
   fst (connect_postgres E w) = Ok true /\
   store (snd (connect_postgres E w)) = (committed w, committed w, serial w) /\
   requests (snd (connect_postgres E w)) = requests w) /\
  (pg_connect E (values (DB_CONFIG E)) = false ->
   fst (connect_postgres E w) = Ok false /\
   store (snd (connect_postgres E w)) = store w /\
   requests (snd (connect_postgres E w)) = requests w).
Proof.
  unfold connect_postgres. split; intros ->; cbn; repeat split.
Qed.

Lemma connect_postgres_returns (E : environ) : returns (connect_postgres E).
Proof.
  intros w. unfold connect_postgres.
  destruct (pg_connect E _); cbn; eexists; reflexivity.
Qed.

Lemma check_current_data_value (w : world) :
  fst (crypto_historical_etl.check_current_data w) = Ok (current_count (session w)).
Proof.
  unfold crypto_historical_etl.check_current_data, try_except, bind at 1.
  unfold crypto_historical_etl.count_query, bind at 1, get, current_count.
  destruct (crypto_prices (session w)) as [t|]; [|reflexivity].
  cbn [find negb].
  destruct (mem "timestamp" (columns t)); cbn; [|reflexivity].
  destruct (mem "coin_id" (columns t)); cbn; [|reflexivity].
  unfold bind. cbn.
  destruct (Z.of_nat _ >? 0); reflexivity.
Qed.

Lemma load_batch_no_exit (E : environ) (ok_msg err_msg : string) (df : DataFrame) :
  no_exit (load_batch E ok_msg err_msg df).
Proof.
  intros w code. destruct (empty df) eqn:Hemp.
  - rewrite (load_batch_empty E _ _ _ _ Hemp). discriminate.
  - destruct (load_batch_cases E ok_msg err_msg df w Hemp)
      as (r & w' & -> & [(e & -> & _) | (-> & _)]); discriminate.
Qed.

Lemma grown_refl (d : database) : grown d d.
Proof. split; [reflexivity | now left]. Qed.

Lemma load_batch_grown (E : environ) (ok_msg err_msg : string) (df : DataFrame)
    (w : world) :
  session w = committed w ->
  session (snd (load_batch E ok_msg err_msg df w)) =
    committed (snd (load_batch E ok_msg err_msg df w)) /\
  grown (committed w) (committed (snd (load_batch E ok_msg err_msg df w))) /\
  requests (snd (load_batch E ok_msg err_msg df w)) = requests w.
Proof.
  intros Hsc. destruct (empty df) eqn:Hemp.
  - rewrite (load_batch_empty E _ _ _ _ Hemp). cbn.
    split; [exact Hsc|]. split; [apply grown_refl | reflexivity].
  - assert (Hreq : requests (snd (load_batch E ok_msg err_msg df w)) = requests w).
    { unfold load_batch. rewrite Hemp. unfold try_except, bind at 1.
      assert (Hk : forall cols values w0,
                 requests (snd (executemany E cols values w0)) = requests w0).
      { intros cols values. induction values as [|v rest IH]; intros w0;
          [reflexivity|].
        cbn [executemany]. unfold bind at 1.
        assert (H1 : requests (snd (execute_insert E cols v w0)) = requests w0).
        { unfold execute_insert, bind, get.
          destruct (crypto_prices (session w0)); [|reflexivity].
          destruct (forallb adaptable v && _ && _); cbn;
            destruct (pg_insert _ _ _ _ _); reflexivity. }
        destruct (execute_insert E cols v w0) as [[n|e|c] w1]; cbn in H1 |- *;
          try exact H1.
        unfold bind. specialize (IH w1).
        destruct (executemany E cols rest w1) as [[m|e|c] w2]; cbn in IH |- *;
          congruence. }
      specialize (Hk (df_columns df) (prepare_values df) w).
      destruct (executemany E (df_columns df) (prepare_values df) w)
        as [[n|e|c] w1]; cbn in Hk |- *; exact Hk. }
    split; [|split; [|exact Hreq]];
    destruct (load_batch_cases E ok_msg err_msg df w Hemp)
      as (r & w' & Hrun & [(e & _ & Hc & Hs & _) | (_ & Hcs & t & added & Ht & Hs & _)]);
      rewrite Hrun; cbn.
    + congruence.
    + congruence.
    + rewrite Hc. apply grown_refl.
    + rewrite Hcs, Hs. rewrite <- Hsc. split; [reflexivity|].
      right. exists t, added. split; [exact Ht | reflexivity].
Qed.

Section BackfillRun.

Variable E : environ.

Lemma backfill_main_run (w : world) :
  exists w',
    crypto_historical_etl.main E w = (Ok tt, w') /\
    (pg_connect E (values (DB_CONFIG E)) = false ->
     store w' = store w /\ requests w' = requests w) /\
    (pg_connect E (values (DB_CONFIG E)) = true ->
     requests w' =
       GetMarketChart crypto_historical_etl.COIN_ID
         (if current_count (committed w) <? 30 then 30 else 7) :: requests w /\
     session w' = committed w' /\
     grown (committed w) (committed w')).
Proof.
  unfold crypto_historical_etl.main.
  rewrite !bind_logger.
  set (w2 := snd (logger _ _ _ (snd (logger _ _ _ w)))).
  assert (Hw2 : store w2 = store w /\ requests w2 = requests w) by (split; reflexivity).
  clearbody w2. destruct Hw2 as [Hst2 Hrq2].
  destruct (connect_postgres_run E w2) as [Hyes Hno].
  match goal with
  | |- context [bind (connect_postgres E) ?k w2] =>
      destruct (step_returns (connect_postgres E) k w2 (connect_postgres_returns E))
        as (conn & Hconn & ->)
  end.
  destruct (pg_connect E (values (DB_CONFIG E))) eqn:Hpg.
  - destruct (Hyes eq_refl) as (Hfst & Hst3 & Hrq3). clear Hyes Hno.
    rewrite Hconn in Hfst. cbn in Hfst. inversion Hfst; subst conn. clear Hfst Hconn.
    set (w3 := snd (connect_postgres E w2)) in *. clearbody w3.
    cbn [negb].
    assert (Hfin : returns (bind close (fun _ => logger INFO "Database connection closed" [])))
      by (intros w0; now eexists).
    rewrite (try_finally_returns _ _ _ Hfin).
    match goal with
    | |- context [try_except ?b ?h] => set (BODY := b); set (H := h)
    end.
    assert (Hbody : exists wend,
      try_except BODY H w3 = (Ok tt, wend) /\
      requests wend =
        GetMarketChart crypto_historical_etl.COIN_ID
          (if current_count (committed w) <? 30 then 30 else 7) :: requests w /\
      grown (committed w) (committed wend)).
    { unfold try_except, BODY.
      match goal with
      | |- context [bind crypto_historical_etl.check_current_data ?k w3] =>
          destruct (step_returns crypto_historical_etl.check_current_data k w3
                      check_current_data_returns) as (count & Hcount & ->)
      end.
      pose proof (check_current_data_value w3) as Hval.
      rewrite Hcount in Hval. cbn in Hval. inversion Hval; subst count. clear Hval Hcount.
      pose proof (check_current_data_keeps_store w3) as Hst4.
      pose proof (check_current_data_keeps_requests w3) as Hrq4.
      set (w4 := snd (crypto_historical_etl.check_current_data w3)) in *. clearbody w4.
      assert (Hsess : session w3 = committed w) by (unfold store in *; congruence).
      rewrite Hsess. cbn zeta.
      set (days := if current_count (committed w) <? 30 then 30 else 7).
      rewrite bind_logger.
      set (w5 := snd (logger _ _ _ w4)).
      assert (Hw5 : store w5 = store w4 /\ requests w5 = requests w4) by (split; reflexivity).
      clearbody w5. destruct Hw5 as [Hst5 Hrq5].
      match goal with
      | |- context [bind (crypto_historical_etl.fetch_historical_data E days) ?k w5] =>
          destruct (step_returns (crypto_historical_etl.fetch_historical_data E days) k w5
                      (fetch_historical_data_returns E days)) as (df & Hdf & ->)
      end.
      pose proof (fetch_historical_data_keeps_store E days w5) as Hst6.
      pose proof (fetch_historical_data_requests E days w5) as Hrq6.
      set (w6 := snd (crypto_historical_etl.fetch_historical_data E days w5)) in *.
      clearbody w6. clear Hdf.
      assert (Hw6 : committed w6 = committed w /\ session w6 = committed w).
      { unfold store in *. split; congruence. }
      destruct Hw6 as [Hc6 Hs6].
      assert (Hr6 : requests w6 = GetMarketChart crypto_historical_etl.COIN_ID days :: requests w)
        by congruence.
      destruct (empty df) eqn:Hemp.
      - cbn. eexists. split; [reflexivity|]. cbn.
        split; [exact Hr6|]. rewrite Hc6. apply grown_refl.
      - rewrite insert_historical_data_load_batch.
        destruct (load_batch_grown E
                    "Inserted {rows_affected} new historical records into '{TABLE_NAME}'"
                    "Error inserting historical data: {e}" df w6)
          as (Hsc7 & Hg7 & Hrq7); [congruence|].
        pose proof (load_batch_no_exit E
                    "Inserted {rows_affected} new historical records into '{TABLE_NAME}'"
                    "Error inserting historical data: {e}" df w6) as Hnx.
        unfold bind at 1.
        destruct (load_batch E _ _ df w6) as [[[]|e|code] w7]; cbn in Hsc7, Hg7, Hrq7, Hnx.
        + match goal with
          | |- context [bind crypto_historical_etl.check_current_data ?k w7] =>
              destruct (step_returns crypto_historical_etl.check_current_data k w7
                          check_current_data_returns) as (fc & Hfc & ->)
          end.
          pose proof (check_current_data_keeps_store w7) as Hst8.
          pose proof (check_current_data_keeps_requests w7) as Hrq8.
          set (w8 := snd (crypto_historical_etl.check_current_data w7)) in *.
          clearbody w8. clear Hfc.
          rewrite bind_logger.
          assert (Hc8 : committed w8 = committed w7) by (unfold store in *; congruence).
          destruct (fc >=? 10); cbn; eexists; (split; [reflexivity|]); cbn;
            (split; [rewrite Hrq8, Hrq7; exact Hr6|]); rewrite Hc8, <- Hc6; exact Hg7.
        + cbn. eexists. split; [reflexivity|]. cbn.
          split; [rewrite Hrq7; exact Hr6|]. rewrite <- Hc6. exact Hg7.
        + now destruct (Hnx code). }
    destruct Hbody as (wend & Hrun & Hreq & Hgrown).
    rewrite Hrun. cbn [fst snd]. eexists. split; [reflexivity|].
    split; [discriminate|]. intros _. cbn.
    split; [exact Hreq|]. split; [reflexivity | exact Hgrown].
  - destruct (Hno eq_refl) as (Hfst & Hst3 & Hrq3). clear Hyes Hno.
    rewrite Hconn in Hfst. cbn in Hfst. inversion Hfst; subst conn. clear Hfst Hconn.
    set (w3 := snd (connect_postgres E w2)) in *. clearbody w3.
    cbn. eexists. split; [reflexivity|]. cbn.
    split; [|discriminate]. intros _. unfold store in *. cbn. split; congruence.
Qed.

End BackfillRun.

Lemma create_table_run (w : world) :
  exists w',
    crypto_etl.create_table_if_not_exists w = (Ok tt, w') /\
    session w' = committed w' /\
    requests w' = requests w /\
    (crypto_etl.schema_mismatch (crypto_etl.existing_columns_of (session w)) = true ->
     committed w' =
       set_prices (Some (Table crypto_etl.create_sql_columns [])) (session w)) /\
    (crypto_etl.schema_mismatch (crypto_etl.existing_columns_of (session w)) = false ->
     committed w' = session w).
Proof.
  unfold crypto_etl.create_table_if_not_exists, try_except, bind, get.
  destruct (crypto_etl.schema_mismatch _); cbn;
    eexists; (split; [reflexivity|]); cbn; repeat split; congruence.
Qed.

Section CollectorRun.

Variable E : environ.

Lemma collector_main_run (w : world) :
  exists r w',
    crypto_etl.main E w = (r, w') /\
    (forall code, r <> SysExit code) /\
    (pg_connect E (values (DB_CONFIG E)) = false ->
     r = Ok tt /\ store w' = store w) /\
    (crypto_etl.schema_mismatch (crypto_etl.existing_columns_of (committed w)) = false ->
     grown (committed w) (committed w')).
Proof.
  unfold crypto_etl.main. rewrite bind_logger.
  set (w0 := snd (logger _ _ _ w)).
  assert (Hst0 : store w0 = store w) by reflexivity. clearbody w0.
  unfold try_except.
  match goal with
  | |- context [bind (crypto_etl.fetch_crypto_data E) ?k w0] =>
      destruct (step_returns (crypto_etl.fetch_crypto_data E) k w0
                  (fetch_crypto_data_returns E)) as (df & Hdf & ->)
  end.
  pose proof (fetch_crypto_data_keeps_store E w0) as Hst1.
  set (w1 := snd (crypto_etl.fetch_crypto_data E w0)) in *. clearbody w1. clear Hdf.
  destruct (empty df) eqn:Hemp.
  { cbn. do 2 eexists. split; [reflexivity|]. cbn.
    assert (Hc : committed w1 = committed w) by (unfold store in *; congruence).
    split; [discriminate|]. split.
    - intros _. split; [reflexivity|]. unfold store in *. cbn. congruence.
    - intros _. rewrite Hc. apply grown_refl. }
  match goal with
  | |- context [bind (crypto_etl.save_files E df) ?k w1] =>
      destruct (step_returns (crypto_etl.save_files E df) k w1
                  (save_files_returns E df)) as ([] & Hsf & ->)
  end.
  pose proof (save_files_keeps_store E df w1) as Hst2.
  set (w2 := snd (crypto_etl.save_files E df w1)) in *. clearbody w2. clear Hsf.
  destruct (connect_postgres_run E w2) as [Hyes Hno].
  match goal with
  | |- context [bind (connect_postgres E) ?k w2] =>
      destruct (step_returns (connect_postgres E) k w2 (connect_postgres_returns E))
        as (conn & Hconn & ->)
  end.
  destruct (pg_connect E (values (DB_CONFIG E))) eqn:Hpg.
  - destruct (Hyes eq_refl) as (Hfst & Hst3 & _). clear Hyes Hno.
    rewrite Hconn in Hfst. cbn in Hfst. inversion Hfst; subst conn. clear Hfst Hconn.
    set (w3 := snd (connect_postgres E w2)) in *. clearbody w3.
    cbn [negb].
    assert (Hw3 : committed w3 = committed w /\ session w3 = committed w).
    { unfold store in *. split; congruence. }
    destruct Hw3 as [Hc3 Hs3].
    assert (Hfin : returns (bind close (fun _ => logger INFO "Database connection closed" [])))
      by (intros w'; now eexists).
    rewrite (try_finally_returns _ _ _ Hfin).
    match goal with
    | |- context [fst (?b w3)] => set (BLOCK := b)
    end.
    assert (Hblock : exists r wend,
      BLOCK w3 = (r, wend) /\ (forall code, r <> SysExit code) /\
      (crypto_etl.schema_mismatch (crypto_etl.existing_columns_of (committed w)) = false ->
       grown (committed w) (committed wend))).
    { unfold BLOCK.
      destruct (create_table_run w3) as (w4 & Hcreate & Hsc4 & _ & _ & Hkeep).
      unfold bind at 1. rewrite Hcreate.
      rewrite insert_data_load_batch.
      destruct (load_batch_grown E "Inserted {rows_affected} new rows into '{TABLE_NAME}'"
                  "Error inserting data: {e}" df w4 Hsc4) as (_ & Hg5 & _).
      pose proof (load_batch_no_exit E "Inserted {rows_affected} new rows into '{TABLE_NAME}'"
                  "Error inserting data: {e}" df w4) as Hnx.
      unfold bind at 1.
      destruct (load_batch E _ _ df w4) as [[[]|e|code] w5]; cbn in Hg5, Hnx.
      + match goal with
        | |- context [bind crypto_etl.summarize_db ?k w5] =>
            destruct (step_returns crypto_etl.summarize_db k w5 summarize_db_returns)
              as ([] & Hsum & ->)
        end.
        pose proof (summarize_db_keeps_store w5) as Hst6.
        set (w6 := snd (crypto_etl.summarize_db w5)) in *. clearbody w6. clear Hsum.
        cbn. do 2 eexists. split; [reflexivity|]. cbn.
        split; [discriminate|]. intros Hm.
        assert (Hc6 : committed w6 = committed w5) by (unfold store in *; congruence).
        rewrite Hc6. rewrite <- Hs3 in Hm. rewrite (Hkeep Hm), Hs3 in Hg5. exact Hg5.
      + do 2 eexists. split; [reflexivity|]. split; [discriminate|]. intros Hm.
        rewrite <- Hs3 in Hm. rewrite (Hkeep Hm), Hs3 in Hg5. exact Hg5.
      + now destruct (Hnx code). }
    destruct Hblock as (r & wend & Hrun & Hnx & Hgrown).
    rewrite Hrun. cbn [fst snd].
    destruct r as [[]|e|code].
    + do 2 eexists. split; [reflexivity|]. cbn.
      split; [discriminate|]. split; [discriminate|]. exact Hgrown.
    + cbn. do 2 eexists. split; [reflexivity|]. cbn.
      split; [discriminate|]. split; [discriminate|]. exact Hgrown.
    + now destruct (Hnx code).
  - destruct (Hno eq_refl) as (Hfst & Hst3 & _). clear Hyes Hno.
    rewrite Hconn in Hfst. cbn in Hfst. inversion Hfst; subst conn. clear Hfst Hconn.
    set (w3 := snd (connect_postgres E w2)) in *. clearbody w3.
    cbn. do 2 eexists. split; [reflexivity|]. cbn.
    assert (Hc : committed w3 = committed w) by (unfold store in *; congruence).
    split; [discriminate|]. split.
    + intros _. split; [reflexivity|]. unfold store in *. cbn. congruence.
    + intros _. rewrite Hc. apply grown_refl.
Qed.

End CollectorRun.

(* ------------------------------------------------------------------ *)
(** *** The forecaster's steps *)

Lemma cleanup_run (E : environ) (days : Z) (w : world) :
  exists w',
    bitcoin_prophet_forecast.cleanup_old_forecasts E days w = (Ok tt, w') /\
    session w' = committed w' /\
    crypto_prices (committed w') = crypto_prices (committed w) /\
    crypto_predictions (committed w') =
      option_map (filter (fun p => negb (bitcoin_prophet_forecast.stale (pg_now E) days p)))
                 (crypto_predictions (committed w)).
Proof.
  unfold bitcoin_prophet_forecast.cleanup_old_forecasts, try_except, bind at 1.
  unfold bitcoin_prophet_forecast.engine_connect. cbn [rollback].
  unfold bind at 1, bitcoin_prophet_forecast.delete_stale, bind at 1, get.
  cbn [session committed].
  destruct (crypto_predictions (committed w)) as [l|] eqn:Hl.
  - cbn. destruct (Z.of_nat _ >? 0); cbn;
      eexists; (split; [reflexivity|]); cbn; repeat split.
  - cbn. eexists. split; [reflexivity|]. cbn. repeat split. now rewrite Hl.
Qed.

Lemma load_batch_raise (E : environ) (ok_msg err_msg : string) (df : DataFrame)
    (w w' : world) (e : exn) :
  load_batch E ok_msg err_msg df w = (Raise e, w') ->
  committed w' = committed w /\ session w' = committed w.
Proof.
  intros Hrun. destruct (empty df) eqn:Hemp.
  - rewrite (load_batch_empty E _ _ _ _ Hemp) in Hrun. discriminate.
  - destruct (load_batch_cases E ok_msg err_msg df w Hemp)
      as (r & w0 & Hrun0 & [(e0 & _ & Hc & Hs & _) | (Hr & _)]);
      rewrite Hrun in Hrun0; inversion Hrun0; subst; [auto | discriminate].
Qed.

(* ------------------------------------------------------------------ *)
(** *** Where a cell of the batch ends up *)

Lemma bind_ok_inv {A B : Type} (c : M A) (k : A -> M B) (w w' : world) (b : B) :
  bind c k w = (Ok b, w') ->
  exists a w1, c w = (Ok a, w1) /\ k a w1 = (Ok b, w').
Proof.
  unfold bind. destruct (c w) as [[a|e|n] w1]; try discriminate.
  intros H. now exists a, w1.
Qed.




Section FetchedCells.

Variable E : environ.


End FetchedCells.

Ltac invert_binds :=
  repeat match goal with
         | H : bind _ _ _ = (Ok _, _) |- _ =>
             apply bind_ok_inv in H;
             let a := fresh "a" in
             let w := fresh "w" in
             let Hc := fresh "Hstep" in
             destruct H as (a & w & Hc & H); cbv beta in H
         end.

Section FetchedRows.

Variable E : environ.




End FetchedRows.

(* ------------------------------------------------------------------ *)
(** *** The forecaster's pipeline *)

Lemma tail_app {A : Type} (n : nat) (l1 l2 : list A) :
  List.length l2 = n -> bitcoin_prophet_forecast.tail n (l1 ++ l2) = l2.
Proof.
  intros <-. unfold bitcoin_prophet_forecast.tail.
  rewrite length_app, Nat.add_sub.
  rewrite skipn_app, skipn_all, Nat.sub_diag. reflexivity.
Qed.




Section ForecasterRun.

Variable E : environ.

Lemma db_records_run (rows : list bitcoin_prophet_forecast.forecast_row) :
  forall w,
    bitcoin_prophet_forecast.db_records E rows w =
    (Ok (stamped E (ticks w) rows),
     World (committed w) (session w) (serial w) (log w) (requests w) (files w)
           (List.length rows + ticks w)).
Proof.
  induction rows as [|row rest IH]; intros w.
  - destruct w; reflexivity.
  - cbn [bitcoin_prophet_forecast.db_records]. unfold bind at 1. cbn [now].
    unfold bind at 1. rewrite IH. cbn.
    now rewrite Nat.add_succ_r.
Qed.


Lemma stamped_length (rows : list bitcoin_prophet_forecast.forecast_row) (k : nat) :
  List.length (stamped E k rows) = List.length rows.
Proof.
  revert k. induction rows as [|r rest IH]; intros k; cbn; [|rewrite IH]; reflexivity.
Qed.


End ForecasterRun.

Section ForecasterPipeline.

Variable E : environ.

Lemma ensure_table_exists_run (w : world) (old : list prediction) :
  crypto_predictions (committed w) = Some old ->
  exists l,
    bitcoin_prophet_forecast.ensure_table_exists w =
    (Ok tt, World (committed w) (committed w) (serial w) l (requests w)
                  (files w) (ticks w)).
Proof.
  intros Hold. unfold bitcoin_prophet_forecast.ensure_table_exists, try_except,
    bitcoin_prophet_forecast.engine_connect, bind, rollback, get.
  cbn. rewrite Hold. cbn. eexists. reflexivity.
Qed.


Lemma write_file_run (path : string) (w : world) :
  fs_writable E = true ->
  write_file E path w =
  (Ok tt, World (committed w) (session w) (serial w) (log w) (requests w)
                (path :: files w) (ticks w)).
Proof. intros H. unfold write_file. now rewrite H. Qed.

Lemma save_forecast_run (rows : list bitcoin_prophet_forecast.forecast_row)
    (w : world) (old : list prediction) :
  crypto_predictions (committed w) = Some old ->
  exists l,
    bitcoin_prophet_forecast.save_forecast_to_db E rows w =
    (Ok tt,
     World (set_predictions (Some (old ++ stamped E (ticks w) rows)%list) (committed w))
           (set_predictions (Some (old ++ stamped E (ticks w) rows)%list) (committed w))
           (serial w) l (requests w) (files w) (List.length rows + ticks w)).
Proof.
  intros Hold. unfold bitcoin_prophet_forecast.save_forecast_to_db, try_except.
  unfold bind at 1. rewrite db_records_run.
  unfold bitcoin_prophet_forecast.to_sql, bitcoin_prophet_forecast.engine_connect,
    bind, rollback, get, set_session, commit, logger.
  cbn. rewrite Hold. eexists. reflexivity.
Qed.

Lemma future_rows_tail (model : Z -> pyval * pyval * pyval)
    (hist : list Z) (last : Z) :
  map (fun p => bitcoin_prophet_forecast.ForecastRow
                  (PyTime (bitcoin_prophet_forecast.f_ds p))
                  (bitcoin_prophet_forecast.f_yhat p)
                  (bitcoin_prophet_forecast.f_yhat_lower p)
                  (bitcoin_prophet_forecast.f_yhat_upper p))
      (bitcoin_prophet_forecast.tail 30
         (bitcoin_prophet_forecast.predict model
            (hist ++ map (fun k => last + Z.of_nat k * day) (seq 1 30)))) =
  future_rows model last.
Proof.
  unfold bitcoin_prophet_forecast.predict. rewrite map_app, tail_app.
  - unfold future_rows. rewrite !map_map. apply map_ext. intros k.
    destruct (model (last + Z.of_nat k * day)) as [[y lo] hi]. reflexivity.
  - rewrite !length_map. reflexivity.
Qed.


Ltac tidy :=
  cbn [logger snd fst ret committed session serial log requests files ticks].


Lemma check_environment_run (w : world) :
  (forall v, In v POSTGRES_VARS ->
             bitcoin_prophet_forecast.falsy (getenv E v) = false) ->
  exists l,
    bitcoin_prophet_forecast.check_environment E w =
    (Ok (DB_CONFIG E),
     World (committed w) (session w) (serial w) l (requests w) (files w)
           (ticks w)).
Proof.
  intros Hvars. unfold bitcoin_prophet_forecast.check_environment.
  rewrite !bind_logger. tidy.
  assert (Hall : forallb (fun v => negb (bitcoin_prophet_forecast.falsy v))
                   [getenv E "POSTGRES_HOST"; getenv E "POSTGRES_PORT";
                    getenv E "POSTGRES_DB"; getenv E "POSTGRES_USER";
                    getenv E "POSTGRES_PASSWORD"] = true).
  { cbn [forallb]. rewrite !Hvars by (cbn; tauto). reflexivity. }
  rewrite Hall. cbn [negb]. unfold ret, DB_CONFIG. eexists. reflexivity.
Qed.



End ForecasterPipeline.

(* ================================================================== *)
(** ** The claims *)
(* ================================================================== *)

(** C1 (as amended).  The schema reconciler always ends normally with
    its transaction committed, and leaves a [crypto_prices] table that
    has every expected column.  A table that already had every expected
    column is kept as it was, with any further columns it has; when there
    was no table, or the table lacked an expected column, the table left
    is the empty one of the fixed DDL, whose columns are exactly the
    expected ones. *)
Theorem reconciler_columns (w : world) :
  exists w' t',
    crypto_etl.create_table_if_not_exists w = (Ok tt, w') /\
    session w' = committed w' /\
    crypto_prices (committed w') = Some t' /\
    (forall c, In c crypto_etl.expected_columns -> In c (columns t')) /\
    (forall t, crypto_prices (session w) = Some t ->
       (forall c, In c crypto_etl.expected_columns -> In c (columns t)) ->
       t' = t) /\
    ((crypto_prices (session w) = None \/
      exists t c, crypto_prices (session w) = Some t /\
                  In c crypto_etl.expected_columns /\ ~ In c (columns t)) ->
       t' = Table crypto_etl.expected_columns []).
Proof.
  destruct (create_table_run w) as (w' & Hrun & Hsc & _ & Hnew & Hkeep).
  destruct (crypto_etl.schema_mismatch (crypto_etl.existing_columns_of (session w)))
    eqn:Hm.
  - exists w', (Table crypto_etl.expected_columns []).
    split; [exact Hrun|]. split; [exact Hsc|].
    split; [rewrite (Hnew eq_refl); reflexivity|].
    split; [intros c Hc; exact Hc|]. split; [|reflexivity].
    intros t Ht Hall. exfalso.
    unfold crypto_etl.existing_columns_of in Hm. rewrite Ht in Hm.
    apply schema_mismatch_false in Hall. congruence.
  - pose proof (proj1 (schema_mismatch_false _) Hm) as Hall.
    unfold crypto_etl.existing_columns_of in Hall, Hm.
    destruct (crypto_prices (session w)) as [t|] eqn:Ht; [|discriminate].
    exists w', t. split; [exact Hrun|]. split; [exact Hsc|].
    split; [rewrite (Hkeep eq_refl); exact Ht|].
    split; [exact Hall|]. split.
    + intros t0 Ht0 _. congruence.
    + intros [Hn | (t0 & c & Ht0 & Hc & Hnc)]; [discriminate|].
      exfalso. inversion Ht0; subst. now apply Hnc, Hall.
Qed.

(** C1, the claim as stated fails: on a table that has every expected
    column and the further column [legacy_note], the reconciler keeps the
    table, so the column set after it is not the expected list. *)
Lemma reconciler_keeps_extra_column :
  let w := world_of (Database (Some legacy_table) None) in
  exists t,
    crypto_prices (committed (snd (crypto_etl.create_table_if_not_exists w))) = Some t /\
    In "legacy_note" (columns t) /\
    ~ In "legacy_note" crypto_etl.expected_columns.
Proof.
  exists legacy_table. split; [vm_compute; reflexivity|]. split.
  - vm_compute. tauto.
  - vm_compute. intuition discriminate.
Qed.






(** C10 (as amended).  A backfill run that gets its connection makes
    one request for the market chart of bitcoin.  When the count query
    can be answered (the table exists and has the two columns the query
    names), the request is for 30 days if the table holds fewer than 30
    bitcoin rows and for 7 days if it holds 30 or more; when the query
    fails (no table, or one of the two columns is missing) the count is
    taken as 0 and the request is for 30 days. *)
Theorem backfill_fetch_window (E : environ) (w : world) :
  pg_connect E (values (DB_CONFIG E)) = true ->
  exists days,
    requests (snd (crypto_historical_etl.main E w)) =
      GetMarketChart "bitcoin" days :: requests w /\
    (forall t,
        crypto_prices (committed w) = Some t ->
        In "timestamp" (columns t) -> In "coin_id" (columns t) ->
        let n := Z.of_nat (List.length (filter (is_coin "bitcoin") (rows t))) in
        (n < 30 -> days = 30) /\ (30 <= n -> days = 7)) /\
    ((crypto_prices (committed w) = None \/
      exists t, crypto_prices (committed w) = Some t /\
                (~ In "timestamp" (columns t) \/ ~ In "coin_id" (columns t))) ->
     days = 30).
Proof.
  intros Hpg. destruct (backfill_main_run E w) as (w' & Hrun & _ & Hyes).
  destruct (Hyes Hpg) as (Hreq & _ & _).
  exists (if current_count (committed w) <? 30 then 30 else 7).
  rewrite Hrun. cbn [snd]. split; [exact Hreq|].
  unfold current_count. split.
  - intros t Ht Hts Hci. rewrite Ht.
    apply mem_In in Hts, Hci. rewrite Hts, Hci. cbn [andb]. cbv zeta.
    destruct (Z.of_nat _ <? 30) eqn:Hlt.
    + apply Z.ltb_lt in Hlt. split; [reflexivity | lia].
    + apply Z.ltb_ge in Hlt. split; [lia | reflexivity].
  - intros [-> | (t & -> & Hmiss)]; [reflexivity|].
    destruct (mem "timestamp" (columns t)) eqn:Hts;
      destruct (mem "coin_id" (columns t)) eqn:Hci; cbn [andb]; try reflexivity.
    apply mem_In in Hts, Hci. tauto.
Qed.

(** C10, two runs: on an empty table the request is for 30 days, on a
    table with 30 bitcoin rows it is for 7. *)
Lemma backfill_fetch_window_run :
  let E := sample_environ no_variables (JStr "btc") true in
  (exists days,
      requests (snd (crypto_historical_etl.main E
                       (world_of (Database (Some (fresh_table 0)) None)))) =
        [GetMarketChart "bitcoin" days] /\ days = 30) /\
  (exists days,
      requests (snd (crypto_historical_etl.main E
                       (world_of (Database (Some (fresh_table 30)) None)))) =
        [GetMarketChart "bitcoin" days] /\ days = 7).
Proof.
  cbv zeta. split.
  - destruct (backfill_fetch_window (sample_environ no_variables (JStr "btc") true)
                (world_of (Database (Some (fresh_table 0)) None)) eq_refl)
      as (days & Hreq & Hrows & _).
    exists days. split; [exact Hreq|].
    apply (Hrows (fresh_table 0)); [reflexivity | cbn; tauto | cbn; tauto |].
    vm_compute. reflexivity.
  - destruct (backfill_fetch_window (sample_environ no_variables (JStr "btc") true)
                (world_of (Database (Some (fresh_table 30)) None)) eq_refl)
      as (days & Hreq & Hrows & _).
    exists days. split; [exact Hreq|].
    apply (Hrows (fresh_table 30)); [reflexivity | cbn; tauto | cbn; tauto |].
    vm_compute. discriminate.
Defined.

(** C10, the claim as stated fails: the table has 30 bitcoin rows but no
    [timestamp] column, so the count query fails, the count is taken as
    0 and the run asks for 30 days, not 7. *)
Lemma backfill_fetches_30_days_despite_30_rows :
  let E := sample_environ no_variables (JStr "btc") true in
  let w := world_of (Database (Some untimed_table) None) in
  List.length (filter (is_coin "bitcoin") (rows untimed_table)) = 30%nat /\
  requests (snd (crypto_historical_etl.main E w)) = [GetMarketChart "bitcoin" 30].
Proof. cbv zeta. split; vm_compute; reflexivity. Qed.

(** C9 (as amended).  Loading only adds rows: each loader, run on a
    connection without pending changes, and a whole backfill run leave
    the committed [crypto_prices] table with the rows it had, in their
    order and unchanged, followed by the rows added; so does a whole
    collector run when the table has every expected column.  (When it
    lacks one, the reconciler drops the table.) *)
Theorem price_rows_only_added (E : environ) (w : world) :
  (forall load df,
      In load [crypto_etl.insert_data E;
               crypto_historical_etl.insert_historical_data E] ->
      session w = committed w ->
      grown (committed w) (committed (snd (load df w)))) /\
  grown (committed w) (committed (snd (crypto_historical_etl.main E w))) /\
  (forall t,
      crypto_prices (committed w) = Some t ->
      (forall c, In c crypto_etl.expected_columns -> In c (columns t)) ->
      grown (committed w) (committed (snd (crypto_etl.main E w)))).
Proof.
  split; [|split].
  - intros load df [<- | [<- | []]] Hsc.
    + rewrite insert_data_load_batch. now apply load_batch_grown.
    + rewrite insert_historical_data_load_batch. now apply load_batch_grown.
  - destruct (backfill_main_run E w) as (w' & Hrun & Hno & Hyes).
    rewrite Hrun. cbn [snd].
    destruct (pg_connect E (values (DB_CONFIG E))).
    + now destruct (Hyes eq_refl) as (_ & _ & Hg).
    + destruct (Hno eq_refl) as (Hst & _).
      assert (Hc : committed w' = committed w) by (unfold store in Hst; congruence).
      rewrite Hc. apply grown_refl.
  - intros t Ht Hall.
    destruct (collector_main_run E w) as (r & w' & Hrun & _ & _ & Hg).
    rewrite Hrun. cbn [snd]. apply Hg.
    apply schema_mismatch_false. unfold crypto_etl.existing_columns_of.
    now rewrite Ht.
Qed.

(** C9, a run: the collector on a table that has all the expected
    columns and one row keeps the row and adds the new observation. *)
Lemma price_rows_only_added_run :
  let E := sample_environ no_variables (JStr "btc") true in
  let w := world_of (Database (Some (fresh_table 1)) None) in
  grown (committed w) (committed (snd (crypto_etl.main E w))) /\
  exists added,
    crypto_prices (committed (snd (crypto_etl.main E w))) =
      Some (Table crypto_etl.expected_columns (daily_rows 1 ++ [added])).
Proof.
  cbv zeta. split.
  - apply (proj2 (proj2 (price_rows_only_added
                           (sample_environ no_variables (JStr "btc") true)
                           (world_of (Database (Some (fresh_table 1)) None))))
                 (fresh_table 1) eq_refl).
    intros c Hc. exact Hc.
  - eexists. vm_compute. reflexivity.
Defined.

(** C9, the claim as stated fails: a collector run on a table that
    lacks the column [atl_date] drops the table, and the row the table
    held is gone afterwards. *)
Lemma collector_drops_rows_of_old_table :
  let E := sample_environ no_variables (JStr "btc") true in
  let w := world_of (Database (Some old_table) None) in
  In (stored 1 0) (rows old_table) /\
  exists t',
    crypto_prices (committed (snd (crypto_etl.main E w))) = Some t' /\
    ~ In (stored 1 0) (rows t').
Proof.
  cbv zeta. split; [left; reflexivity|].
  eexists. split; [vm_compute; reflexivity|].
  intros [H | []]. vm_compute in H. discriminate.
Qed.




(** C5 (as amended).  Each loader handles its batch in one transaction:
    either it returns, having committed, and every row of the batch then
    has a stored row with its key, or it raises, after a rollback that
    leaves the committed database as it was before the batch.  In the
    collector the exception passes through [main], which logs it and
    raises it again.  In the backfill job [main] catches it: the failure
    is logged and the run returns normally, as every backfill run does. *)
Theorem batch_transaction (E : environ) :
  (forall load df w,
      In load [crypto_etl.insert_data E;
               crypto_historical_etl.insert_historical_data E] ->
      exists r w',
        load df w = (r, w') /\
        ((r = Ok tt /\
          (empty df = false ->
           committed w' = session w' /\
           exists t',
             crypto_prices (committed w') = Some t' /\
             forall vals, In vals (prepare_values df) ->
               key_stored (columns t') (df_columns df) vals (rows t') = true))
         \/
         (exists e, r = Raise e /\
                    committed w' = committed w /\ session w' = committed w))) /\
  (forall w df w1 w2 w3 w4 w5 e,
      crypto_etl.fetch_crypto_data E
        (snd (logger INFO "Starting crypto ETL process..." [] w)) = (Ok df, w1) ->
      empty df = false ->
      crypto_etl.save_files E df w1 = (Ok tt, w2) ->
      connect_postgres E w2 = (Ok true, w3) ->
      crypto_etl.create_table_if_not_exists w3 = (Ok tt, w4) ->
      crypto_etl.insert_data E df w4 = (Raise e, w5) ->
      exists w',
        crypto_etl.main E w = (Raise e, w') /\
        committed w' = committed w4 /\
        In (Log ERROR "ETL process failed: {e}" [AExn e]) (log w')) /\
  (forall w, fst (crypto_historical_etl.main E w) = Ok tt) /\
  (forall w w3 count w4 df w6 w7 e,
      connect_postgres E
        (snd (logger INFO "Data files will be saved to: {DATA_DIR}"
                     [AStr crypto_historical_etl.DATA_DIR]
                (snd (logger INFO "Starting historical data backfill..." [] w))))
        = (Ok true, w3) ->
      crypto_historical_etl.check_current_data w3 = (Ok count, w4) ->
      crypto_historical_etl.fetch_historical_data E
        (if count <? 30 then 30 else 7)
        (snd (logger INFO "Will fetch {days_to_fetch} days of historical data"
                     [AInt (if count <? 30 then 30 else 7)] w4)) = (Ok df, w6) ->
      empty df = false ->
      crypto_historical_etl.insert_historical_data E df w6 = (Raise e, w7) ->
      exists w',
        crypto_historical_etl.main E w = (Ok tt, w') /\
        committed w' = committed w6 /\
        In (Log ERROR "Historical data backfill failed: {e}" [AExn e]) (log w')).
Proof.
  split; [|split; [|split]].
  - intros load df w Hload.
    assert (Hgen : forall ok_msg err_msg,
      exists r w',
        load_batch E ok_msg err_msg df w = (r, w') /\
        ((r = Ok tt /\
          (empty df = false ->
           committed w' = session w' /\
           exists t',
             crypto_prices (committed w') = Some t' /\
             forall vals, In vals (prepare_values df) ->
               key_stored (columns t') (df_columns df) vals (rows t') = true))
         \/
         (exists e, r = Raise e /\
                    committed w' = committed w /\ session w' = committed w))).
    { intros ok_msg err_msg. destruct (empty df) eqn:Hemp.
      - rewrite (load_batch_empty E _ _ _ _ Hemp).
        do 2 eexists. split; [reflexivity|]. left. split; [reflexivity|discriminate].
      - destruct (load_batch_cases E ok_msg err_msg df w Hemp)
          as (r & w' & Hrun &
              [(e & He & Hc & Hs & _) | (Hr & Hcs & t & added & Ht & Hs & _ & Hall & _)]).
        + exists r, w'. split; [exact Hrun|]. right. exists e. auto.
        + exists r, w'. split; [exact Hrun|]. left. split; [exact Hr|].
          intros _. split; [exact Hcs|].
          exists (Table (columns t) (rows t ++ added)).
          split; [rewrite Hcs, Hs; reflexivity|].
          intros vals Hin. now apply Hall. }
    destruct Hload as [<- | [<- | []]]; apply Hgen.
  - intros w df w1 w2 w3 w4 w5 e Hfetch Hemp Hsave Hconn Hcreate Hins.
    assert (Hc5 : committed w5 = committed w4).
    { rewrite insert_data_load_batch in Hins.
      exact (proj1 (load_batch_raise _ _ _ _ _ _ _ Hins)). }
    unfold crypto_etl.main. rewrite bind_logger.
    unfold try_except, bind at 1. rewrite Hfetch, Hemp.
    unfold bind at 1. rewrite Hsave. unfold bind at 1. rewrite Hconn.
    cbn [negb]. unfold try_finally, bind at 1. rewrite Hcreate.
    unfold bind at 1. rewrite Hins. cbn.
    eexists. split; [reflexivity|]. cbn. split; [exact Hc5 | now left].
  - intros w. destruct (backfill_main_run E w) as (w' & Hrun & _). now rewrite Hrun.
  - intros w w3 count w4 df w6 w7 e Hconn Hcount Hfetch Hemp Hins.
    assert (Hc7 : committed w7 = committed w6).
    { rewrite insert_historical_data_load_batch in Hins.
      exact (proj1 (load_batch_raise _ _ _ _ _ _ _ Hins)). }
    unfold crypto_historical_etl.main. rewrite !bind_logger.
    unfold bind at 1. rewrite Hconn. cbn [negb].
    unfold try_finally, try_except, bind at 1. rewrite Hcount.
    cbv zeta. rewrite bind_logger. unfold bind at 1. rewrite Hfetch, Hemp.
    unfold bind at 1. rewrite Hins. cbn.
    eexists. split; [reflexivity|]. cbn. split; [exact Hc7|]. right. now left.
Qed.

(** C5, a run: the API answers with a null symbol, the insert of the
    collector violates NOT NULL, and the collector ends with that
    exception, the row already stored being all the table holds. *)
Lemma batch_transaction_run :
  let E := sample_environ no_variables JNull true in
  let w := world_of (Database (Some (fresh_table 1)) None) in
  exists w',
    crypto_etl.main E w = (Raise (DatabaseError (NotNullViolation "symbol")), w') /\
    crypto_prices (committed w') = Some (fresh_table 1).
Proof.
  cbv zeta.
  destruct (proj1 (proj2 (batch_transaction (sample_environ no_variables JNull true)))
              (world_of (Database (Some (fresh_table 1)) None))
              _ _ _ _ _ _ (DatabaseError (NotNullViolation "symbol"))
              ltac:(vm_compute; reflexivity)
              ltac:(vm_compute; reflexivity)
              ltac:(vm_compute; reflexivity)
              ltac:(vm_compute; reflexivity)
              ltac:(vm_compute; reflexivity)
              ltac:(vm_compute; reflexivity))
    as (w' & Hrun & Hc & _).
  exists w'. split; [exact Hrun|]. rewrite Hc. vm_compute. reflexivity.
Defined.

(** C5, the claim as stated fails for the backfill job: with no
    [crypto_prices] table the insert raises, and the run logs the failure
    and ends normally, with exit status 0. *)
Lemma backfill_swallows_insert_failure :
  let E := sample_environ no_variables (JStr "btc") true in
  let w := world_of (Database None None) in
  In (Log ERROR "Error inserting historical data: {e}"
          [AExn (DatabaseError (UndefinedTable "crypto_prices"))])
     (log (snd (crypto_historical_etl.main E w))) /\
  fst (crypto_historical_etl.main E w) = Ok tt /\
  exit_status (fst (crypto_historical_etl.main E w)) = 0.
Proof.
  cbv zeta. split; [vm_compute; tauto|]. split; vm_compute; reflexivity.
Qed.


(** C7, a run of the collector: the answer has no total supply (a JSON
    null) and an [atl_date] that does not parse; both are stored as
    NULL. *)
Lemma null_preservation_run :
  let E := sample_environ no_variables (JStr "btc") true in
  let w := world_of (Database (Some (fresh_table 0)) None) in
  exists a,
    crypto_prices (committed (snd (crypto_etl.main E w))) =
      Some (Table crypto_etl.expected_columns [a]) /\
    lookup "total_supply" a = Some PyNone /\
    lookup "atl_date" a = Some PyNone /\
    lookup "ath_date" a = Some (PyTime 1636502400000000).
Proof.
  cbv zeta. eexists. split; [vm_compute; reflexivity|].
  split; [|split]; reflexivity.
Qed.




(* ================================================================== *)
(** ** Further properties of the code *)
(* ================================================================== *)

(** *** Further facts about the collector *)

Lemma keeps_files_logger (l : level) (m : string) (a : list arg) :
  keeps files (logger l m a).
Proof. intros w. reflexivity. Qed.

Lemma keeps_files_now (E : environ) : keeps files (now E).
Proof. intros w. reflexivity. Qed.

Lemma keeps_files_http (E : environ) (r : request) : keeps files (http E r).
Proof. intros w. unfold http. now destruct (http_get E r). Qed.

#[local] Hint Resolve keeps_files_logger keeps_files_now keeps_files_http : job.

(** What a computation leaves of a part of the world that its
    continuation keeps. *)
Lemma bind_keeps_after {A B C : Type} (p : world -> C) (c : M A)
    (k : A -> M B) (w : world) :
  (forall a, keeps p (k a)) ->
  p (snd (bind c k w)) = p (snd (c w)).
Proof.
  intros Hk. unfold bind. destruct (c w) as [[a|e|n] w1]; cbn [snd]; auto.
  apply Hk.
Qed.

Section CollectorFetch.

Variable E : environ.

Lemma parse_date_keeps {C : Type} (p : world -> C) (coin field : string)
    (mkt : json) :
  (forall l m a, keeps p (logger l m a)) ->
  keeps p (crypto_etl.parse_date E coin field mkt).
Proof.
  intros Hlog. unfold crypto_etl.parse_date.
  apply keeps_try_except.
  - repeat first
      [ apply keeps_bind; [solve [auto with job]|intros]
      | match goal with
        | |- context [if ?b then _ else _] => destruct b
        | |- context [match to_datetime E ?u with _ => _ end] =>
            destruct (to_datetime E u)
        end
      | solve [auto with job] ].
  - intros e. apply keeps_bind; [apply Hlog | auto with job].
Qed.

Lemma fetch_coin_requests (coin : string) (w : world) :
  requests (snd (crypto_etl.fetch_coin E coin w)) = GetCoin coin :: requests w.
Proof.
  unfold crypto_etl.fetch_coin.
  rewrite bind_keeps_after.
  - unfold http. now destruct (http_get E (GetCoin coin)).
  - intros j. unfold crypto_etl.usd, crypto_etl.field.
    pose proof (fun c f m => parse_date_keeps requests c f m keeps_requests_logger).
    job.
Qed.

Lemma fetch_coin_keeps_files (coin : string) :
  keeps files (crypto_etl.fetch_coin E coin).
Proof.
  unfold crypto_etl.fetch_coin, crypto_etl.usd, crypto_etl.field.
  pose proof (fun c f m => parse_date_keeps files c f m keeps_files_logger).
  job.
Qed.

Lemma fetch_coins_run (coins : list string) :
  forall w,
    exists data w',
      crypto_etl.fetch_coins E coins w = (Ok data, w') /\
      store w' = store w /\
      files w' = files w /\
      requests w' = (rev (map GetCoin coins) ++ requests w)%list /\
      (List.length data <= List.length coins)%nat.
Proof.
  induction coins as [|coin rest IH]; intros w.
  - exists [], w. cbn. repeat split. lia.
  - cbn [crypto_etl.fetch_coins]. unfold bind at 1, try_except.
    pose proof (fetch_coin_requests coin w) as Hreq.
    pose proof (fetch_coin_keeps_store E coin w) as Hst.
    pose proof (fetch_coin_keeps_files coin w) as Hfl.
    pose proof (fetch_coin_no_exit E coin w) as Hnx.
    unfold bind at 1.
    destruct (crypto_etl.fetch_coin E coin w) as [[r|e|n] w1];
      cbn [fst snd] in Hreq, Hst, Hfl, Hnx; [| |now destruct (Hnx n)].
    + rewrite !bind_logger. cbn [logger snd ret].
      match goal with
      | |- context [bind (crypto_etl.fetch_coins E rest) _ ?w0] =>
          destruct (IH w0) as (data & w' & Hrun & Hs & Hf & Hr & Hlen)
      end.
      unfold bind at 1. rewrite Hrun. unfold ret.
      exists ([r] ++ data)%list, w'. split; [reflexivity|].
      unfold store in *.
      cbn [committed session serial files requests] in Hs, Hf, Hr.
      split; [congruence|]. split; [congruence|]. split.
      * rewrite Hr, Hreq. cbn [map rev]. now rewrite <- app_assoc.
      * cbn. lia.
    + rewrite !bind_logger. cbn [logger snd ret].
      match goal with
      | |- context [bind (crypto_etl.fetch_coins E rest) _ ?w0] =>
          destruct (IH w0) as (data & w' & Hrun & Hs & Hf & Hr & Hlen)
      end.
      unfold bind at 1. rewrite Hrun. unfold ret.
      exists ([] ++ data)%list, w'. split; [reflexivity|].
      unfold store in *.
      cbn [committed session serial files requests] in Hs, Hf, Hr.
      split; [congruence|]. split; [congruence|]. split.
      * rewrite Hr, Hreq. cbn [map rev]. now rewrite <- app_assoc.
      * cbn. lia.
Qed.

End CollectorFetch.

Lemma fetch_crypto_data_data (E : environ) (w : world) :
  exists data w',
    crypto_etl.fetch_crypto_data E w = (Ok (pd_DataFrame data), w') /\
    fst (crypto_etl.fetch_coins E crypto_etl.COINS
           (snd (logger INFO "Fetching data from CoinGecko API..." [] w))) =
      Ok data /\
    store w' = store w /\
    files w' = files w /\
    requests w' = (rev (map GetCoin crypto_etl.COINS) ++ requests w)%list /\
    (List.length data <= List.length crypto_etl.COINS)%nat.
Proof.
  unfold crypto_etl.fetch_crypto_data. rewrite bind_logger.
  destruct (fetch_coins_run E crypto_etl.COINS
              (snd (logger INFO "Fetching data from CoinGecko API..." [] w)))
    as (data & w1 & Hrun & Hs & Hf & Hr & Hlen).
  unfold bind at 1. rewrite Hrun. rewrite bind_logger. unfold ret.
  do 2 eexists. split; [reflexivity|]. split; [reflexivity|].
  unfold store in *.
  cbn [logger snd committed session serial files requests] in *.
  auto.
Qed.

(** X7.  [fetch_crypto_data] never fails and only fetches.  In every
    environment it returns a frame (a coin whose request or answer fails
    is logged and left out), having sent exactly one request per coin of
    [COINS], in their order, and having changed neither the database nor
    the files; the frame has at most one row per coin. *)
Theorem fetch_crypto_data_total (E : environ) (w : world) :
  exists df w',
    crypto_etl.fetch_crypto_data E w = (Ok df, w') /\
    store w' = store w /\
    files w' = files w /\
    requests w' =
      ([GetCoin "cardano"; GetCoin "binancecoin"; GetCoin "ethereum";
        GetCoin "bitcoin"] ++ requests w)%list /\
    (List.length (df_rows df) <= 4)%nat.
Proof.
  destruct (fetch_crypto_data_data E w)
    as (data & w' & Hrun & _ & Hs & Hf & Hr & Hlen).
  exists (pd_DataFrame data), w'.
  split; [exact Hrun|]. split; [exact Hs|]. split; [exact Hf|].
  split; [exact Hr|].
  unfold pd_DataFrame. cbn [df_rows]. rewrite length_map. exact Hlen.
Qed.

Section CollectorEdges.

Variable E : environ.

Lemma fetch_coin_failed (coin : string) (w : world) :
  http_get E (GetCoin coin) = None ->
  fst (crypto_etl.fetch_coin E coin w) = Raise RequestException.
Proof.
  intros H. unfold crypto_etl.fetch_coin, bind at 1, http. now rewrite H.
Qed.

Lemma fetch_coins_failed (coins : list string) :
  (forall c, In c coins -> http_get E (GetCoin c) = None) ->
  forall w, fst (crypto_etl.fetch_coins E coins w) = Ok [].
Proof.
  induction coins as [|coin rest IH]; intros Hnone w; [reflexivity|].
  cbn [crypto_etl.fetch_coins]. unfold bind at 1, try_except.
  pose proof (fetch_coin_failed coin w (Hnone coin (or_introl eq_refl))) as Hf.
  unfold bind at 1.
  destruct (crypto_etl.fetch_coin E coin w) as [[r|e|n] w1]; cbn [fst] in Hf;
    try discriminate.
  rewrite !bind_logger. cbn [logger snd ret].
  match goal with
  | |- context [bind (crypto_etl.fetch_coins E rest) _ ?w0] =>
      pose proof (IH (fun c Hc => Hnone c (or_intror Hc)) w0) as Hrest;
      unfold bind at 1;
      destruct (crypto_etl.fetch_coins E rest w0) as [[data|e'|n'] w2];
      cbn [fst] in Hrest; try discriminate
  end.
  inversion Hrest. reflexivity.
Qed.

End CollectorEdges.

(** X8.  When the API answers for none of the coins, the collector stops
    after the fetch: [main] returns normally, and it has neither
    connected to the database nor changed it, and has written no file.
    The four requests are all it has done, and its last log line says
    that nothing was fetched. *)
Theorem collector_nothing_fetched (E : environ) (w : world) :
  (forall c, In c crypto_etl.COINS -> http_get E (GetCoin c) = None) ->
  exists w' earlier,
    crypto_etl.main E w = (Ok tt, w') /\
    store w' = store w /\
    files w' = files w /\
    List.length (requests w') = (4 + List.length (requests w))%nat /\
    log w' = Log WARNING "No data fetched. Exiting." [] :: earlier.
Proof.
  intros Hnone. unfold crypto_etl.main. rewrite bind_logger.
  unfold try_except, bind at 1.
  match goal with
  | |- context [crypto_etl.fetch_crypto_data E ?w0] =>
      destruct (fetch_crypto_data_data E w0)
        as (data & w1 & Hrun & Hdata & Hs & Hf & Hr & _);
      rewrite (fetch_coins_failed E crypto_etl.COINS Hnone) in Hdata;
      injection Hdata as <-; rewrite Hrun
  end.
  cbn [empty pd_DataFrame df_columns df_rows]. unfold logger at 1.
  do 2 eexists. split; [reflexivity|].
  unfold store in *. cbn [logger snd committed session serial files requests log] in *.
  split; [exact Hs|]. split; [exact Hf|].
  split; [rewrite Hr; reflexivity | reflexivity].
Qed.


(** X10.  The schema reconciler is idempotent: run a second time, right
    after a first run, [create_table_if_not_exists] returns normally and
    leaves the committed database exactly as the first run left it (the
    table that the first run kept or created is kept).  Neither run
    touches [crypto_predictions] beyond committing what the connection
    held. *)
Theorem reconciler_idempotent (w : world) :
  let w1 := snd (crypto_etl.create_table_if_not_exists w) in
  exists w2,
    crypto_etl.create_table_if_not_exists w1 = (Ok tt, w2) /\
    committed w2 = committed w1 /\
    crypto_predictions (committed w1) = crypto_predictions (session w).
Proof.
  cbv zeta.
  destruct (create_table_run w) as (w1 & Hrun1 & Hsc1 & _ & Hnew & Hkeep).
  rewrite Hrun1. cbn [snd].
  destruct (create_table_run w1) as (w2 & Hrun2 & _ & _ & _ & Hkeep2).
  exists w2. split; [exact Hrun2|].
  assert (Hok : crypto_etl.schema_mismatch
                  (crypto_etl.existing_columns_of (session w1)) = false /\
                crypto_predictions (committed w1) = crypto_predictions (session w)).
  { rewrite Hsc1.
    destruct (crypto_etl.schema_mismatch
                (crypto_etl.existing_columns_of (session w))) eqn:Hm.
    - rewrite (Hnew eq_refl). split; reflexivity.
    - rewrite (Hkeep eq_refl). split; [exact Hm | reflexivity]. }
  destruct Hok as [Hm1 Hp]. split; [|exact Hp].
  rewrite (Hkeep2 Hm1). exact Hsc1.
Qed.

(** *** Further facts about the loaders *)

(** X11.  The loaders keep the natural key unique.  If no
    (coin_id, timestamp) pair is stored twice in [crypto_prices] before
    a batch is loaded (on a connection without pending changes), none
    is stored twice afterwards, whatever the batch holds and whether the
    load returns or raises; the table keeps its columns. *)
Theorem loader_keeps_keys_unique (E : environ) (load : DataFrame -> M unit)
    (df : DataFrame) (w : world) (t : table) :
  In load [crypto_etl.insert_data E;
           crypto_historical_etl.insert_historical_data E] ->
  session w = committed w ->
  crypto_prices (committed w) = Some t ->
  unique_keys (rows t) ->
  exists t',
    crypto_prices (committed (snd (load df w))) = Some t' /\
    columns t' = columns t /\
    unique_keys (rows t').
Proof.
  intros Hload Hsc Ht Huniq.
  assert (Hgen : forall ok_msg err_msg,
    exists t',
      crypto_prices (committed (snd (load_batch E ok_msg err_msg df w))) = Some t' /\
      columns t' = columns t /\ unique_keys (rows t')).
  { intros ok_msg err_msg. destruct (empty df) eqn:Hemp.
    - rewrite (load_batch_empty E _ _ _ _ Hemp). exists t. cbn. auto.
    - destruct (load_batch_cases E ok_msg err_msg df w Hemp)
        as (r & w' & Hrun &
            [(e & _ & Hc & _) |
             (_ & Hcs & t0 & added & Ht0 & Hs & _ & _ & Hu)]);
        rewrite Hrun; cbn [snd].
      + exists t. rewrite Hc. auto.
      + rewrite Hsc, Ht in Ht0. injection Ht0 as <-.
        exists (Table (columns t) (rows t ++ added)).
        rewrite Hcs, Hs. cbn. auto. }
  destruct Hload as [<- | [<- | []]].
  - rewrite insert_data_load_batch. apply Hgen.
  - rewrite insert_historical_data_load_batch. apply Hgen.
Qed.


(** *** Further facts about the backfill job *)

Lemma try_except_ok_inv {A : Type} (c : M A) (h : exn -> M A) (w w' : world)
    (a : A) :
  try_except c h w = (Ok a, w') ->
  c w = (Ok a, w') \/ exists e w1, c w = (Raise e, w1) /\ h e w1 = (Ok a, w').
Proof.
  unfold try_except. destruct (c w) as [[a0|e|n] w1]; intros H.
  - left. exact H.
  - right. eauto.
  - discriminate.
Qed.

Section BackfillFetch.

Variable E : environ.

Lemma historical_row_shape (mc vol : json) (i : nat) (entry : json)
    (w w' : world) (r : dict pyval) :
  crypto_historical_etl.historical_row E mc vol i entry w = (Ok r, w') ->
  exists t price market_cap volume,
    r = [("timestamp", PyTime t);
         ("coin_id", PyStr "bitcoin");
         ("symbol", PyStr "btc");
         ("name", PyStr "Bitcoin");
         ("current_price_usd", price);
         ("market_cap_usd", market_cap);
         ("total_volume_usd", volume);
         ("price_change_24h", PyNone);
         ("price_change_percentage_24h", PyNone);
         ("circulating_supply", PyNone);
         ("total_supply", PyNone);
         ("ath", PyNone);
         ("ath_date", PyNone);
         ("atl", PyNone);
         ("atl_date", PyNone)].
Proof.
  unfold crypto_historical_etl.historical_row. intros H. invert_binds.
  match goal with
  | H : (let (_, _) := ?tp in _) _ = _ |- _ => destruct tp as [timestamp_ms price]
  end.
  invert_binds.
  unfold ret in H. inversion H; subst r w'. clear H.
  do 4 eexists. reflexivity.
Qed.

Lemma historical_rows_shape (mc vol : json) (entries : list json) :
  forall (i : nat) (w w' : world) (rs : list (dict pyval)),
    crypto_historical_etl.historical_rows E mc vol i entries w = (Ok rs, w') ->
    List.length rs = List.length entries /\
    forall r, In r rs ->
      exists t price market_cap volume,
        r = [("timestamp", PyTime t);
             ("coin_id", PyStr "bitcoin");
             ("symbol", PyStr "btc");
             ("name", PyStr "Bitcoin");
             ("current_price_usd", price);
             ("market_cap_usd", market_cap);
             ("total_volume_usd", volume);
             ("price_change_24h", PyNone);
             ("price_change_percentage_24h", PyNone);
             ("circulating_supply", PyNone);
             ("total_supply", PyNone);
             ("ath", PyNone);
             ("ath_date", PyNone);
             ("atl", PyNone);
             ("atl_date", PyNone)].
Proof.
  induction entries as [|entry rest IH]; intros i w w' rs H.
  - cbn in H. inversion H. split; [reflexivity | intros r []].
  - cbn [crypto_historical_etl.historical_rows] in H. invert_binds.
    unfold ret in H. inversion H; subst rs w'. clear H.
    match goal with
    | H1 : crypto_historical_etl.historical_row _ _ _ _ _ _ = _,
      H2 : crypto_historical_etl.historical_rows _ _ _ _ _ _ = _ |- _ =>
        pose proof (historical_row_shape _ _ _ _ _ _ _ H1) as Hrow;
        destruct (IH _ _ _ _ H2) as [Hlen Hall]
    end.
    split; [cbn; now rewrite Hlen|].
    intros r [<- | Hr]; [exact Hrow | now apply Hall].
Qed.

Lemma fetch_historical_data_failed (days : Z) (w : world) :
  http_get E (GetMarketChart "bitcoin" days) = None \/
  (exists d, http_get E (GetMarketChart "bitcoin" days) = Some (JObj d) /\
             lookup "prices" d = None) ->
  exists l,
    crypto_historical_etl.fetch_historical_data E days w =
    (Ok (pd_DataFrame []),
     World (committed w) (session w) (serial w) l
           (GetMarketChart "bitcoin" days :: requests w) (files w) (ticks w)).
Proof.
  intros Hfail. unfold crypto_historical_etl.fetch_historical_data.
  rewrite bind_logger. unfold try_except, bind at 1, http.
  cbn [logger snd committed session serial log requests files ticks].
  unfold crypto_historical_etl.COIN_ID.
  destruct Hfail as [-> | (d & -> & Hd)].
  - cbn. eexists. reflexivity.
  - unfold bind at 1, subscript at 1. rewrite Hd. cbn. eexists. reflexivity.
Qed.

End BackfillFetch.

(** X13.  [fetch_historical_data] never fails and only fetches.  For
    every number of days it returns a frame, having sent exactly one
    request, for the market chart of bitcoin over that many days, and
    having left the database as it was.  When the request fails, or the
    answer has no [prices], the frame is empty and no file is written. *)
Theorem fetch_historical_data_total (E : environ) (days : Z) (w : world) :
  exists df w',
    crypto_historical_etl.fetch_historical_data E days w = (Ok df, w') /\
    store w' = store w /\
    requests w' = GetMarketChart "bitcoin" days :: requests w /\
    (http_get E (GetMarketChart "bitcoin" days) = None \/
     (exists d, http_get E (GetMarketChart "bitcoin" days) = Some (JObj d) /\
                lookup "prices" d = None) ->
     empty df = true /\ files w' = files w).
Proof.
  destruct (fetch_historical_data_returns E days w) as [df Hdf].
  pose proof (fetch_historical_data_keeps_store E days w) as Hst.
  pose proof (fetch_historical_data_requests E days w) as Hreq.
  destruct (crypto_historical_etl.fetch_historical_data E days w) as [r w'] eqn:Hrun.
  cbn [fst snd] in *. subst r.
  exists df, w'. split; [reflexivity|]. split; [exact Hst|]. split; [exact Hreq|].
  intros Hfail.
  destruct (fetch_historical_data_failed E days w Hfail) as (l & Hrun').
  rewrite Hrun in Hrun'. inversion Hrun'. split; reflexivity.
Qed.

(** X14.  The frame of the backfill job is all or nothing, and all
    bitcoin.  [fetch_historical_data] returns either an empty frame or a
    frame with the fifteen columns of a price row in which every row has
    a timestamp, the coin id "bitcoin", the symbol "btc", the name
    "Bitcoin" and no value in the eight columns the market chart does not
    give; when the answer's [prices] is a list, a frame that is not empty
    has one row for each of its entries (a single malformed entry empties
    the whole frame). *)
Theorem backfill_frame_shape (E : environ) (days : Z) (w : world) :
  exists df w',
    crypto_historical_etl.fetch_historical_data E days w = (Ok df, w') /\
    (empty df = true \/
     (df_columns df =
        ["timestamp"; "coin_id"; "symbol"; "name"; "current_price_usd";
         "market_cap_usd"; "total_volume_usd"; "price_change_24h";
         "price_change_percentage_24h"; "circulating_supply"; "total_supply";
         "ath"; "ath_date"; "atl"; "atl_date"] /\
      (forall cells, In cells (df_rows df) ->
         exists t price market_cap volume,
           cells = [PyTime t; PyStr "bitcoin"; PyStr "btc"; PyStr "Bitcoin";
                    price; market_cap; volume; PyNone; PyNone; PyNone;
                    PyNone; PyNone; PyNone; PyNone; PyNone]) /\
      (forall d entries,
         http_get E (GetMarketChart "bitcoin" days) = Some (JObj d) ->
         lookup "prices" d = Some (JArr entries) ->
         List.length (df_rows df) = List.length entries))).
Proof.
  destruct (fetch_historical_data_returns E days w) as [df Hdf].
  destruct (crypto_historical_etl.fetch_historical_data E days w) as [r w'] eqn:Hrun.
  cbn [fst] in Hdf. subst r. exists df, w'. split; [reflexivity|].
  unfold crypto_historical_etl.fetch_historical_data in Hrun.
  rewrite bind_logger in Hrun.
  apply try_except_ok_inv in Hrun.
  destruct Hrun as [Hbody | (e & w1 & _ & Hh)].
  2:{ left. rewrite bind_logger in Hh. unfold ret in Hh. now inversion Hh. }
  invert_binds. cbv zeta in Hbody. invert_binds.
  unfold ret in Hbody. inversion Hbody; subst df w'. clear Hbody.
  match goal with
  | H : crypto_historical_etl.historical_rows _ _ _ _ ?entries _ = (Ok ?rs, _) |- _ =>
      destruct (historical_rows_shape E _ _ _ _ _ _ _ H) as [Hlen Hall];
      destruct rs as [|r0 rs']
  end.
  { left. reflexivity. }
  right.
  destruct (Hall r0 (or_introl eq_refl)) as (t0 & p0 & m0 & v0 & Hr0).
  split; [rewrite Hr0; reflexivity|]. split.
  - unfold pd_DataFrame. cbn [df_rows]. intros cells Hin.
    apply in_map_iff in Hin. destruct Hin as (r & <- & Hr).
    destruct (Hall r Hr) as (t & p & m & v & ->).
    exists t, p, m, v. reflexivity.
  - intros d entries Hget Hprices.
    unfold pd_DataFrame. cbn [df_rows]. rewrite length_map, Hlen.
    repeat match goal with
    | H : http E _ _ = (Ok _, _) |- _ =>
        unfold http in H; unfold crypto_historical_etl.COIN_ID in H;
        rewrite Hget in H; inversion H; subst; clear H
    | H : subscript (JObj d) "prices" _ = (Ok _, _) |- _ =>
        unfold subscript in H; rewrite Hprices in H; inversion H; subst; clear H
    | H : crypto_historical_etl.iter (JArr entries) _ = (Ok _, _) |- _ =>
        cbn in H; inversion H; subst; clear H
    end.
    reflexivity.
Qed.

(** X15.  Without a database connection the backfill job does nothing:
    it sends no request, writes no file and changes nothing in the
    database; it logs that it could not connect and returns normally. *)
Theorem backfill_without_connection (E : environ) (w : world) :
  pg_connect E (values (DB_CONFIG E)) = false ->
  exists w' earlier,
    crypto_historical_etl.main E w = (Ok tt, w') /\
    store w' = store w /\
    requests w' = requests w /\
    files w' = files w /\
    log w' = Log ERROR "Could not connect to database. Exiting." [] :: earlier.
Proof.
  intros Hpg. unfold crypto_historical_etl.main. rewrite !bind_logger.
  unfold bind at 1, connect_postgres. rewrite Hpg.
  rewrite bind_logger. cbn. do 2 eexists. split; [reflexivity|].
  cbn. repeat split.
Qed.

Section BackfillEdges.

Variable E : environ.

Lemma check_current_data_keeps_files :
  keeps files crypto_historical_etl.check_current_data.
Proof.
  unfold crypto_historical_etl.check_current_data.
  pose proof (count_query_keeps files). job.
Qed.

End BackfillEdges.

(** X16.  When the market chart cannot be fetched, a connected backfill
    run loads nothing: [main] returns normally after exactly one
    request, the committed database and the files are as they were, the
    connection is closed with nothing pending, and the log ends with the
    message that no data was fetched and the closing of the
    connection. *)
Theorem backfill_nothing_fetched (E : environ) (w : world) :
  pg_connect E (values (DB_CONFIG E)) = true ->
  (forall days, http_get E (GetMarketChart "bitcoin" days) = None) ->
  exists w' days earlier,
    crypto_historical_etl.main E w = (Ok tt, w') /\
    committed w' = committed w /\
    session w' = committed w' /\
    files w' = files w /\
    requests w' = GetMarketChart "bitcoin" days :: requests w /\
    log w' = Log INFO "Database connection closed" []
             :: Log ERROR "No historical data fetched. Exiting." []
             :: earlier.
Proof.
  intros Hpg Hnone. unfold crypto_historical_etl.main. rewrite !bind_logger.
  unfold bind at 1, connect_postgres. rewrite Hpg.
  unfold bind at 1. cbn [rollback]. rewrite !bind_logger.
  cbn [logger snd ret negb committed session serial log requests files ticks].
  assert (Hfin : returns (bind close (fun _ => logger INFO "Database connection closed" [])))
    by (intros w0; now eexists).
  rewrite (try_finally_returns _ _ _ Hfin).
  match goal with
  | |- context [fst (try_except ?body ?h ?w0)] =>
      set (w3 := w0);
      assert (Hbody : exists days l tk,
                try_except body h w3 =
                (Ok tt,
                 World (committed w) (committed w) (serial w)
                       (Log ERROR "No historical data fetched. Exiting." [] :: l)
                       (GetMarketChart "bitcoin" days :: requests w)
                       (files w) tk))
  end.
  { unfold try_except.
    match goal with
    | |- context [bind crypto_historical_etl.check_current_data ?k w3] =>
        destruct (step_returns crypto_historical_etl.check_current_data k w3
                    check_current_data_returns) as (count & Hcount & ->)
    end.
    pose proof (check_current_data_keeps_store w3) as Hs.
    pose proof (check_current_data_keeps_requests w3) as Hr.
    pose proof (check_current_data_keeps_files w3) as Hf.
    set (w4 := snd (crypto_historical_etl.check_current_data w3)) in *.
    clearbody w4. clear Hcount.
    cbv zeta. rewrite bind_logger. unfold bind at 1.
    match goal with
    | |- context [crypto_historical_etl.fetch_historical_data E ?d ?w0] =>
        destruct (fetch_historical_data_failed E d w0 (or_introl (Hnone d)))
          as (l & ->)
    end.
    cbn [empty pd_DataFrame df_columns df_rows]. unfold logger at 1.
    unfold store in Hs. subst w3.
    cbn [logger snd committed session serial log requests files ticks] in *.
    injection Hs as Hs1 Hs2 Hs3. rewrite Hs1, Hs2, Hs3, Hr, Hf.
    do 3 eexists. reflexivity. }
  destruct Hbody as (days & l & tk & ->).
  cbn. do 3 eexists. repeat split.
Qed.


Section CollectorShape.

Variable E : environ.

Lemma fetch_coin_shape (coin : string) (w w' : world) (r : dict pyval) :
  crypto_etl.fetch_coin E coin w = (Ok r, w') ->
  keys r =
    ["timestamp"; "coin_id"; "symbol"; "name"; "current_price_usd";
     "market_cap_usd"; "total_volume_usd"; "price_change_24h";
     "price_change_percentage_24h"; "circulating_supply"; "total_supply";
     "ath"; "ath_date"; "atl"; "atl_date"] /\
  exists t, lookup "timestamp" r = Some (PyTime t).
Proof.
  unfold crypto_etl.fetch_coin. intros H. invert_binds.
  unfold ret in H. inversion H; subst r w'. clear H.
  split; [reflexivity|]. eexists. reflexivity.
Qed.

Lemma fetch_coins_shape (coins : list string) :
  forall (w w' : world) (data : list (dict pyval)),
    crypto_etl.fetch_coins E coins w = (Ok data, w') ->
    forall r, In r data ->
      keys r =
        ["timestamp"; "coin_id"; "symbol"; "name"; "current_price_usd";
         "market_cap_usd"; "total_volume_usd"; "price_change_24h";
         "price_change_percentage_24h"; "circulating_supply"; "total_supply";
         "ath"; "ath_date"; "atl"; "atl_date"] /\
      exists t, lookup "timestamp" r = Some (PyTime t).
Proof.
  induction coins as [|coin rest IH]; intros w w' data H.
  - cbn in H. inversion H. intros r [].
  - cbn [crypto_etl.fetch_coins] in H. invert_binds.
    unfold ret in H. inversion H; subst data w'. clear H.
    match goal with
    | H1 : try_except _ _ _ = (Ok ?got, _),
      H2 : crypto_etl.fetch_coins _ _ _ = _ |- _ =>
        pose proof (IH _ _ _ H2) as Hrest;
        apply try_except_ok_inv in H1;
        destruct H1 as [H1 | (e & wh & _ & H1)]
    end.
    + invert_binds.
      match goal with
      | H : ret _ _ = (Ok _, _) |- _ => unfold ret in H; inversion H; subst; clear H
      end.
      match goal with
      | H : crypto_etl.fetch_coin _ _ _ = _ |- _ =>
          pose proof (fetch_coin_shape _ _ _ _ H) as Hrow
      end.
      intros r [<- | Hr]; [exact Hrow | now apply Hrest].
    + match goal with
      | H : bind (logger _ _ _) _ _ = (Ok _, _) |- _ =>
          rewrite bind_logger in H; unfold ret in H; inversion H; subst
      end.
      intros r Hr. now apply Hrest.
Qed.

End CollectorShape.

(** X17.  The frame of the collector.  [fetch_crypto_data] returns either
    an empty frame or a frame whose columns are the fifteen columns of a
    price row (all the columns of the table but [id] and [created_at],
    which the database fills in), in which every row has fifteen cells
    and starts with a timestamp that is not null. *)
Theorem collector_frame_shape (E : environ) (w : world) :
  exists df w',
    crypto_etl.fetch_crypto_data E w = (Ok df, w') /\
    (empty df = true \/
     (df_columns df =
        ["timestamp"; "coin_id"; "symbol"; "name"; "current_price_usd";
         "market_cap_usd"; "total_volume_usd"; "price_change_24h";
         "price_change_percentage_24h"; "circulating_supply"; "total_supply";
         "ath"; "ath_date"; "atl"; "atl_date"] /\
      (forall c, In c (df_columns df) ->
                 In c crypto_etl.expected_columns /\ c <> "id" /\ c <> "created_at") /\
      forall cells, In cells (df_rows df) ->
        List.length cells = 15%nat /\
        exists t, nth_error cells 0 = Some (PyTime t))).
Proof.
  destruct (fetch_crypto_data_data E w) as (data & w' & Hrun & Hdata & _).
  exists (pd_DataFrame data), w'. split; [exact Hrun|].
  destruct (crypto_etl.fetch_coins E crypto_etl.COINS _) as [r w1] eqn:Hcoins.
  cbn [fst] in Hdata. subst r.
  pose proof (fetch_coins_shape E _ _ _ _ Hcoins) as Hall.
  destruct data as [|r0 rest].
  { left. reflexivity. }
  right. destruct (Hall r0 (or_introl eq_refl)) as [Hk0 _].
  assert (Hcols : df_columns (pd_DataFrame (r0 :: rest)) = keys r0) by reflexivity.
  rewrite Hcols, Hk0. split; [reflexivity|]. split.
  - intros c Hc. cbn in Hc.
    repeat (destruct Hc as [<- | Hc];
            [split; [cbn; tauto | split; discriminate]|]).
    destruct Hc.
  - intros cells Hin. unfold pd_DataFrame in Hin. cbn [df_rows] in Hin.
    apply in_map_iff in Hin. destruct Hin as (r & <- & Hr).
    destruct (Hall r Hr) as [Hk (t & Ht)].
    assert (Hlen : List.length (values r) = List.length (keys r))
      by (unfold values, keys; now rewrite !length_map).
    rewrite Hk in Hlen. split; [exact Hlen|].
    exists t. destruct r as [|[k v] r']; [discriminate|].
    cbn in Hk. injection Hk as Hk1 _. subst k.
    cbn in Ht. injection Ht as ->. reflexivity.
Qed.

(** X8, a run: the collector in an environment where no request is
    answered. *)
Lemma collector_nothing_fetched_run :
  exists w' earlier,
    crypto_etl.main offline_environ (world_of (Database None None)) = (Ok tt, w') /\
    store w' = store (world_of (Database None None)) /\
    files w' = files (world_of (Database None None)) /\
    List.length (requests w') =
      (4 + List.length (requests (world_of (Database None None))))%nat /\
    log w' = Log WARNING "No data fetched. Exiting." [] :: earlier.
Proof.
  apply collector_nothing_fetched. intros c _. reflexivity.
Defined.

(** X11, a run: a batch of two observations, the first of which is
    stored already, loaded into a table of one row. *)
Lemma loader_keeps_keys_unique_run :
  let E := sample_environ no_variables (JStr "btc") true in
  let df := pd_DataFrame [observation 0 (PyStr "btc") (PyFloat 100);
                          observation day (PyStr "btc") (PyFloat 101)] in
  let w := world_of (Database (Some (fresh_table 1)) None) in
  exists t',
    crypto_prices (committed (snd (crypto_etl.insert_data E df w))) = Some t' /\
    columns t' = columns (fresh_table 1) /\
    unique_keys (rows t').
Proof.
  cbv zeta.
  apply (loader_keeps_keys_unique (sample_environ no_variables (JStr "btc") true)
           (crypto_etl.insert_data (sample_environ no_variables (JStr "btc") true))
           _ _ (fresh_table 1)).
  - left. reflexivity.
  - reflexivity.
  - reflexivity.
  - intros p. etransitivity; [apply filter_length_le|]. apply le_n.
Defined.


(** X15, a run of the backfill job when the database cannot be
    reached. *)
Lemma backfill_without_connection_run :
  let E := sample_environ no_variables (JStr "btc") false in
  let w := world_of (Database (Some (fresh_table 0)) None) in
  exists w' earlier,
    crypto_historical_etl.main E w = (Ok tt, w') /\
    store w' = store w /\
    requests w' = requests w /\
    files w' = files w /\
    log w' = Log ERROR "Could not connect to database. Exiting." [] :: earlier.
Proof.
  cbv zeta. apply backfill_without_connection. reflexivity.
Defined.

(** X16, a run of the backfill job when no request is answered. *)
Lemma backfill_nothing_fetched_run :
  let w := world_of (Database (Some (fresh_table 0)) None) in
  exists w' days earlier,
    crypto_historical_etl.main offline_environ w = (Ok tt, w') /\
    committed w' = committed w /\
    session w' = committed w' /\
    files w' = files w /\
    requests w' = GetMarketChart "bitcoin" days :: requests w /\
    log w' = Log INFO "Database connection closed" []
             :: Log ERROR "No historical data fetched. Exiting." []
             :: earlier.
Proof.
  cbv zeta. apply backfill_nothing_fetched; [reflexivity | intros days; reflexivity].
Defined.

(** *** The columns the database fills in *)





(** *** How a collector run can end *)

Lemma bind_raise_inv {A B : Type} (c : M A) (k : A -> M B) (w w' : world)
    (e : exn) :
  bind c k w = (Raise e, w') ->
  c w = (Raise e, w') \/ exists a w1, c w = (Ok a, w1) /\ k a w1 = (Raise e, w').
Proof.
  unfold bind. destruct (c w) as [[a|e0|n] w1]; intros H.
  - right. eauto.
  - left. inversion H. reflexivity.
  - discriminate.
Qed.

Section LoaderErrors.

Variable E : environ.

Lemma execute_insert_raises (cols : list string) (vals : list pyval)
    (w w' : world) (e : exn) :
  execute_insert E cols vals w = (Raise e, w') ->
  exists pe, e = DatabaseError pe.
Proof.
  unfold execute_insert, bind, get.
  destruct (crypto_prices (session w)) as [t|].
  - destruct (forallb adaptable vals &&
              forallb (fun c => mem c (columns t)) (cols ++ UNIQUE_KEY) &&
              draws_serial t cols);
      cbn; destruct (pg_insert _ _ _ _ _); cbn; intros H;
      inversion H; eauto.
  - cbn. intros H. inversion H. eauto.
Qed.

Lemma executemany_raises (cols : list string) (values : list (list pyval)) :
  forall (w w' : world) (e : exn),
    executemany E cols values w = (Raise e, w') ->
    exists pe, e = DatabaseError pe.
Proof.
  induction values as [|vals rest IH]; intros w w' e H.
  - discriminate.
  - cbn [executemany] in H. apply bind_raise_inv in H.
    destruct H as [H | (n & w1 & _ & H)].
    + exact (execute_insert_raises _ _ _ _ _ H).
    + apply bind_raise_inv in H. destruct H as [H | (m & w2 & _ & H)].
      * exact (IH _ _ _ H).
      * discriminate.
Qed.

Lemma load_batch_raises (ok_msg err_msg : string) (df : DataFrame)
    (w w' : world) (e : exn) :
  load_batch E ok_msg err_msg df w = (Raise e, w') ->
  exists pe, e = DatabaseError pe.
Proof.
  unfold load_batch. destruct (empty df); [discriminate|].
  unfold try_except.
  destruct (bind (executemany E (df_columns df) (prepare_values df)) _ w)
    as [[[]|e0|n] w1] eqn:Hbody; intros H.
  - discriminate.
  - cbn in H. inversion H; subst e0.
    apply bind_raise_inv in Hbody. destruct Hbody as [Hb | (n & w2 & _ & Hb)].
    + exact (executemany_raises _ _ _ _ _ Hb).
    + cbn in Hb. discriminate.
  - discriminate.
Qed.

Lemma collector_outcomes_run (w : world) :
  exists r w',
    crypto_etl.main E w = (r, w') /\
    (r = Ok tt \/ exists pe, r = Raise (DatabaseError pe)) /\
    (store w' = store w \/
     (session w' = committed w' /\
      exists t',
        crypto_prices (committed w') = Some t' /\
        forall c, In c crypto_etl.expected_columns -> In c (columns t'))).
Proof.
  unfold crypto_etl.main. rewrite bind_logger.
  set (w0 := snd (logger _ _ _ w)).
  assert (Hst0 : store w0 = store w) by reflexivity. clearbody w0.
  unfold try_except.
  match goal with
  | |- context [bind (crypto_etl.fetch_crypto_data E) ?k w0] =>
      destruct (step_returns (crypto_etl.fetch_crypto_data E) k w0
                  (fetch_crypto_data_returns E)) as (df & Hdf & ->)
  end.
  pose proof (fetch_crypto_data_keeps_store E w0) as Hst1.
  set (w1 := snd (crypto_etl.fetch_crypto_data E w0)) in *. clearbody w1. clear Hdf.
  destruct (empty df) eqn:Hemp.
  { cbn. do 2 eexists. split; [reflexivity|]. split; [now left|]. left.
    unfold store in *. cbn. congruence. }
  match goal with
  | |- context [bind (crypto_etl.save_files E df) ?k w1] =>
      destruct (step_returns (crypto_etl.save_files E df) k w1
                  (save_files_returns E df)) as ([] & Hsf & ->)
  end.
  pose proof (save_files_keeps_store E df w1) as Hst2.
  set (w2 := snd (crypto_etl.save_files E df w1)) in *. clearbody w2. clear Hsf.
  destruct (connect_postgres_run E w2) as [Hyes Hno].
  match goal with
  | |- context [bind (connect_postgres E) ?k w2] =>
      destruct (step_returns (connect_postgres E) k w2 (connect_postgres_returns E))
        as (conn & Hconn & ->)
  end.
  destruct (pg_connect E (values (DB_CONFIG E))) eqn:Hpg.
  - destruct (Hyes eq_refl) as (Hfst & Hst3 & _). clear Hyes Hno.
    rewrite Hconn in Hfst. cbn in Hfst. inversion Hfst; subst conn. clear Hfst Hconn.
    set (w3 := snd (connect_postgres E w2)) in *. clearbody w3.
    cbn [negb].
    assert (Hfin : returns (bind close (fun _ => logger INFO "Database connection closed" [])))
      by (intros w'; now eexists).
    rewrite (try_finally_returns _ _ _ Hfin).
    match goal with
    | |- context [fst (?b w3)] => set (BLOCK := b)
    end.
    assert (Hblock : exists r wend,
      BLOCK w3 = (r, wend) /\
      (r = Ok tt \/ exists pe, r = Raise (DatabaseError pe)) /\
      exists t',
        crypto_prices (committed wend) = Some t' /\
        forall c, In c crypto_etl.expected_columns -> In c (columns t')).
    { unfold BLOCK.
      destruct (create_table_run w3) as (w4 & Hcreate & Hsc4 & _ & Hnew & Hkeep).
      assert (Ht4 : exists t4,
                crypto_prices (committed w4) = Some t4 /\
                forall c, In c crypto_etl.expected_columns -> In c (columns t4)).
      { destruct (crypto_etl.schema_mismatch
                    (crypto_etl.existing_columns_of (session w3))) eqn:Hm.
        - rewrite (Hnew eq_refl). eexists. split; [reflexivity|].
          intros c Hc. exact Hc.
        - rewrite (Hkeep eq_refl).
          pose proof (proj1 (schema_mismatch_false _) Hm) as Hall.
          unfold crypto_etl.existing_columns_of in Hall.
          destruct (crypto_prices (session w3)) as [t3|].
          + exists t3. split; [reflexivity | exact Hall].
          + exfalso. apply (Hall "id"). cbn. tauto. }
      destruct Ht4 as (t4 & Ht4 & Hall4).
      unfold bind at 1. rewrite Hcreate.
      rewrite insert_data_load_batch.
      destruct (load_batch_grown E "Inserted {rows_affected} new rows into '{TABLE_NAME}'"
                  "Error inserting data: {e}" df w4 Hsc4) as (_ & Hg5 & _).
      pose proof (load_batch_no_exit E "Inserted {rows_affected} new rows into '{TABLE_NAME}'"
                  "Error inserting data: {e}" df w4) as Hnx.
      pose proof (load_batch_raises "Inserted {rows_affected} new rows into '{TABLE_NAME}'"
                  "Error inserting data: {e}" df w4) as Hdb.
      unfold bind at 1.
      destruct (load_batch E _ _ df w4) as [[[]|e|code] w5]; cbn in Hg5, Hnx.
      + match goal with
        | |- context [bind crypto_etl.summarize_db ?k w5] =>
            destruct (step_returns crypto_etl.summarize_db k w5 summarize_db_returns)
              as ([] & Hsum & ->)
        end.
        pose proof (summarize_db_keeps_store w5) as Hst6.
        set (w6 := snd (crypto_etl.summarize_db w5)) in *. clearbody w6. clear Hsum.
        cbn. do 2 eexists. split; [reflexivity|]. split; [now left|]. cbn.
        assert (Hc6 : committed w6 = committed w5) by (unfold store in *; congruence).
        rewrite Hc6. destruct Hg5 as [_ [Hsame | (t & added & Hb & Ha)]].
        * exists t4. rewrite Hsame. auto.
        * rewrite Ht4 in Hb. injection Hb as <-.
          eexists. split; [exact Ha | exact Hall4].
      + destruct (Hdb w5 e eq_refl) as (pe & ->).
        do 2 eexists. split; [reflexivity|]. split; [right; eauto|].
        destruct Hg5 as [_ [Hsame | (t & added & Hb & Ha)]].
        * exists t4. rewrite Hsame. auto.
        * rewrite Ht4 in Hb. injection Hb as <-.
          eexists. split; [exact Ha | exact Hall4].
      + now destruct (Hnx code). }
    destruct Hblock as (r & wend & Hrun & Hr & t' & Ht' & Hall').
    rewrite Hrun. cbn [fst snd].
    destruct Hr as [-> | (pe & ->)].
    + do 2 eexists. split; [reflexivity|]. split; [now left|]. right. cbn.
      split; [reflexivity|]. eauto.
    + cbn. do 2 eexists. split; [reflexivity|]. split; [right; eauto|]. right.
      cbn. split; [reflexivity|]. eauto.
  - destruct (Hno eq_refl) as (Hfst & Hst3 & _). clear Hyes Hno.
    rewrite Hconn in Hfst. cbn in Hfst. inversion Hfst; subst conn. clear Hfst Hconn.
    set (w3 := snd (connect_postgres E w2)) in *. clearbody w3.
    cbn. do 2 eexists. split; [reflexivity|]. split; [now left|]. left.
    unfold store in *. cbn. congruence.
Qed.

End LoaderErrors.


(** X23.  The reconciler's work is committed before the load.  After a
    collector run, however it ended, either the database is exactly as
    it was before (nothing was fetched or the database could not be
    reached), or nothing is left pending on the connection and the
    committed [crypto_prices] table has every expected column: a load
    that fails is rolled back to the table the reconciler has left, not
    to the table the run found. *)
Theorem collector_leaves_expected_table (E : environ) (w : world) :
  store (snd (crypto_etl.main E w)) = store w \/
  (session (snd (crypto_etl.main E w)) = committed (snd (crypto_etl.main E w)) /\
   exists t',
     crypto_prices (committed (snd (crypto_etl.main E w))) = Some t' /\
     forall c, In c crypto_etl.expected_columns -> In c (columns t')).
Proof.
  destruct (collector_outcomes_run E w) as (r & w' & Hrun & _ & Hw).
  rewrite Hrun. exact Hw.
Qed.

(** *** Further facts about the forecaster *)




Lemma filter_idem {A : Type} (f : A -> bool) (l : list A) :
  filter f (filter f l) = filter f l.
Proof.
  induction l as [|a l IH]; [reflexivity|].
  cbn. destruct (f a) eqn:Hf; cbn; [rewrite Hf; now f_equal | exact IH].
Qed.

(** X2.  Pruning twice is pruning once: a second run of
    [cleanup_old_forecasts] with the same number of days, at the same
    server time, leaves the committed database as the first run left
    it. *)
Theorem pruner_idempotent (E : environ) (days : Z) (w : world) :
  let w1 := snd (bitcoin_prophet_forecast.cleanup_old_forecasts E days w) in
  committed (snd (bitcoin_prophet_forecast.cleanup_old_forecasts E days w1)) =
  committed w1.
Proof.
  cbv zeta.
  destruct (cleanup_run E days w) as (w1 & Hrun1 & _ & Hp1 & Hq1).
  rewrite Hrun1. cbn [snd].
  destruct (cleanup_run E days w1) as (w2 & Hrun2 & _ & Hp2 & Hq2).
  rewrite Hrun2. cbn [snd].
  destruct (committed w2) as [a2 b2], (committed w1) as [a1 b1].
  cbn [crypto_prices crypto_predictions] in *. subst a2 b2 b1. f_equal.
  destruct (crypto_predictions (committed w)) as [l0|]; [|reflexivity].
  cbn [option_map]. f_equal. apply filter_idem.
Qed.

Section ForecasterCases.

Variable E : environ.

Ltac tidy_world :=
  cbn [logger snd fst ret raise exit committed session serial log requests
       files ticks rollback].

Ltac failed :=
  do 2 eexists; (split; [reflexivity|]); tidy_world;
  (split; [reflexivity|]); (split; [reflexivity|]);
  left; (split; [eauto|]); split; reflexivity.

Lemma bitcoin_history_nil (t : table) :
  bitcoin_history t = [] <-> filter (is_coin "bitcoin") (rows t) = [].
Proof.
  unfold bitcoin_history. split.
  - intros H. apply map_eq_nil in H.
    destruct (filter (is_coin "bitcoin") (rows t)) as [|r l]; [reflexivity|].
    unfold order_by_timestamp in H. cbn [fold_right] in H.
    destruct (fold_right insert_sorted [] l) as [|s l']; cbn in H.
    + discriminate.
    + destruct (key_leb r s); discriminate.
  - intros ->. reflexivity.
Qed.

Lemma read_prices_cases (w : world) :
  (exists e,
      bitcoin_prophet_forecast.read_prices w =
      (Raise e,
       World (committed w) (committed w) (serial w) (log w) (requests w)
             (files w) (ticks w))) \/
  (exists t,
      crypto_prices (committed w) = Some t /\
      bitcoin_prophet_forecast.read_prices w =
      (Ok (bitcoin_history t),
       World (committed w) (committed w) (serial w) (log w) (requests w)
             (files w) (ticks w))).
Proof.
  unfold bitcoin_prophet_forecast.read_prices,
    bitcoin_prophet_forecast.engine_connect, bind, rollback, get.
  cbn [session committed].
  destruct (crypto_prices (committed w)) as [t|] eqn:Ht.
  - destruct (find (fun c => negb (mem c (columns t)))
                ["timestamp"; "current_price_usd"; "coin_id"]) eqn:Hfind.
    + left. eexists. reflexivity.
    + right. exists t. split; reflexivity.
  - left. eexists. reflexivity.
Qed.

Lemma cleanup_frame (days : Z) (w : world) :
  requests (snd (bitcoin_prophet_forecast.cleanup_old_forecasts E days w)) =
    requests w /\
  files (snd (bitcoin_prophet_forecast.cleanup_old_forecasts E days w)) =
    files w.
Proof.
  unfold bitcoin_prophet_forecast.cleanup_old_forecasts, try_except,
    bitcoin_prophet_forecast.engine_connect,
    bitcoin_prophet_forecast.delete_stale, bind, get, rollback, commit,
    set_session, ret, raise.
  cbn [session committed].
  destruct (crypto_predictions (committed w)) as [l|]; cbn.
  - destruct (Z.of_nat _ >? 0); cbn; split; reflexivity.
  - split; reflexivity.
Qed.

Lemma stamped_symbol (rows : list bitcoin_prophet_forecast.forecast_row) :
  forall k p, In p (stamped E k rows) -> symbol p = PyStr "BTC".
Proof.
  induction rows as [|r rest IH]; intros k p Hp; [destruct Hp|].
  cbn [stamped In] in Hp. destruct Hp as [<- | Hp]; [reflexivity|].
  now apply (IH (S k)).
Qed.

Lemma future_rows_length (model : Z -> pyval * pyval * pyval) (last : Z) :
  List.length (future_rows model last) = 30%nat.
Proof. unfold future_rows. now rewrite length_map, length_seq. Qed.

Lemma pipeline_cases (w : world) :
  exists r w',
    bitcoin_prophet_forecast.pipeline E (DB_CONFIG E) w = (r, w') /\
    crypto_prices (committed w') = crypto_prices (committed w) /\
    requests w' = requests w /\
    ((((exists e, r = Raise e) \/ r = SysExit 1) /\
      committed w' = committed w /\ files w' = files w)
     \/
     (r = Ok tt /\
      pg_connect E (values (DB_CONFIG E)) = true /\
      fs_writable E = true /\
      files w' = "crypto_data/bitcoin_forecast_30days.csv"
                 :: "crypto_data/bitcoin_forecast_full.csv" :: files w /\
      exists old t model,
        crypto_predictions (committed w) = Some old /\
        crypto_prices (committed w) = Some t /\
        bitcoin_history t <> [] /\
        prophet_fit E (bitcoin_prophet_forecast.dropna (bitcoin_history t)) =
          Some model /\
        exists new,
          List.length new = 30%nat /\
          (forall p, In p new -> symbol p = PyStr "BTC") /\
          crypto_predictions (committed w') =
            Some (filter (fun p => negb (bitcoin_prophet_forecast.stale (pg_now E) 30 p))
                         (old ++ new)))).
Proof.
  unfold bitcoin_prophet_forecast.pipeline. rewrite !bind_logger. tidy_world.
  destruct (pg_connect E (values (DB_CONFIG E))) eqn:Hpg.
  2:{ unfold bind at 1. unfold raise at 1. failed. }
  unfold bind at 1. unfold bitcoin_prophet_forecast.engine_connect at 1.
  unfold bind at 1. tidy_world.
  unfold bind at 1.
  destruct (crypto_predictions (committed w)) as [old|] eqn:Hold.
  2:{ unfold bitcoin_prophet_forecast.ensure_table_exists, try_except,
        bitcoin_prophet_forecast.engine_connect, bind, get.
      tidy_world. rewrite Hold. tidy_world. failed. }
  match goal with
  | |- context [bitcoin_prophet_forecast.ensure_table_exists ?w0] =>
      destruct (ensure_table_exists_run w0 old Hold) as (l1 & ->)
  end.
  tidy_world. rewrite bind_logger. tidy_world. unfold bind at 1.
  match goal with
  | |- context [bitcoin_prophet_forecast.read_prices ?w0] =>
      destruct (read_prices_cases w0) as [(e & ->) | (t & Ht & ->)]
  end.
  { tidy_world. failed. }
  tidy_world. cbn [committed] in Ht. rewrite bind_logger. tidy_world.
  destruct (bitcoin_history t) as [|row0 rest] eqn:Hhist.
  { rewrite !bind_logger. tidy_world. failed. }
  rewrite !bind_logger. tidy_world.
  destruct (prophet_fit E (bitcoin_prophet_forecast.dropna (row0 :: rest)))
    as [model|] eqn:Hfit.
  2:{ unfold bind at 1. unfold raise at 1. failed. }
  unfold bind at 1. tidy_world. rewrite !bind_logger. tidy_world.
  destruct (bitcoin_prophet_forecast.history_dates
              (bitcoin_prophet_forecast.dropna (row0 :: rest)))
    as [|t0 l0] eqn:Hh.
  { unfold bind at 1. cbn [bitcoin_prophet_forecast.make_future_dataframe].
    unfold raise at 1. failed. }
  unfold bitcoin_prophet_forecast.make_future_dataframe.
  unfold bind at 1. tidy_world. rewrite future_rows_tail.
  unfold bind at 1. unfold write_file at 1.
  destruct (fs_writable E) eqn:Hfs.
  2:{ failed. }
  unfold bind at 1. rewrite (write_file_run E _ _ Hfs). tidy_world.
  rewrite bind_logger. tidy_world. unfold bind at 1.
  match goal with
  | |- context [bitcoin_prophet_forecast.save_forecast_to_db E ?r ?w0] =>
      destruct (save_forecast_run E r w0 old Hold) as (l2 & ->)
  end.
  tidy_world. unfold bind at 1.
  match goal with
  | |- context [bitcoin_prophet_forecast.cleanup_old_forecasts E 30 ?w0] =>
      pose proof (cleanup_frame 30 w0) as [Hreq Hfiles];
      destruct (cleanup_run E 30 w0) as (w1 & Hrun & _ & Hprices & Hpreds);
      rewrite Hrun in Hreq, Hfiles |- *
  end.
  cbn [committed set_predictions crypto_predictions crypto_prices option_map
       snd requests files]
    in Hprices, Hpreds, Hreq, Hfiles.
  rewrite !bind_logger. tidy_world.
  do 2 eexists. split; [reflexivity|]. tidy_world.
  split; [exact Hprices|].
  split.
  { exact Hreq. }
  right. split; [reflexivity|]. split; [reflexivity|]. split; [reflexivity|].
  split; [exact Hfiles|].
  exists old, t, model. split; [reflexivity|]. split; [exact Ht|].
  split; [rewrite Hhist; discriminate|]. split; [rewrite Hhist; exact Hfit|].
  eexists. split; [|split; [|exact Hpreds]].
  - rewrite stamped_length. apply future_rows_length.
  - apply stamped_symbol.
Qed.

Lemma check_environment_cases (w : world) :
  (exists l,
      bitcoin_prophet_forecast.check_environment E w =
      (SysExit 1,
       World (committed w) (session w) (serial w) l (requests w) (files w)
             (ticks w))) \/
  ((forall v, In v POSTGRES_VARS ->
              bitcoin_prophet_forecast.falsy (getenv E v) = false) /\
   exists l,
     bitcoin_prophet_forecast.check_environment E w =
     (Ok (DB_CONFIG E),
      World (committed w) (session w) (serial w) l (requests w) (files w)
            (ticks w))).
Proof.
  destruct (forallb (fun v => negb (bitcoin_prophet_forecast.falsy v))
              [getenv E "POSTGRES_HOST"; getenv E "POSTGRES_PORT";
               getenv E "POSTGRES_DB"; getenv E "POSTGRES_USER";
               getenv E "POSTGRES_PASSWORD"]) eqn:Hall.
  - right.
    assert (Hvars : forall v, In v POSTGRES_VARS ->
                      bitcoin_prophet_forecast.falsy (getenv E v) = false).
    { cbn [forallb] in Hall. rewrite !andb_true_iff in Hall.
      destruct Hall as (H1 & H2 & H3 & H4 & H5 & _).
      apply negb_true_iff in H1, H2, H3, H4, H5.
      intros v [<- | [<- | [<- | [<- | [<- | []]]]]]; assumption. }
    split; [exact Hvars|]. exact (check_environment_run E w Hvars).
  - left. unfold bitcoin_prophet_forecast.check_environment.
    rewrite !bind_logger. tidy_world. rewrite Hall. cbn [negb].
    rewrite !bind_logger. tidy_world. unfold exit. eexists. reflexivity.
Qed.

Lemma script_cases (w : world) :
  exists r w',
    bitcoin_prophet_forecast.script E w = (r, w') /\
    crypto_prices (committed w') = crypto_prices (committed w) /\
    requests w' = requests w /\
    ((r = SysExit 1 /\ committed w' = committed w /\ files w' = files w)
     \/
     (r = Ok tt /\
      (forall v, In v POSTGRES_VARS ->
                 bitcoin_prophet_forecast.falsy (getenv E v) = false) /\
      pg_connect E (values (DB_CONFIG E)) = true /\
      fs_writable E = true /\
      files w' = "crypto_data/bitcoin_forecast_30days.csv"
                 :: "crypto_data/bitcoin_forecast_full.csv" :: files w /\
      exists old t model,
        crypto_predictions (committed w) = Some old /\
        crypto_prices (committed w) = Some t /\
        bitcoin_history t <> [] /\
        prophet_fit E (bitcoin_prophet_forecast.dropna (bitcoin_history t)) =
          Some model /\
        exists new,
          List.length new = 30%nat /\
          (forall p, In p new -> symbol p = PyStr "BTC") /\
          crypto_predictions (committed w') =
            Some (filter (fun p => negb (bitcoin_prophet_forecast.stale (pg_now E) 30 p))
                         (old ++ new)))).
Proof.
  unfold bitcoin_prophet_forecast.script. unfold bind at 1.
  destruct (check_environment_cases w) as [(l & ->) | (Hvars & l & ->)].
  - do 2 eexists. split; [reflexivity|]. tidy_world.
    split; [reflexivity|]. split; [reflexivity|]. left. auto.
  - match goal with
    | |- context [try_except _ _ ?w0] =>
        destruct (pipeline_cases w0)
          as (r & w' & Hrun & Hprices & Hreq &
              [([(e & ->) | ->] & Hc & Hf) | (-> & Hok)])
    end; unfold try_except; rewrite Hrun;
      cbn [committed requests files] in Hprices, Hreq.
    + rewrite !bind_logger. tidy_world. unfold exit.
      do 2 eexists. split; [reflexivity|]. tidy_world.
      split; [exact Hprices|]. split; [exact Hreq|]. left.
      cbn [committed files] in Hc, Hf. auto.
    + do 2 eexists. split; [reflexivity|].
      split; [exact Hprices|]. split; [exact Hreq|]. left.
      cbn [committed files] in Hc, Hf. auto.
    + do 2 eexists. split; [reflexivity|].
      split; [exact Hprices|]. split; [exact Hreq|]. right.
      cbn [committed files] in Hok.
      split; [reflexivity|]. split; [exact Hvars|]. exact Hok.
Qed.

End ForecasterCases.


(** X4.  The forecast job only reads [crypto_prices] and asks nothing of
    the market-data API: however a run ends, the committed price table is
    the one the run found and no request has been sent. *)
Theorem forecaster_reads_prices_only (E : environ) (w : world) :
  crypto_prices (committed (snd (bitcoin_prophet_forecast.script E w))) =
    crypto_prices (committed w) /\
  requests (snd (bitcoin_prophet_forecast.script E w)) = requests w.
Proof.
  destruct (script_cases E w) as (r & w' & Hrun & Hprices & Hreq & _).
  rewrite Hrun. auto.
Qed.

(** X5.  The forecast job needs both tables and some bitcoin history.
    When [crypto_predictions] does not exist (the job never creates it),
    when [crypto_prices] does not exist, or when it holds no row for
    bitcoin, the run exits with status 1 and has changed neither the
    committed database nor the files. *)
Theorem forecaster_needs_tables (E : environ) (w : world) :
  crypto_predictions (committed w) = None \/
  crypto_prices (committed w) = None \/
  (exists t, crypto_prices (committed w) = Some t /\
             filter (is_coin "bitcoin") (rows t) = []) ->
  fst (bitcoin_prophet_forecast.script E w) = SysExit 1 /\
  committed (snd (bitcoin_prophet_forecast.script E w)) = committed w /\
  files (snd (bitcoin_prophet_forecast.script E w)) = files w.
Proof.
  intros Hmiss.
  destruct (script_cases E w)
    as (r & w' & Hrun & _ & _ &
        [(-> & Hc & Hf) | (-> & _ & _ & _ & _ & old & t & model & Hold & Ht & Hne & _)]);
    rewrite Hrun; cbn [fst snd]; [auto|].
  exfalso. destruct Hmiss as [Hn | [Hn | (t' & Ht' & Hnil)]]; try congruence.
  apply Hne. apply bitcoin_history_nil. congruence.
Qed.

(** X6.  Failures of what the forecast job depends on are fatal and leave
    no trace in the database: when the database cannot be reached, when
    the data directory cannot be written, or when Prophet cannot fit the
    clean bitcoin history, the run exits with status 1, the committed
    database is unchanged (nothing of the forecast is saved) and no file
    has been written. *)
Theorem forecaster_failure_is_clean (E : environ) (w : world) :
  pg_connect E (values (DB_CONFIG E)) = false \/
  fs_writable E = false \/
  (exists t, crypto_prices (committed w) = Some t /\
             prophet_fit E (bitcoin_prophet_forecast.dropna (bitcoin_history t))
             = None) ->
  fst (bitcoin_prophet_forecast.script E w) = SysExit 1 /\
  committed (snd (bitcoin_prophet_forecast.script E w)) = committed w /\
  files (snd (bitcoin_prophet_forecast.script E w)) = files w.
Proof.
  intros Hfail.
  destruct (script_cases E w)
    as (r & w' & Hrun & _ & _ &
        [(-> & Hc & Hf) |
         (-> & _ & Hpg & Hfs & _ & old & t & model & Hold & Ht & Hne & Hfit & _)]);
    rewrite Hrun; cbn [fst snd]; [auto|].
  exfalso. destruct Hfail as [Hn | [Hn | (t' & Ht' & Hnone)]]; congruence.
Qed.

(** X25.  What a forecast run that returns normally has done.  If the
    script returns (exit status 0), then the five variables were set,
    the database was reached, both tables existed, [crypto_prices] held
    bitcoin rows and Prophet fitted the clean history; the run has
    written exactly two files, the full forecast and then the 30-day
    forecast, and the predictions table holds what the pruner keeps of
    the old rows followed by 30 new rows, all of symbol "BTC". *)
Theorem forecaster_success (E : environ) (w : world) :
  fst (bitcoin_prophet_forecast.script E w) = Ok tt ->
  (forall v, In v POSTGRES_VARS ->
             bitcoin_prophet_forecast.falsy (getenv E v) = false) /\
  pg_connect E (values (DB_CONFIG E)) = true /\
  files (snd (bitcoin_prophet_forecast.script E w)) =
    "crypto_data/bitcoin_forecast_30days.csv"
    :: "crypto_data/bitcoin_forecast_full.csv" :: files w /\
  exists old t model new,
    crypto_predictions (committed w) = Some old /\
    crypto_prices (committed w) = Some t /\
    filter (is_coin "bitcoin") (rows t) <> [] /\
    prophet_fit E (bitcoin_prophet_forecast.dropna (bitcoin_history t)) =
      Some model /\
    List.length new = 30%nat /\
    (forall p, In p new -> symbol p = PyStr "BTC") /\
    crypto_predictions (committed (snd (bitcoin_prophet_forecast.script E w))) =
      Some (filter (fun p => negb (bitcoin_prophet_forecast.stale (pg_now E) 30 p))
                   (old ++ new)).
Proof.
  intros Hok.
  destruct (script_cases E w)
    as (r & w' & Hrun & _ & _ &
        [(-> & _) |
         (-> & Hvars & Hpg & _ & Hfiles & old & t & model & Hold & Ht & Hne &
          Hfit & new & Hlen & Hbtc & Hpreds)]);
    rewrite Hrun in Hok |- *; cbn [fst snd] in *; [discriminate|].
  split; [exact Hvars|]. split; [exact Hpg|]. split; [exact Hfiles|].
  exists old, t, model, new. split; [exact Hold|]. split; [exact Ht|].
  split; [|auto].
  intros Hnil. apply Hne. now apply bitcoin_history_nil.
Qed.

(** X25, a run: the forecaster on ten days of bitcoin prices. *)
Lemma forecaster_success_run :
  files (snd (bitcoin_prophet_forecast.script ten_days_environ ten_days)) =
    "crypto_data/bitcoin_forecast_30days.csv"
    :: "crypto_data/bitcoin_forecast_full.csv" :: files ten_days.
Proof.
  apply (forecaster_success ten_days_environ ten_days).
  vm_compute. reflexivity.
Defined.



(** X5, a run of the forecaster without a predictions table. *)
Lemma forecaster_needs_tables_run :
  let w := world_of (Database (Some (fresh_table 10)) None) in
  fst (bitcoin_prophet_forecast.script ten_days_environ w) = SysExit 1 /\
  committed (snd (bitcoin_prophet_forecast.script ten_days_environ w)) = committed w /\
  files (snd (bitcoin_prophet_forecast.script ten_days_environ w)) = files w.
Proof.
  cbv zeta. apply forecaster_needs_tables. left. reflexivity.
Defined.

(** X6, a run of the forecaster when the database cannot be
    reached. *)
Lemma forecaster_failure_is_clean_run :
  let E := sample_environ all_variables (JStr "btc") false in
  fst (bitcoin_prophet_forecast.script E ten_days) = SysExit 1 /\
  committed (snd (bitcoin_prophet_forecast.script E ten_days)) = committed ten_days /\
  files (snd (bitcoin_prophet_forecast.script E ten_days)) = files ten_days.
Proof.
  cbv zeta. apply forecaster_failure_is_clean. left. reflexivity.
Defined.

(** *** The recent forecasts *)












(** *** What the environment check logs *)

Lemma stars_length_eq (s1 s2 : string) :
  String.length s1 = String.length s2 ->
  bitcoin_prophet_forecast.stars s1 = bitcoin_prophet_forecast.stars s2.
Proof.
  unfold bitcoin_prophet_forecast.stars. revert s2.
  induction s1 as [|c1 s1 IH]; intros [|c2 s2] H; try discriminate.
  - reflexivity.
  - cbn in H. injection H as H. cbn. f_equal. now apply IH.
Qed.

Lemma falsy_length_eq (s1 s2 : string) :
  String.length s1 = String.length s2 ->
  bitcoin_prophet_forecast.falsy (Some s1) = bitcoin_prophet_forecast.falsy (Some s2).
Proof. destruct s1, s2; intros H; try discriminate; reflexivity. Qed.

(** X21.  The environment check does not log the password.  Two runs of
    the check of the forecaster in environments that differ only in the
    value of POSTGRES_PASSWORD, the two passwords being of the same
    length, write the same log and end the same way: of the password,
    the log shows only a mask of its length. *)
Theorem password_is_masked (E1 E2 : environ) (p1 p2 : string) (w : world) :
  (forall v, v <> "POSTGRES_PASSWORD" -> getenv E1 v = getenv E2 v) ->
  getenv E1 "POSTGRES_PASSWORD" = Some p1 ->
  getenv E2 "POSTGRES_PASSWORD" = Some p2 ->
  String.length p1 = String.length p2 ->
  log (snd (bitcoin_prophet_forecast.check_environment E1 w)) =
    log (snd (bitcoin_prophet_forecast.check_environment E2 w)) /\
  exit_status (fst (bitcoin_prophet_forecast.check_environment E1 w)) =
    exit_status (fst (bitcoin_prophet_forecast.check_environment E2 w)).
Proof.
  intros Hsame H1 H2 Hlen.
  unfold bitcoin_prophet_forecast.check_environment.
  rewrite !bind_logger.
  rewrite (Hsame "POSTGRES_HOST"), (Hsame "POSTGRES_PORT"),
    (Hsame "POSTGRES_DB"), (Hsame "POSTGRES_USER") by discriminate.
  rewrite H1, H2.
  destruct p1 as [|c1 s1], p2 as [|c2 s2]; try discriminate.
  { split; reflexivity. }
  rewrite (stars_length_eq (String c1 s1) (String c2 s2) Hlen).
  cbn [forallb filter snd bitcoin_prophet_forecast.falsy String.eqb negb andb].
  match goal with
  | |- context [if negb ?b then _ else _] => destruct b
  end; split; reflexivity.
Qed.

(** X21, a run: two passwords of seven characters. *)
Lemma password_is_masked_run :
  let E1 := sample_environ (fun v => if (v =? "POSTGRES_PASSWORD")%string
                                     then Some "hunter2" else Some "x")
                           (JStr "btc") true in
  let E2 := sample_environ (fun v => if (v =? "POSTGRES_PASSWORD")%string
                                     then Some "letmein" else Some "x")
                           (JStr "btc") true in
  log (snd (bitcoin_prophet_forecast.check_environment E1 ten_days)) =
    log (snd (bitcoin_prophet_forecast.check_environment E2 ten_days)) /\
  exit_status (fst (bitcoin_prophet_forecast.check_environment E1 ten_days)) =
    exit_status (fst (bitcoin_prophet_forecast.check_environment E2 ten_days)).
Proof.
  cbv zeta. apply (password_is_masked _ _ "hunter2" "letmein").
  - intros v Hv. cbn. apply String.eqb_neq in Hv. now rewrite Hv.
  - reflexivity.
  - reflexivity.
  - reflexivity.
Defined.
